(** * salt-tool-uv-formula: the [uv] execution module and the [uv_tool] state module

    A shallow embedding of [_modules/uv.py] and [_states/uv_tool.py].

    The Python code talks to the outside through Salt's execution functions
    ([cmd.run_all], [cmd.run], [http.query]), through [os.getuid] and
    [pathlib], and through the [packaging], [re], [shlex] and [json]
    libraries.  None of these belongs to the repository; they are the fields
    of the records [Host] and [Packaging] below, and every function of the
    two modules is written over an arbitrary host.  Exceptions are values of
    [exn]; a computation is a state transformer that returns either a value
    or a raised exception together with the new state. *)

From stdpp Require Import gmap strings list.
From Stdlib Require Import ZArith String Ascii Bool Lia.
From Stdlib Require Import Sorted.
From Stdlib Require OrderedTypeEx.

Open Scope string_scope.
Open Scope list_scope.

(** ** Exceptions and results *)

(** The exception classes the two modules raise or let through.  The first two
    are Salt's ([salt.exceptions]); the others are raised by the Python
    runtime or by a library and carry what the code could observe. *)
Inductive exn : Type :=
| CommandExecutionError (msg : string)
| SaltInvocationError (msg : string)
| StopIteration
| KeyError (key : string)
| InvalidVersion (text : string)
| InvalidSpecifier (text : string)
| JSONDecodeError (text : string)
| HostError (descr : string).

(** [str(err)] for the two Salt classes is the message they were built with. *)
Definition str_exn (e : exn) : string :=
  match e with
  | CommandExecutionError msg => msg
  | SaltInvocationError msg => msg
  | StopIteration => ""
  | KeyError key => key
  | InvalidVersion text => text
  | InvalidSpecifier text => text
  | JSONDecodeError text => text
  | HostError descr => descr
  end.

Inductive result (A : Type) : Type :=
| Ok (a : A)
| Raise (e : exn).
Arguments Ok {A} a.
Arguments Raise {A} e.

(** ** The state-and-exception monad *)

Definition M (S A : Type) : Type := S -> result A * S.

Definition ret {S A : Type} (a : A) : M S A := fun s => (Ok a, s).

Definition raise {S A : Type} (e : exn) : M S A := fun s => (Raise e, s).

Definition bind {S A B : Type} (c : M S A) (k : A -> M S B) : M S B :=
  fun s =>
    match c s with
    | (Ok a, s') => k a s'
    | (Raise e, s') => (Raise e, s')
    end.

Notation "'let*' x ':=' c 'in' k" := (bind c (fun x => k))
  (at level 10, x pattern, c at level 100, k at level 200).

(** [for x in l: body x] with an accumulator. *)
Fixpoint foldM {S A B : Type} (f : B -> A -> M S B) (l : list A) (acc : B) : M S B :=
  match l with
  | [] => ret acc
  | x :: l' => let* acc' := f acc x in foldM f l' acc'
  end.

(** Lifting a pure partial result. *)
Definition of_result {S A : Type} (r : result A) : M S A := fun s => (r, s).

(** ** Python helpers

    A Python [str] is held as the bytes of its UTF-8 encoding.  Equality,
    prefixes and substrings of code points are those of the bytes, and the
    order of two strings by code point is the order of their bytes. *)

(** [f"{x}"] for an optional string: [None] prints as the word None. *)
Definition py_str (o : option string) : string :=
  match o with
  | Some s => s
  | None => "None"
  end.

(** Truthiness of an optional string: [None] and the empty string are false. *)
Definition truthy_str (o : option string) : bool :=
  match o with
  | Some (String _ _) => true
  | _ => false
  end.

(** [x or None] on an optional string. *)
Definition or_None (o : option string) : option string :=
  if truthy_str o then o else None.

(** [sub in s] on strings. *)
Fixpoint str_contains (sub s : string) : bool :=
  String.prefix sub s ||
  match s with
  | EmptyString => false
  | String _ s' => str_contains sub s'
  end.

(** [s.startswith(p)]. *)
Definition startswith (p s : string) : bool := String.prefix p s.

(** The line boundaries of [str.splitlines] that are one byte long:
    LF, CR, VT, FF, FS, GS, RS (CR LF counts as one). *)
Definition is_linebreak (c : ascii) : bool :=
  let n := nat_of_ascii c in
  (n =? 10)%nat || (n =? 13)%nat || (n =? 11)%nat || (n =? 12)%nat ||
  (n =? 28)%nat || (n =? 29)%nat || (n =? 30)%nat.

(** The other three line boundaries: NEL (U+0085), which is the bytes
    [C2 85], and LS (U+2028) and PS (U+2029), which are [E2 80 A8] and
    [E2 80 A9].  [cur] is the line read so far. *)
Fixpoint splitlines_from (cur : string) (s : string) : list string :=
  match s with
  | EmptyString => match cur with EmptyString => [] | _ => [cur] end
  | String c s' =>
      if is_linebreak c then
        if (nat_of_ascii c =? 13)%nat then
          match s' with
          | String c' s'' =>
              if (nat_of_ascii c' =? 10)%nat
              then cur :: splitlines_from EmptyString s''
              else cur :: splitlines_from EmptyString s'
          | EmptyString => cur :: splitlines_from EmptyString s'
          end
        else cur :: splitlines_from EmptyString s'
      else if (nat_of_ascii c =? 194)%nat then
        match s' with
        | String c1 s'' =>
            if (nat_of_ascii c1 =? 133)%nat
            then cur :: splitlines_from EmptyString s''
            else splitlines_from (cur ++ String c EmptyString) s'
        | EmptyString => splitlines_from (cur ++ String c EmptyString) s'
        end
      else if (nat_of_ascii c =? 226)%nat then
        match s' with
        | String c1 (String c2 s'') =>
            if (nat_of_ascii c1 =? 128)%nat &&
               ((nat_of_ascii c2 =? 168)%nat || (nat_of_ascii c2 =? 169)%nat)
            then cur :: splitlines_from EmptyString s''
            else splitlines_from (cur ++ String c EmptyString) s'
        | _ => splitlines_from (cur ++ String c EmptyString) s'
        end
      else splitlines_from (cur ++ String c EmptyString) s'
  end.

(** [s.splitlines()]. *)
Definition splitlines (s : string) : list string := splitlines_from EmptyString s.

(** [s.rsplit(" ", maxsplit=1)[-1]]: what follows the last space, or all of
    [s] when it has no space. *)
Fixpoint rsplit_last (s : string) : string :=
  match s with
  | EmptyString => EmptyString
  | String c s' =>
      if str_contains " " s' then rsplit_last s'
      else if (nat_of_ascii c =? 32)%nat then s' else s
  end.

(** [sep.join(l)]. *)
Definition join (sep : string) (l : list string) : string := String.concat sep l.

(** [sorted(l, reverse=True)] on strings, by insertion; Python compares
    strings by code point, which on byte strings is [String.ltb]. *)
Fixpoint insert_desc (x : string) (l : list string) : list string :=
  match l with
  | [] => [x]
  | y :: l' => if String.ltb x y then y :: insert_desc x l' else x :: l
  end.

Definition sorted_reverse (l : list string) : list string :=
  fold_right insert_desc [] l.

(** [next(iter(l))]. *)
Definition next_iter {A : Type} (l : list A) : result A :=
  match l with
  | x :: _ => Ok x
  | [] => Raise StopIteration
  end.

(** A Python dict with string keys in insertion order: assigning an existing
    key keeps its place. *)
Fixpoint dict_set {V : Type} (k : string) (v : V) (d : list (string * V)) : list (string * V) :=
  match d with
  | [] => [(k, v)]
  | (k', v') :: d' => if String.eqb k k' then (k, v) :: d' else (k', v') :: dict_set k v d'
  end.

Fixpoint dict_get {V : Type} (k : string) (d : list (string * V)) : option V :=
  match d with
  | [] => None
  | (k', v) :: d' => if String.eqb k k' then Some v else dict_get k d'
  end.

(** ** Data model *)

(** *** Keyword arguments

    [**kwargs] is a dict in the order the caller gave the keywords.  The
    values are those of the common parameters documented at the head of
    [uv.py]; any other value is [KOther], which the code never looks into. *)
Inductive kwval : Type :=
| KNone
| KBool (b : bool)
| KStr (s : string)
| KEnv (e : list (string * string))
| KOther.

Definition bool_params : list string :=
  ["native_tls"; "offline"; "no_cache"; "no_config"; "no_python_downloads"].

Definition str_params : list string :=
  ["cache_dir"; "directory"; "project"; "config_file"; "python_preference";
   "tool_bin_dir"; "tool_dir"].

(** Names that a signature of [uv.py] binds but that are not common
    parameters: a caller's [**kwargs] that holds one of them collides with an
    explicit keyword of an inner call (a [TypeError] of the call itself) or
    changes the type of what an inner call returns.  [kwargs] excludes them. *)
Definition reserved_params : list string :=
  ["cmd"; "options"; "json"; "user"; "system"; "name"; "spec"; "endpoint";
   "get_versions"; "extras"; "with_requirements"; "refresh"; "refresh_package";
   "reinstall"; "reinstall_package"; "force"; "python"; "upgrade";
   "upgrade_package"; "version_spec"].

Definition mem (k : string) (l : list string) : bool := existsb (String.eqb k) l.

Definition value_ok (k : string) (v : kwval) : bool :=
  if mem k bool_params then
    match v with KNone | KBool _ => true | _ => false end
  else if mem k str_params then
    match v with KNone | KStr _ => true | _ => false end
  else if String.eqb k "env" then
    match v with KNone | KEnv _ => true | _ => false end
  else negb (mem k reserved_params).

Fixpoint keys_unique (l : list string) : bool :=
  match l with
  | [] => true
  | k :: l' => negb (mem k l') && keys_unique l'
  end.

Definition kwargs_ok (d : list (string * kwval)) : bool :=
  keys_unique (map fst d) && forallb (fun kv => value_ok (fst kv) (snd kv)) d.

(** The [**kwargs] a caller can pass: distinct keys, every common parameter
    at its documented type (or [None]), no reserved name. *)
Record kwargs : Type := {
  kw_items :> list (string * kwval);
  kw_ok : kwargs_ok kw_items = true
}.

(** Reading a keyword of one of the three documented kinds. *)
Definition kw_is_True (k : string) (d : list (string * kwval)) : bool :=
  match dict_get k d with
  | Some (KBool true) => true
  | _ => false
  end.

Definition kw_str (k : string) (d : list (string * kwval)) : option string :=
  match dict_get k d with
  | Some (KStr s) => Some s
  | _ => None
  end.

Definition kw_env (d : list (string * kwval)) : option (list (string * string)) :=
  match dict_get "env" d with
  | Some (KEnv e) => Some e
  | _ => None
  end.

(** The dict without the keys a signature binds by name. *)
Definition kw_without (names : list string) (d : list (string * kwval)) : list (string * kwval) :=
  filter (fun kv => negb (mem (fst kv) names)) d.

(** *** Observed state of a tool: one value of the dict [tool_list] builds. *)
Record tool_info : Type := {
  t_python : string;
  t_python_version : string;
  t_install_spec : option string;
  t_version : string;
  t_venv_path : string;
  t_pkgs : gmap string string
}.

(** What [tool_list] returns: the dict of tools by name, or, for a query of
    one name that is installed, the tool's own dict. *)
Inductive tool_listing : Type :=
| Tools (tools : list (string * tool_info))
| Tool (t : tool_info).

(** [bool(listing)]: a tool's dict has six keys and is never empty. *)
Definition listing_truthy (l : tool_listing) : bool :=
  match l with
  | Tools [] => false
  | Tools (_ :: _) => true
  | Tool _ => true
  end.

(** *** Changes reported by a state *)
Record oldnew : Type := { old : option string; new : option string }.

(** The [changes] dict; a key that was not assigned is [None].  The code
    assigns the keys in the order of the fields. *)
Record changes_t : Type := {
  ch_python : option oldnew;
  ch_extras : option (list (string * oldnew));
  ch_version_spec : option oldnew;
  ch_version : option oldnew;
  ch_installed : option string;
  ch_removed : option string
}.

Definition no_changes : changes_t :=
  {| ch_python := None; ch_extras := None; ch_version_spec := None;
     ch_version := None; ch_installed := None; ch_removed := None |}.

(** [bool(changes)]. *)
Definition changes_truthy (c : changes_t) : bool :=
  match c with
  | {| ch_python := None; ch_extras := None; ch_version_spec := None;
       ch_version := None; ch_installed := None; ch_removed := None |} => false
  | _ => true
  end.

(** The state return dict. [st_result] is [True], [False] or [None]. *)
Record state_ret : Type := {
  st_name : string;
  st_result : option bool;
  st_comment : string;
  st_changes : changes_t
}.

(** *** The host *)

Record CmdResult : Type := { retcode : Z; stdout : string; stderr : string }.

(** The decoded answer of the package index: [info.version] and the keys of
    [releases] in the order of the document. *)
Record pypi : Type := { info_version : string; releases : list string }.

Record Host (W : Type) : Type := {
  (** [__salt__["cmd.run_all"](cmd, env=env, runas=user)] *)
  cmd_run_all : string -> option (list (string * string)) -> option string ->
                W -> result CmdResult * W;
  (** [__salt__["cmd.run"](cmd, runas=user)] *)
  cmd_run : string -> option string -> W -> result string * W;
  (** [__salt__["http.query"](url, decode=True, decode_type="json")];
      [None] when the answer has no decoded document. *)
  http_query : string -> W -> result (option pypi) * W;
  os_getuid : Z;
  (** [str(Path(p).resolve())] *)
  Path_resolve : string -> W -> string;
  shlex_join : list string -> string;
  (** [salt.utils.json.loads] on the output of [uv pip list --format json],
      as the (name, version) pairs of its items. *)
  json_loads : string -> result (list (string * string));
  json_dumps : changes_t -> string;
  (** [LIST_REGEX.match(line)] and the four groups of a match. *)
  LIST_REGEX_match : string -> option (string * string * option string * string)
}.
Arguments cmd_run_all {W} _ _ _ _ _.
Arguments cmd_run {W} _ _ _ _.
Arguments http_query {W} _ _ _.
Arguments os_getuid {W} _.
Arguments Path_resolve {W} _ _ _.
Arguments shlex_join {W} _ _.
Arguments json_loads {W} _ _.
Arguments json_dumps {W} _ _.
Arguments LIST_REGEX_match {W} _ _.

(** The part of [packaging] the code uses. *)
Record Packaging : Type := {
  ver : Type;
  (** [Version(text)]; [None] is [InvalidVersion]. *)
  Version : string -> option ver;
  ver_ltb : ver -> ver -> bool;
  ver_eqb : ver -> ver -> bool;
  is_prerelease : ver -> bool;
  is_devrelease : ver -> bool;
  is_postrelease : ver -> bool;
  specset : Type;
  (** [SpecifierSet(text)]; [None] is [InvalidSpecifier]. *)
  SpecifierSet : string -> option specset;
  (** [v in s] *)
  spec_contains : specset -> ver -> bool
}.

(** An item of [extras]: a package name, or a mapping whose first item is
    the package name with its version specifier. *)
Inductive extra : Type :=
| ExtraName (pkg : string)
| ExtraMapping (items : list (string * string)).

(** The [extras] argument: a list of items, or one item alone. *)
Inductive extras_arg : Type :=
| ExtrasList (l : list extra)
| ExtrasOne (e : extra).

Definition extras_items (x : extras_arg) : list extra :=
  match x with
  | ExtrasList l => l
  | ExtrasOne e => [e]
  end.

(** A parameter that is a string or a list of strings
    ([x if isinstance(x, list) else [x]]). *)
Inductive str_or_list : Type :=
| Str (s : string)
| StrList (l : list string).

Definition as_list (x : str_or_list) : list string :=
  match x with
  | Str s => [s]
  | StrList l => l
  end.

(** [if x:] on such a parameter with default [None]. *)
Definition truthy_sl (x : option str_or_list) : bool :=
  match x with
  | Some (Str (String _ _)) => true
  | Some (StrList (_ :: _)) => true
  | _ => false
  end.

(** What [_uv] returns: the text of stdout, or with [json=True] what
    [json.loads] made of it. *)
Inductive uv_out : Type :=
| OutText (text : string)
| OutJson (items : list (string * string)).

(** The [spec] argument of [tool_is_outdated]: [False], [None] or a string. *)
Inductive outdated_spec : Type :=
| Spec_False
| Spec_None
| Spec_str (s : string).

(** What [tool_is_outdated] returns, by [get_versions]. *)
Inductive outdated_result : Type :=
| Outdated (res : bool)
| OutdatedVersions (res : bool) (current latest : string).

(** ** The execution module [uv] *)
Module uv.
Section uv.

Context {W : Type} (H : Host W) (P : Packaging).

Definition get_world : M W W := fun w => (Ok w, w).

(** [Version(text)], raising [InvalidVersion]. *)
Definition version_of {S : Type} (text : string) : M S (ver P) :=
  match Version P text with
  | Some v => ret v
  | None => raise (InvalidVersion text)
  end.

(** [SpecifierSet(text)], raising [InvalidSpecifier]. *)
Definition specifier_of {S : Type} (text : string) : M S (specset P) :=
  match SpecifierSet P text with
  | Some s => ret s
  | None => raise (InvalidSpecifier text)
  end.

(** The names the signature of [_uv] binds. *)
Definition _uv_params : list string :=
  ["options"; "native_tls"; "offline"; "no_cache"; "cache_dir"; "directory";
   "project"; "config_file"; "no_config"; "python_preference";
   "no_python_downloads"; "user"; "env"; "json"].

(** [if bool_val is True: full_cmd.append(f"--{bool_opt}")] *)
Definition bool_opt (opt key : string) (kw : list (string * kwval)) : list string :=
  if kw_is_True key kw then ["--" +:+ opt] else [].

(** [if val is not None: full_cmd.extend((f"--{opt}", val))] *)
Definition val_opt (opt key : string) (kw : list (string * kwval)) : list string :=
  match kw_str key kw with
  | Some val => ["--" +:+ opt; val]
  | None => []
  end.

Definition _uv (cmd : list string) (params : list string) (options : list string)
    (user : option string) (env : option (list (string * string))) (json : bool)
    (kw : list (string * kwval)) : M W uv_out :=
  let kwargs := map fst (kw_without _uv_params kw) in
  if negb (forallb (startswith "__") kwargs) then
    raise (SaltInvocationError
             ("The following keyword arguments are invalid: " +:+
              join ", " (filter (fun kwarg => negb (startswith "__" kwarg)) kwargs)))
  else
    let full_cmd := ["uv"] ++ cmd ++ options in
    let full_cmd := full_cmd ++ bool_opt "no-cache" "no_cache" kw
                             ++ bool_opt "no-config" "no_config" kw
                             ++ bool_opt "native-tls" "native_tls" kw
                             ++ bool_opt "offline" "offline" kw
                             ++ bool_opt "no-python-downloads" "no_python_downloads" kw in
    let full_cmd := full_cmd ++ val_opt "cache-dir" "cache_dir" kw
                             ++ val_opt "directory" "directory" kw
                             ++ val_opt "project" "project" kw
                             ++ val_opt "config-file" "config_file" kw
                             ++ val_opt "python-preference" "python_preference" kw in
    let full_cmd := full_cmd ++ params in
    let* res := cmd_run_all H (shlex_join H full_cmd) env user in
    if negb (retcode res =? 0)%Z then
      raise (CommandExecutionError
               ("Failed running '" +:+ shlex_join H full_cmd +:+ "': " +:+
                (if String.eqb (stderr res) "" then stdout res else stderr res)))
    else if negb json then ret (OutText (stdout res))
    else let* items := of_result (json_loads H (stdout res)) in ret (OutJson items).

(** [if system is None and user is None and os.getuid() == 0: system = True] *)
Definition default_system (system : option bool) (user : option string) : option bool :=
  match system, user with
  | None, None => if (os_getuid H =? 0)%Z then Some true else system
  | _, _ => system
  end.

(** Truthiness of [system]. *)
Definition is_system (system : option bool) : bool :=
  match system with
  | Some true => true
  | _ => false
  end.

(** [x or d] on an optional string with a string default. *)
Definition or_default (x : option string) (d : string) : option string :=
  if truthy_str x then x else Some d.

(** The dict [env] as [_uv_tool] hands it to [_uv]: [env or {}] with
    [UV_TOOL_BIN_DIR] and [UV_TOOL_DIR] assigned.  When the caller's [env] is
    a non-empty dict this is the caller's own object, assigned in place. *)
Definition _uv_tool_env (system : option bool) (user : option string)
    (kw : list (string * kwval)) : list (string * string) :=
  let env := match kw_env kw with Some (x :: e) => x :: e | _ => [] end in
  let system := default_system system user in
  let tool_bin_dir := kw_str "tool_bin_dir" kw in
  let tool_dir := kw_str "tool_dir" kw in
  let tool_bin_dir := if is_system system then or_default tool_bin_dir "/usr/local/bin" else tool_bin_dir in
  let tool_dir := if is_system system then or_default tool_dir "/opt/uv/tools" else tool_dir in
  let env := match tool_bin_dir with Some d => dict_set "UV_TOOL_BIN_DIR" d env | None => env end in
  let env := match tool_dir with Some d => dict_set "UV_TOOL_DIR" d env | None => env end in
  env.

(** The names the signature of [_uv_tool] binds. *)
Definition _uv_tool_params : list string :=
  ["system"; "tool_bin_dir"; "tool_dir"; "env"; "user"].

Definition _uv_tool (cmd : string) (params : list string) (options : list string)
    (system : option bool) (user : option string) (kw : list (string * kwval)) : M W uv_out :=
  let env := _uv_tool_env system user kw in
  _uv ["tool"; cmd] params options user (Some env) false (kw_without _uv_tool_params kw).

(** [str(Path(venv) / "bin" / "python")] before it is resolved. *)
Definition venv_python (venv : string) : string :=
  if String.eqb venv "" then "bin/python" else venv +:+ "/bin/python".

(** The [env] keyword of [pip_list_opts]: the caller's [env], which
    [_uv_tool] has assigned in place when it is a non-empty dict. *)
Definition pip_list_env (system : option bool) (user : option string)
    (kw : list (string * kwval)) : option (list (string * string)) :=
  match kw_env kw with
  | Some (_ :: _) => Some (_uv_tool_env system user kw)
  | other => other
  end.

(** The body of the loop of [tool_list] over the lines of the listing. *)
Definition tool_list_line (name : option (list string)) (system : option bool)
    (user : option string) (kw : list (string * kwval))
    (tools : list (string * tool_info)) (line : string) : M W (list (string * tool_info)) :=
  if startswith "-" line then ret tools
  else
    match LIST_REGEX_match H line with
    | None => ret tools
    | Some (tool, version, spec, venv) =>
        if match name with Some names => negb (mem tool names) | None => false end
        then ret tools
        else
          let pip_list_opts := dict_set "directory" (KStr venv) kw in
          let* out := _uv ["pip"; "list"] [] ["--format"; "json"] user
                          (pip_list_env system user kw) true pip_list_opts in
          let venv_pkgs : gmap string string :=
            match out with
            | OutJson items => fold_left (fun m pkg => <[fst pkg := snd pkg]> m) items ∅
            | OutText _ => ∅
            end in
          let* w := get_world in
          let venv_py := Path_resolve H (venv_python venv) w in
          let* pyver := cmd_run H (shlex_join H [venv_py; "--version"]) user in
          let venv_pyver := rsplit_last pyver in
          ret (dict_set tool
                 {| t_python := venv_py;
                    t_python_version := venv_pyver;
                    t_install_spec := or_None spec;
                    t_version := version;
                    t_venv_path := venv;
                    t_pkgs := venv_pkgs |} tools)
    end.

Definition tool_list (name : option str_or_list) (system : option bool)
    (user : option string) (kw : list (string * kwval)) : M W tool_listing :=
  let* out := _uv_tool "list" [] ["--show-paths"; "--show-version-specifiers"] system user kw in
  let out := match out with OutText text => text | OutJson _ => "" end in
  if str_contains "No tools installed" out then ret (Tools [])
  else
    let name := option_map as_list name in
    let* tools := foldM (tool_list_line name system user kw) (splitlines out) [] in
    match name, tools with
    | Some [name0], _ :: _ =>
        match dict_get name0 tools with
        | Some t => ret (Tool t)
        | None => raise (KeyError name0)
        end
    | _, _ => ret (Tools tools)
    end.

Definition tool_is_installed (name : string) (system : option bool)
    (user : option string) (kw : list (string * kwval)) : M W bool :=
  let* l := tool_list (Some (StrList [name])) system user kw in
  ret (listing_truthy l).

(** The generator of [get_latest_version]: the releases that lie in the
    specifier set and are neither pre-, dev- nor post-releases. *)
Fixpoint select_releases (version_spec : specset P) (l : list string) : result (list string) :=
  match l with
  | [] => Ok []
  | version :: l' =>
      match Version P version with
      | None => Raise (InvalidVersion version)
      | Some parsed =>
          match select_releases version_spec l' with
          | Raise e => Raise e
          | Ok rest =>
              if spec_contains P version_spec parsed
                 && negb (is_prerelease P parsed)
                 && negb (is_devrelease P parsed)
                 && negb (is_postrelease P parsed)
              then Ok (version :: rest) else Ok rest
          end
      end
  end.

(** [response["dict"]]: the decoded document of the answer. *)
Definition response_dict {S : Type} (response : option pypi) : M S pypi :=
  match response with
  | Some document => ret document
  | None => raise (KeyError "dict")
  end.

(** [endpoint] is left at its default.  With a [spec], the specifier set is
    built before the answer is looked into. *)
Definition get_latest_version (name : string) (spec : option string) : M W string :=
  let api_url := "https://pypi.org/pypi/" +:+ name +:+ "/json" in
  let* response := http_query H api_url in
  match spec with
  | None =>
      let* document := response_dict response in
      ret (info_version document)
  | Some spec =>
      let* version_spec := specifier_of spec in
      let* document := response_dict response in
      let* matching := of_result (select_releases version_spec (releases document)) in
      of_result (next_iter (sorted_reverse matching))
  end.

(** [current[key]] where [current] came from [tool_list([name])]: the
    listing of one name is the tool's own dict whenever it is not empty
    (lemma [tool_list_one_shape] below), so a dict of tools has no such
    key. *)
Definition the_tool {S : Type} (key : string) (l : tool_listing) : M S tool_info :=
  match l with
  | Tool t => ret t
  | Tools _ => raise (KeyError key)
  end.

Definition tool_is_outdated (name : string) (spec : outdated_spec) (get_versions : bool)
    (system : option bool) (user : option string) (kw : list (string * kwval))
    : M W outdated_result :=
  let* current := tool_list (Some (StrList [name])) system user kw in
  if negb (listing_truthy current) then
    raise (CommandExecutionError (name +:+ " is not installed for user " +:+ py_str user +:+ "."))
  else
    let* spec :=
      match spec with
      | Spec_False => ret None
      | Spec_None => let* t := the_tool "install_spec" current in ret (or_None (t_install_spec t))
      | Spec_str s => ret (Some s)
      end in
    let* latest := get_latest_version name spec in
    let* t := the_tool "version" current in
    let* vcur := version_of (t_version t) in
    let* vlatest := version_of latest in
    let res := ver_ltb P vcur vlatest in
    if get_versions then ret (OutdatedVersions res (t_version t) latest)
    else ret (Outdated res).

(** [for x in (l if isinstance(l, list) else [l]): options.extend((flag, x))]
    under [if l:]. *)
Definition flag_each (flag : string) (l : option str_or_list) : list string :=
  if truthy_sl l then
    match l with
    | Some x => flat_map (fun item => [flag; item]) (as_list x)
    | None => []
    end
  else [].

Definition _tool_install_upgrade (cmd : string) (args : list string)
    (python : option string) (upgrade : bool) (upgrade_package : option str_or_list)
    (options : list string) (system : option bool) (user : option string)
    (kw : list (string * kwval)) : M W bool :=
  let options := options ++ match python with Some p => ["--python"; p] | None => [] end in
  let options := options ++ (if upgrade then ["--upgrade"] else []) in
  let options := options ++ flag_each "--upgrade-package" upgrade_package in
  let* _ := _uv_tool cmd args options system user kw in
  ret true.

Definition tool_install (name : string) (extras with_requirements : option str_or_list)
    (refresh : bool) (refresh_package : option str_or_list) (reinstall : bool)
    (reinstall_package : option str_or_list) (force : bool)
    (python : option string) (upgrade : bool) (upgrade_package : option str_or_list)
    (system : option bool) (user : option string) (kw : list (string * kwval)) : M W bool :=
  let options := flag_each "--with" extras in
  let options := options ++ flag_each "--with-requirements" with_requirements in
  let options := options ++ flag_each "--refresh-package" refresh_package in
  let options := options ++ flag_each "--reinstall-package" reinstall_package in
  let options := options ++ (if refresh then ["--refresh"] else []) in
  let options := options ++ (if reinstall then ["--reinstall"] else []) in
  let options := options ++ (if force then ["--force"] else []) in
  let* _ := _tool_install_upgrade "install" [name] python upgrade upgrade_package options
              system user kw in
  ret true.

Definition tool_remove (name : string) (system : option bool) (user : option string)
    (kw : list (string * kwval)) : M W bool :=
  let* _ := _uv_tool "uninstall" [name] [] system user kw in
  ret true.

Definition tool_remove_all (system : option bool) (user : option string)
    (kw : list (string * kwval)) : M W bool :=
  let* _ := _uv_tool "uninstall" [] ["--all"] system user kw in
  ret true.

Definition tool_upgrade (name : string) (python : option string) (upgrade : bool)
    (upgrade_package : option str_or_list) (system : option bool) (user : option string)
    (kw : list (string * kwval)) : M W bool :=
  _tool_install_upgrade "upgrade" [name] python upgrade upgrade_package [] system user kw.

Definition tool_upgrade_all (python : option string) (upgrade : bool)
    (upgrade_package : option str_or_list) (system : option bool) (user : option string)
    (kw : list (string * kwval)) : M W bool :=
  _tool_install_upgrade "upgrade" [] python upgrade upgrade_package ["--all"] system user kw.

End uv.
End uv.

(** ** The state module [uv_tool] *)
Module uv_tool.
Section uv_tool.

Context {W : Type} (H : Host W) (P : Packaging).

(** A call through [__salt__], with the arguments the state passes by name
    (the caller's [**kwargs] go with every call and are left out). *)
Inductive call : Type :=
| Call_tool_list (name : list string) (system : option bool) (user : option string)
| Call_tool_is_installed (name : string) (system : option bool) (user : option string)
| Call_get_latest_version (name : string) (spec : option string)
| Call_tool_is_outdated (name : string) (spec : outdated_spec)
    (system : option bool) (user : option string)
| Call_tool_install (name : string) (extras : option (list string)) (refresh : bool)
    (refresh_package : option str_or_list) (reinstall : bool) (force : bool)
    (python : option string) (system : option bool) (user : option string)
| Call_tool_upgrade (name : string) (python : option string) (upgrade : bool)
    (system : option bool) (user : option string)
| Call_tool_remove (name : string) (system : option bool) (user : option string).

(** The calls to the action executor. *)
Definition is_action (c : call) : bool :=
  match c with
  | Call_tool_install _ _ _ _ _ _ _ _ _ => true
  | Call_tool_upgrade _ _ _ _ _ => true
  | Call_tool_remove _ _ _ => true
  | _ => false
  end.

(** What one invocation of a state function works on: the world, the calls
    made so far through [__salt__] (a ghost record), and the local dict
    [ret]. *)
Record frame : Type := {
  world : W;
  calls : list call;
  ret_dict : state_ret
}.

(** [__salt__[f](...)]: the call is recorded, then runs on the world. *)
Definition salt {A : Type} (c : call) (m : M W A) : M frame A :=
  fun f =>
    let (r, w') := m (world f) in
    (r, {| world := w'; calls := calls f ++ [c]; ret_dict := ret_dict f |}).

Definition read_world : M frame W := fun f => (Ok (world f), f).

(** Assignments to keys of [ret]. *)
Definition set_ret (g : state_ret -> state_ret) : M frame unit :=
  fun f => (Ok tt, {| world := world f; calls := calls f; ret_dict := g (ret_dict f) |}).

Definition with_result (r : option bool) (x : state_ret) : state_ret :=
  {| st_name := st_name x; st_result := r; st_comment := st_comment x;
     st_changes := st_changes x |}.

Definition with_comment (c : string) (x : state_ret) : state_ret :=
  {| st_name := st_name x; st_result := st_result x; st_comment := c;
     st_changes := st_changes x |}.

Definition with_changes (c : changes_t) (x : state_ret) : state_ret :=
  {| st_name := st_name x; st_result := st_result x; st_comment := st_comment x;
     st_changes := c |}.

(** [try: body except (CommandExecutionError, SaltInvocationError) as err:
    handler err]. Any other exception goes on to the caller. *)
Definition try_except_salt {A : Type} (body : M frame A) (handler : exn -> M frame A)
    : M frame A :=
  fun f =>
    match body f with
    | (Ok a, f') => (Ok a, f')
    | (Raise (CommandExecutionError msg), f') => handler (CommandExecutionError msg) f'
    | (Raise (SaltInvocationError msg), f') => handler (SaltInvocationError msg) f'
    | (Raise e, f') => (Raise e, f')
    end.

(** The handler both states share:
    [ret["result"] = False; ret["comment"] = str(err)]. *)
Definition on_error (err : exn) : M frame unit :=
  let* _ := set_ret (with_result (Some false)) in
  set_ret (with_comment (str_exn err)).

(** The classes the handler catches. *)
Definition caught (e : exn) : bool :=
  match e with
  | CommandExecutionError _ | SaltInvocationError _ => true
  | _ => false
  end.

(** [ret] after the handler. *)
Definition failed_ret (x : state_ret) (e : exn) : state_ret :=
  with_comment (str_exn e) (with_result (Some false) x).

(** Assignments to keys of [changes]. *)
Definition set_python (v : oldnew) (c : changes_t) : changes_t :=
  {| ch_python := Some v; ch_extras := ch_extras c; ch_version_spec := ch_version_spec c;
     ch_version := ch_version c; ch_installed := ch_installed c; ch_removed := ch_removed c |}.

Definition set_extras (v : list (string * oldnew)) (c : changes_t) : changes_t :=
  {| ch_python := ch_python c; ch_extras := Some v; ch_version_spec := ch_version_spec c;
     ch_version := ch_version c; ch_installed := ch_installed c; ch_removed := ch_removed c |}.

Definition set_version_spec (v : oldnew) (c : changes_t) : changes_t :=
  {| ch_python := ch_python c; ch_extras := ch_extras c; ch_version_spec := Some v;
     ch_version := ch_version c; ch_installed := ch_installed c; ch_removed := ch_removed c |}.

Definition set_version (v : oldnew) (c : changes_t) : changes_t :=
  {| ch_python := ch_python c; ch_extras := ch_extras c; ch_version_spec := ch_version_spec c;
     ch_version := Some v; ch_installed := ch_installed c; ch_removed := ch_removed c |}.

Definition set_installed (name : string) (c : changes_t) : changes_t :=
  {| ch_python := ch_python c; ch_extras := ch_extras c; ch_version_spec := ch_version_spec c;
     ch_version := ch_version c; ch_installed := Some name; ch_removed := ch_removed c |}.

Definition set_removed (name : string) (c : changes_t) : changes_t :=
  {| ch_python := ch_python c; ch_extras := ch_extras c; ch_version_spec := ch_version_spec c;
     ch_version := ch_version c; ch_installed := ch_installed c; ch_removed := Some name |}.

(** [__salt__["uv.get_latest_version"](name, spec=spec)] *)
Definition salt_get_latest_version (name : string) (spec : option string) : M frame string :=
  salt (Call_get_latest_version name spec) (uv.get_latest_version H P name spec).

(** [__salt__["uv.tool_list"]([name], system=system, user=user, **kwargs)] *)
Definition salt_tool_list (name : string) (system : option bool) (user : option string)
    (kw : list (string * kwval)) : M frame tool_listing :=
  salt (Call_tool_list [name] system user)
       (uv.tool_list H (Some (StrList [name])) system user kw).

(** [extra_pkg, extra_spec] of an item of [extras]. *)
Definition extra_pkg_spec (e : extra) : result (string * option string) :=
  match e with
  | ExtraName pkg => Ok (pkg, None)
  | ExtraMapping items =>
      match next_iter items with
      | Ok (pkg, spec) => Ok (pkg, Some spec)
      | Raise err => Raise err
      end
  end.

(** The body of the loop of [_check_changes] over [extras]. *)
Definition check_extra (upgrade : bool) (curr : tool_info)
    (extra_misses : list (string * oldnew)) (e : extra) : M frame (list (string * oldnew)) :=
  let* item := of_result (extra_pkg_spec e) in
  let extra_pkg := fst item in
  let extra_spec := snd item in
  match t_pkgs curr !! extra_pkg with
  | None =>
      let* new_version := salt_get_latest_version extra_pkg extra_spec in
      ret (dict_set extra_pkg {| old := None; new := Some new_version |} extra_misses)
  | Some installed_version =>
      let* violated :=
        match extra_spec with
        | None => ret false
        | Some spec =>
            let* v := uv.version_of P installed_version in
            let* s := uv.specifier_of P spec in
            ret (negb (spec_contains P s v))
        end in
      if violated then
        let* new_version := salt_get_latest_version extra_pkg extra_spec in
        ret (dict_set extra_pkg {| old := Some installed_version; new := Some new_version |}
                      extra_misses)
      else if upgrade then
        let* new_version := salt_get_latest_version extra_pkg extra_spec in
        let* v := uv.version_of P installed_version in
        let* v' := uv.version_of P new_version in
        if ver_ltb P v v' then
          ret (dict_set extra_pkg {| old := Some installed_version; new := Some new_version |}
                        extra_misses)
        else ret extra_misses
      else ret extra_misses
  end.

(** [version_spec or False], the [spec] argument for [tool_is_outdated]. *)
Definition spec_or_False (version_spec : option string) : outdated_spec :=
  match version_spec with
  | Some (String c s) => Spec_str (String c s)
  | _ => Spec_False
  end.

(** The closure [_check_changes] of [installed], with the variables it
    captures as parameters.  Returns [(changes, requires_install)]. *)
Definition _check_changes (name : string) (version_spec : option string) (upgrade : bool)
    (extras : option extras_arg) (python : option string) (system : option bool)
    (user : option string) (kw : list (string * kwval)) (curr : tool_info)
    : M frame (changes_t * bool) :=
  let changes := no_changes in
  let requires_install := false in
  let* w := read_world in
  let changes :=
    match python with
    | Some py =>
        if negb (String.eqb (t_python curr) (Path_resolve H py w))
        then set_python {| old := Some (t_python curr); new := python |} changes
        else changes
    | None => changes
    end in
  let* state1 :=
    match extras with
    | Some ex =>
        let* extra_misses := foldM (check_extra upgrade curr) (extras_items ex) [] in
        match extra_misses with
        | _ :: _ => ret (set_extras extra_misses changes, true)
        | [] => ret (changes, requires_install)
        end
    | None => ret (changes, requires_install)
    end in
  let changes := fst state1 in
  let requires_install := snd state1 in
  let* state2 :=
    if negb (bool_decide (t_install_spec curr = version_spec)) then
      let changes :=
        set_version_spec {| old := t_install_spec curr; new := version_spec |} changes in
      let requires_install := true in
      let* new_version := salt_get_latest_version name version_spec in
      let* v := uv.version_of P (t_version curr) in
      let* v' := uv.version_of P new_version in
      if negb (ver_eqb P v v') then
        ret (set_version {| old := Some (t_version curr); new := Some new_version |} changes,
             requires_install)
      else ret (changes, requires_install)
    else ret (changes, requires_install) in
  let changes := fst state2 in
  let requires_install := snd state2 in
  let* state3 :=
    match version_spec, ch_version_spec changes with
    | Some spec, None =>
        let* v := uv.version_of P (t_version curr) in
        let* s := uv.specifier_of P spec in
        if negb (spec_contains P s v) then
          let* new_version := salt_get_latest_version name version_spec in
          ret (set_version {| old := Some (t_version curr); new := Some new_version |} changes,
               true)
        else ret (changes, requires_install)
    | _, _ => ret (changes, requires_install)
    end in
  let changes := fst state3 in
  let requires_install := snd state3 in
  let* changes :=
    match ch_version changes with
    | None =>
        if upgrade then
          let spec := spec_or_False version_spec in
          let* outdated := salt (Call_tool_is_outdated name spec system user)
                                (uv.tool_is_outdated H P name spec true system user kw) in
          match outdated with
          | OutdatedVersions needs_upgrade curr_ver latest_ver =>
              if needs_upgrade
              then ret (set_version {| old := Some curr_ver; new := Some latest_ver |} changes)
              else ret changes
          | Outdated _ => ret changes
          end
        else ret changes
    | Some _ => ret changes
    end in
  ret (changes, requires_install).

(** The list comprehension that flattens [extras] for [tool_install]. *)
Fixpoint flatten_extras (l : list extra) : result (list string) :=
  match l with
  | [] => Ok []
  | e :: l' =>
      match (match e with
             | ExtraName pkg => Ok pkg
             | ExtraMapping items =>
                 match next_iter items with
                 | Ok (pkg, spec) => Ok (pkg +:+ spec)
                 | Raise err => Raise err
                 end
             end) with
      | Raise err => Raise err
      | Ok x =>
          match flatten_extras l' with
          | Ok rest => Ok (x :: rest)
          | Raise err => Raise err
          end
      end
  end.

(** ["globally" if system else f"for user {user}"] *)
Definition scope_text (system : option bool) (user : option string) : string :=
  if uv.is_system system then "globally" else "for user " +:+ py_str user.

(** The first statements of the [try] block of [installed], after [system]
    has its default: the listing of the tool and
    [(changes, requires_install)]. *)
Definition observe_diff (name : string) (version_spec : option string) (upgrade : bool)
    (extras : option extras_arg) (python : option string) (system : option bool)
    (user : option string) (kw : list (string * kwval))
    : M frame (tool_listing * (changes_t * bool)) :=
  let* curr := salt_tool_list name system user kw in
  let* diff :=
    if listing_truthy curr then
      let* t := uv.the_tool "install_spec" curr in
      _check_changes name version_spec upgrade extras python system user kw t
    else ret (set_installed name no_changes, true) in
  ret (curr, diff).

(** [cmd_kwargs["extras"]], when [extras] is not [None]. *)
Definition cmd_extras (extras : option extras_arg) : result (option (list string)) :=
  match extras with
  | Some ex =>
      match flatten_extras (extras_items ex) with
      | Ok l => Ok (Some l)
      | Raise err => Raise err
      end
  | None => Ok None
  end.

(** [cmd_kwargs] and [__salt__[f"uv.tool_{cmd}"](name, **cmd_kwargs)]. *)
Definition dispatch (name : string) (upgrade : bool) (extras : option extras_arg)
    (refresh : bool) (refresh_package : option str_or_list) (force : bool)
    (python : option string) (system : option bool) (user : option string)
    (kw : list (string * kwval)) (curr : tool_listing) (requires_install : bool)
    : M frame bool :=
  if requires_install then
    let* ce := of_result (cmd_extras extras) in
    salt (Call_tool_install name ce refresh refresh_package (listing_truthy curr) force
                            python system user)
         (uv.tool_install H name (option_map StrList ce) None refresh refresh_package
                          (listing_truthy curr) None force python false None system user kw)
  else
    salt (Call_tool_upgrade name python upgrade system user)
         (uv.tool_upgrade H name python upgrade None system user kw).

(** The end of the [try] block of [installed]: the tool is listed again,
    the changes are computed again, and [ret] gets its comment and the
    changes found before the action. *)
Definition verify (name : string) (version_spec : option string) (upgrade : bool)
    (extras : option extras_arg) (python : option string) (system : option bool)
    (user : option string) (kw : list (string * kwval)) (curr : tool_listing)
    (changes : changes_t) : M frame unit :=
  let re := if listing_truthy curr then "re" else "" in
  let* new := salt_tool_list name system user kw in
  if negb (listing_truthy new) then
    raise (CommandExecutionError
             ("There were no errors during installation, but '" +:+ name +:+
              "' is still not installed"))
  else
    let* t := uv.the_tool "install_spec" new in
    let* new_diff := _check_changes name version_spec upgrade extras python system user
                                    kw t in
    let new_changes := fst new_diff in
    if changes_truthy new_changes then
      raise (CommandExecutionError
               ("Installation succeeded, but there are still pending changes: " +:+
                json_dumps H new_changes))
    else
      let* _ := set_ret (with_comment
                           ("The tool has been " +:+ re +:+ "installed " +:+
                            scope_text system user)) in
      set_ret (with_changes changes).

(** The [try] block of [installed]; [test] is [__opts__["test"]].  Leaving
    the block normally is [return ret], at one of the [return]s or at the
    end. *)
Definition installed_try (name : string) (version_spec : option string) (upgrade : bool)
    (extras : option extras_arg) (refresh : bool) (refresh_package : option str_or_list)
    (force : bool) (python : option string) (system : option bool) (user : option string)
    (kw : list (string * kwval)) (test : bool) : M frame unit :=
  let system := uv.default_system H system user in
  let* observed := observe_diff name version_spec upgrade extras python system user kw in
  let curr := fst observed in
  let changes := fst (snd observed) in
  let requires_install := snd (snd observed) in
  let re := if listing_truthy curr then "re" else "" in
  if negb (changes_truthy changes) then ret tt
  else if test then
    let* _ := set_ret (with_result None) in
    let* _ := set_ret (with_comment
                         ("The tool would have been " +:+ re +:+ "installed " +:+
                          scope_text system user)) in
    set_ret (with_changes changes)
  else
    let* _ := dispatch name upgrade extras refresh refresh_package force python system user
                       kw curr requires_install in
    verify name version_spec upgrade extras python system user kw curr changes.

(** The dict [ret] a state function starts with, and the frame of a fresh
    invocation in the world [w]. *)
Definition ret0 (name comment : string) : state_ret :=
  {| st_name := name; st_result := Some true; st_comment := comment;
     st_changes := no_changes |}.

Definition frame0 (name comment : string) (w : W) : frame :=
  {| world := w; calls := []; ret_dict := ret0 name comment |}.

(** Running a state function: [ret] is initialised, the [try] block runs
    under the handler, and the function returns [ret]. *)
Definition run_state (name comment : string) (body : M frame unit) (w : W)
    : result state_ret * frame :=
  match try_except_salt body on_error (frame0 name comment w) with
  | (Ok _, f) => (Ok (ret_dict f), f)
  | (Raise e, f) => (Raise e, f)
  end.

(** The two initial comments. *)
Definition installed_comment : string := "The tool is installed as specified".

Definition absent_comment : string := "The tool is already absent".

Definition installed (name : string) (version_spec : option string) (upgrade : bool)
    (extras : option extras_arg) (refresh : bool) (refresh_package : option str_or_list)
    (force : bool) (python : option string) (system : option bool) (user : option string)
    (kw : kwargs) (test : bool) (w : W) : result state_ret * frame :=
  run_state name installed_comment
    (installed_try name version_spec upgrade extras refresh refresh_package force python
                   system user kw test) w.

Definition latest (name : string) (version_spec : option string)
    (extras : option extras_arg) (force : bool) (python : option string)
    (system : option bool) (user : option string) (kw : kwargs) (test : bool) (w : W)
    : result state_ret * frame :=
  installed name version_spec true extras false None force python system user kw test w.

(** The [try] block of [absent]. *)
Definition absent_try (name : string) (system : option bool) (user : option string)
    (kw : list (string * kwval)) (test : bool) : M frame unit :=
  let system := uv.default_system H system user in
  let* is_installed := salt (Call_tool_is_installed name system user)
                            (uv.tool_is_installed H name system user kw) in
  if negb is_installed then ret tt
  else if test then
    let* _ := set_ret (with_result None) in
    let* _ := set_ret (with_comment ("The tool would have been removed " +:+
                                     scope_text system user)) in
    set_ret (with_changes (set_removed name no_changes))
  else
    let* _ := salt (Call_tool_remove name system user)
                   (uv.tool_remove H name system user kw) in
    let* still := salt (Call_tool_is_installed name system user)
                       (uv.tool_is_installed H name system user kw) in
    if still then
      raise (CommandExecutionError
               "There were no errors during uninstallation, but the tool is still reported as installed")
    else
      let* _ := set_ret (with_comment ("The tool has been removed " +:+
                                       scope_text system user)) in
      set_ret (with_changes (set_removed name no_changes)).

Definition absent (name : string) (system : option bool) (user : option string)
    (kw : kwargs) (test : bool) (w : W) : result state_ret * frame :=
  run_state name absent_comment (absent_try name system user kw test) w.

End uv_tool.
End uv_tool.

(** ** A small host for the examples

    One tool, [copier], in a world that is the text [uv tool list] prints.
    Versions are dotted numbers; a specifier is one comparison. *)
Module toy.

Definition digit (c : ascii) : option nat :=
  let n := nat_of_ascii c in
  if (48 <=? n)%nat && (n <=? 57)%nat then Some (n - 48)%nat else None.

Fixpoint parse_release (cur : option nat) (s : string) : option (list nat) :=
  match s with
  | EmptyString => match cur with Some n => Some [n] | None => None end
  | String c s' =>
      if (nat_of_ascii c =? 46)%nat then
        match cur, parse_release None s' with
        | Some n, Some rest => Some (n :: rest)
        | _, _ => None
        end
      else
        match digit c with
        | Some d => parse_release (Some (10 * default 0 cur + d))%nat s'
        | None => None
        end
  end.

(** Comparison of releases, a missing component counting as zero. *)
Fixpoint release_cmp (a b : list nat) : comparison :=
  match a, b with
  | [], _ => if forallb (Nat.eqb 0) b then Eq else Lt
  | _ :: _, [] => if forallb (Nat.eqb 0) a then Eq else Gt
  | x :: a', y :: b' => match Nat.compare x y with Eq => release_cmp a' b' | c => c end
  end.

Inductive op : Type := Lt_ | Le_ | Gt_ | Ge_ | Eq_ | Ne_ | Any_.

Definition drop (n : nat) (s : string) : string := String.substring n (String.length s - n) s.

Definition parse_spec (s : string) : option (op * list nat) :=
  if String.eqb s "" then Some (Any_, [])
  else if String.prefix "<=" s then option_map (pair Le_) (parse_release None (drop 2 s))
  else if String.prefix ">=" s then option_map (pair Ge_) (parse_release None (drop 2 s))
  else if String.prefix "==" s then option_map (pair Eq_) (parse_release None (drop 2 s))
  else if String.prefix "!=" s then option_map (pair Ne_) (parse_release None (drop 2 s))
  else if String.prefix "<" s then option_map (pair Lt_) (parse_release None (drop 1 s))
  else if String.prefix ">" s then option_map (pair Gt_) (parse_release None (drop 1 s))
  else None.

Definition spec_holds (s : op * list nat) (v : list nat) : bool :=
  match fst s, release_cmp v (snd s) with
  | Any_, _ => true
  | Lt_, Lt => true
  | Le_, (Lt | Eq) => true
  | Gt_, Gt => true
  | Ge_, (Gt | Eq) => true
  | Eq_, Eq => true
  | Ne_, (Lt | Gt) => true
  | _, _ => false
  end.

Definition packaging : Packaging :=
  {| ver := list nat;
     Version := parse_release None;
     ver_ltb := fun a b => match release_cmp a b with Lt => true | _ => false end;
     ver_eqb := fun a b => match release_cmp a b with Eq => true | _ => false end;
     is_prerelease := fun _ => false;
     is_devrelease := fun _ => false;
     is_postrelease := fun _ => false;
     specset := op * list nat;
     SpecifierSet := parse_spec;
     spec_contains := spec_holds |}.

(** The lines of [uv tool list] the examples use, with the groups
    [LIST_REGEX] finds in them. *)
Definition list_regex_match (line : string)
    : option (string * string * option string * string) :=
  if String.eqb line "copier v1.0.0 (/opt/uv/tools/copier)" then
    Some ("copier", "1.0.0", None, "/opt/uv/tools/copier")
  else if String.eqb line "copier v1.2.0 (/opt/uv/tools/copier)" then
    Some ("copier", "1.2.0", None, "/opt/uv/tools/copier")
  else if String.eqb line "copier v1.0.0 [required: <2] (/opt/uv/tools/copier)" then
    Some ("copier", "1.0.0", Some "<2", "/opt/uv/tools/copier")
  else None.

Definition show_key {A : Type} (key : string) (v : option A) : list string :=
  match v with
  | Some _ => [key]
  | None => []
  end.

(** The keys of the dict, in braces. *)
Definition dumps_keys (c : changes_t) : string :=
  "{" +:+ join ", " (show_key "python" (ch_python c) ++ show_key "extras" (ch_extras c) ++
                     show_key "version_spec" (ch_version_spec c) ++
                     show_key "version" (ch_version c) ++
                     show_key "installed" (ch_installed c) ++
                     show_key "removed" (ch_removed c)) +:+ "}".

(** The world is the text of the listing.  [uv tool list] prints it,
    [uv pip list] prints the packages of the one environment, and any other
    command ends with [rc]; when [effective], an install or upgrade leaves
    copier 1.2.0 and an uninstall leaves nothing. *)
Definition run_all (effective : bool) (rc : Z) (cmd : string)
    (env : option (list (string * string))) (runas : option string) (w : string)
    : result CmdResult * string :=
  if String.prefix "uv tool list" cmd then
    (Ok {| retcode := 0;
           stdout := if String.eqb w "" then "No tools installed" else w;
           stderr := "" |}, w)
  else if String.prefix "uv pip list" cmd then
    (Ok {| retcode := 0; stdout := "[pkgs]"; stderr := "" |}, w)
  else if negb (rc =? 0)%Z then
    (Ok {| retcode := rc; stdout := ""; stderr := "error: failed" |}, w)
  else if negb effective then
    (Ok {| retcode := 0; stdout := ""; stderr := "" |}, w)
  else if String.prefix "uv tool uninstall" cmd then
    (Ok {| retcode := 0; stdout := ""; stderr := "" |}, "")
  else
    (Ok {| retcode := 0; stdout := ""; stderr := "" |},
     "copier v1.2.0 (/opt/uv/tools/copier)").

Definition host (effective : bool) (rc : Z) : Host string :=
  {| cmd_run_all := run_all effective rc;
     cmd_run := fun _ _ w => (Ok "Python 3.12.1", w);
     http_query := fun _ w =>
       (Ok (Some {| info_version := "1.2.0"; releases := ["0.9.0"; "1.0.0"; "1.2.0"] |}), w);
     os_getuid := 0;
     Path_resolve := fun p _ => p;
     shlex_join := join " ";
     json_loads := fun text =>
       if String.eqb text "[pkgs]" then Ok [("copier", "1.0.0"); ("jinja2", "3.1.0")]
       else Raise (JSONDecodeError text);
     json_dumps := dumps_keys;
     LIST_REGEX_match := list_regex_match |}.

(** An empty [**kwargs] and one with a keyword no signature knows. *)
Definition no_kwargs : kwargs := {| kw_items := []; kw_ok := eq_refl |}.

Definition bogus_kwargs : kwargs := {| kw_items := [("bogus", KOther)]; kw_ok := eq_refl |}.

Definition installed_copier : string := "copier v1.0.0 (/opt/uv/tools/copier)".

(** *** Post-releases

    A second [packaging]: a version is a dotted number that [.postN] may
    follow, as in [1.0.post1], and a post-release comes after its release. *)

(** The text before [.post] and the text after it. *)
Fixpoint cut_post (s : string) : string * option string :=
  match s with
  | EmptyString => (EmptyString, None)
  | String c s' =>
      if String.prefix ".post" s then (EmptyString, Some (drop 5 s))
      else let (before, after) := cut_post s' in (String c before, after)
  end.

Definition parse_version (s : string) : option (list nat * option nat) :=
  match parse_release None (fst (cut_post s)), snd (cut_post s) with
  | Some release, None => Some (release, None)
  | Some release, Some post =>
      match parse_release None post with
      | Some [n] => Some (release, Some n)
      | _ => None
      end
  | None, _ => None
  end.

Definition version_cmp (a b : list nat * option nat) : comparison :=
  match release_cmp (fst a) (fst b) with
  | Eq =>
      match snd a, snd b with
      | None, None => Eq
      | None, Some _ => Lt
      | Some _, None => Gt
      | Some x, Some y => Nat.compare x y
      end
  | c => c
  end.

Definition parse_spec_post (s : string) : option (op * (list nat * option nat)) :=
  if String.eqb s "" then Some (Any_, ([], None))
  else if String.prefix "<=" s then option_map (pair Le_) (parse_version (drop 2 s))
  else if String.prefix ">=" s then option_map (pair Ge_) (parse_version (drop 2 s))
  else if String.prefix "==" s then option_map (pair Eq_) (parse_version (drop 2 s))
  else if String.prefix "!=" s then option_map (pair Ne_) (parse_version (drop 2 s))
  else if String.prefix "<" s then option_map (pair Lt_) (parse_version (drop 1 s))
  else if String.prefix ">" s then option_map (pair Gt_) (parse_version (drop 1 s))
  else None.

(** A post-release of [1.0] is a version after [1.0] that [>1.0] leaves
    out. *)
Definition post_of (v w : list nat * option nat) : bool :=
  match release_cmp (fst v) (fst w), snd v, snd w with
  | Eq, Some _, None => true
  | _, _, _ => false
  end.

Definition spec_holds_post (s : op * (list nat * option nat)) (v : list nat * option nat)
    : bool :=
  match fst s, version_cmp v (snd s) with
  | Any_, _ => true
  | Lt_, Lt => true
  | Le_, (Lt | Eq) => true
  | Gt_, Gt => negb (post_of v (snd s))
  | Ge_, (Gt | Eq) => true
  | Eq_, Eq => true
  | Ne_, (Lt | Gt) => true
  | _, _ => false
  end.

Definition packaging_post : Packaging :=
  {| ver := list nat * option nat;
     Version := parse_version;
     ver_ltb := fun a b => match version_cmp a b with Lt => true | _ => false end;
     ver_eqb := fun a b => match version_cmp a b with Eq => true | _ => false end;
     is_prerelease := fun _ => false;
     is_devrelease := fun _ => false;
     is_postrelease := fun v => match snd v with Some _ => true | None => false end;
     specset := op * (list nat * option nat);
     SpecifierSet := parse_spec_post;
     spec_contains := spec_holds_post |}.

(** Copier with a post-release: installed at [1.0] under [<1.1], or pinned
    to [1.0.post1]. *)
Definition released_copier : string := "copier v1.0 [required: <1.1] (/opt/uv/tools/copier)".

Definition pinned_copier : string :=
  "copier v1.0.post1 [required: ==1.0.post1] (/opt/uv/tools/copier)".

(** The host above with an index that lists [1.0] and [1.0.post1]. *)
Definition post_host : Host string :=
  {| cmd_run_all := cmd_run_all (host true 0);
     cmd_run := cmd_run (host true 0);
     http_query := fun _ w =>
       (Ok (Some {| info_version := "1.0.post1"; releases := ["1.0"; "1.0.post1"] |}), w);
     os_getuid := os_getuid (host true 0);
     Path_resolve := Path_resolve (host true 0);
     shlex_join := shlex_join (host true 0);
     json_loads := json_loads (host true 0);
     json_dumps := json_dumps (host true 0);
     LIST_REGEX_match := fun line =>
       if String.eqb line released_copier then
         Some ("copier", "1.0", Some "<1.1", "/opt/uv/tools/copier")
       else if String.eqb line pinned_copier then
         Some ("copier", "1.0.post1", Some "==1.0.post1", "/opt/uv/tools/copier")
       else None |}.

End toy.

(** ** Vocabulary of the properties *)
Section vocabulary.

Context {W : Type} (H : Host W) (P : Packaging).

Local Abbreviation frame := (uv_tool.frame (W := W)).

(** A computation of a state function keeps the relation [R] between the
    frame it starts in and the frame it ends in. *)
Definition respects {A : Type} (R : frame -> frame -> Prop) (m : M frame A) : Prop :=
  forall f r f', m f = (r, f') -> R f f'.

(** The local dict [ret] is as it was. *)
Definition same_ret (f f' : frame) : Prop :=
  uv_tool.ret_dict f' = uv_tool.ret_dict f.

(** Calls were added, none of them to the action executor. *)
Definition quiet (f f' : frame) : Prop :=
  exists l, uv_tool.calls f' = uv_tool.calls f ++ l /\
            Forall (fun c => uv_tool.is_action c = false) l.

(** The one call [dispatch] makes. *)
Definition dispatched (name : string) (upgrade : bool) (extras : option extras_arg)
    (refresh : bool) (refresh_package : option str_or_list) (force : bool)
    (python : option string) (system : option bool) (user : option string)
    (curr : tool_listing) (requires_install : bool) : list uv_tool.call :=
  if requires_install then
    match uv_tool.cmd_extras extras with
    | Ok ce => [uv_tool.Call_tool_install name ce refresh refresh_package
                  (listing_truthy curr) force python system user]
    | Raise _ => []
    end
  else [uv_tool.Call_tool_upgrade name python upgrade system user].

(** The entry for [python]: present when an interpreter is declared and its
    resolved path is not the observed one. *)
Definition python_change (python : option string) (curr : tool_info) (w : W)
    : option oldnew :=
  match python with
  | Some py =>
      if String.eqb (t_python curr) (Path_resolve H py w) then None
      else Some {| old := Some (t_python curr); new := python |}
  | None => None
  end.

(** What holds of [(changes, requires_install)] throughout [_check_changes]:
    the entry for [python] is the one above, the two markers are not set,
    and the flag is set only next to an entry other than [python]. *)
Definition diff_ok (pc : option oldnew) (d : changes_t * bool) : Prop :=
  ch_python (fst d) = pc /\
  ch_installed (fst d) = None /\
  ch_removed (fst d) = None /\
  (snd d = true ->
   ch_extras (fst d) <> None \/ ch_version_spec (fst d) <> None \/ ch_version (fst d) <> None).

(** The version lies in the declared constraint; no constraint holds of
    every version. *)
Definition satisfies (spec : option string) (version : string) : Prop :=
  match spec with
  | None => True
  | Some s =>
      exists v ss, Version P version = Some v /\ SpecifierSet P s = Some ss /\
                   spec_contains P ss v = true
  end.

(** Every declared extra is present in the environment and satisfies its
    constraint and, when [upgrade] is set, the index has no newer version of
    it.  The index is asked once per extra: [w] is the world before the
    first lookup and [w'] the world after the last. *)
Fixpoint extras_match (upgrade : bool) (curr : tool_info) (l : list extra) (w w' : W)
    : Prop :=
  match l with
  | [] => w' = w
  | e :: l' =>
      exists pkg spec installed_version,
        uv_tool.extra_pkg_spec e = Ok (pkg, spec) /\
        t_pkgs curr !! pkg = Some installed_version /\
        satisfies spec installed_version /\
        if upgrade then
          exists latest w1 v v',
            uv.get_latest_version H P pkg spec w = (Ok latest, w1) /\
            Version P installed_version = Some v /\
            Version P latest = Some v' /\
            ver_ltb P v v' = false /\
            extras_match upgrade curr l' w1 w'
        else extras_match upgrade curr l' w w'
  end.

(** The declared interpreter, resolved, is the observed one. *)
Definition interpreter_matches (python : option string) (curr : tool_info) (w : W) : Prop :=
  match python with
  | Some py => t_python curr = Path_resolve H py w
  | None => True
  end.

(** The keywords left for [**kwargs] of [_uv] when a [tool_*] function was
    called with [kw]. *)
Definition leftover (kw : list (string * kwval)) : list string :=
  map fst (kw_without uv._uv_params (kw_without uv._uv_tool_params kw)).

(** The exception of [_uv] for them. *)
Definition invalid_keywords (kw : list (string * kwval)) : exn :=
  SaltInvocationError
    ("The following keyword arguments are invalid: " +:+
     join ", " (filter (fun kwarg => negb (startswith "__" kwarg)) (leftover kw))).

(** A dict of a tool as [tool_list] builds it from a line of the listing
    that does not list an executable. *)
Definition from_line (lines : list string) (kt : string * tool_info) : Prop :=
  exists line spec,
    In line lines /\
    startswith "-" line = false /\
    LIST_REGEX_match H line = Some (fst kt, t_version (snd kt), spec, t_venv_path (snd kt)) /\
    t_install_spec (snd kt) = or_None spec.

End vocabulary.

(** The command line [_uv] hands to [cmd.run_all]: [shlex.join(full_cmd)]. *)
Definition command_line {W : Type} (H : Host W) (cmd params options : list string)
    (kw : list (string * kwval)) : string :=
  let full_cmd := ["uv"] ++ cmd ++ options in
  let full_cmd := full_cmd ++ uv.bool_opt "no-cache" "no_cache" kw
                           ++ uv.bool_opt "no-config" "no_config" kw
                           ++ uv.bool_opt "native-tls" "native_tls" kw
                           ++ uv.bool_opt "offline" "offline" kw
                           ++ uv.bool_opt "no-python-downloads" "no_python_downloads" kw in
  let full_cmd := full_cmd ++ uv.val_opt "cache-dir" "cache_dir" kw
                           ++ uv.val_opt "directory" "directory" kw
                           ++ uv.val_opt "project" "project" kw
                           ++ uv.val_opt "config-file" "config_file" kw
                           ++ uv.val_opt "python-preference" "python_preference" kw in
  shlex_join H (full_cmd ++ params).

(** The message of [_uv] for a command that did not end with the status 0. *)
Definition failure_text (line : string) (res : CmdResult) : string :=
  "Failed running '" +:+ line +:+ "': " +:+
  (if String.eqb (stderr res) "" then stdout res else stderr res).

(** A release that [get_latest_version] considers under a constraint: its
    key is a version that lies in the specifier set and is neither a pre-, a
    dev- nor a post-release. *)
Definition stable_in (P : Packaging) (ss : specset P) (release : string) : Prop :=
  exists v,
    Version P release = Some v /\
    spec_contains P ss v = true /\
    is_prerelease P v = false /\
    is_devrelease P v = false /\
    is_postrelease P v = false.

(** The package index, asked for [pkg] in the world [w], has nothing newer
    than [installed_version]: it answers with a document, leaving the world
    [w'].  Without a constraint the version the document gives as the latest
    is not newer.  Under a constraint every key of [releases] is a version,
    one of them is a stable release in the constraint, and none of those is
    newer. *)
Definition nothing_newer {W : Type} (H : Host W) (P : Packaging) (pkg : string)
    (spec : option string) (installed_version : string) (w w' : W) : Prop :=
  exists document v,
    http_query H ("https://pypi.org/pypi/" +:+ pkg +:+ "/json") w = (Ok (Some document), w') /\
    Version P installed_version = Some v /\
    match spec with
    | None =>
        exists v', Version P (info_version document) = Some v' /\ ver_ltb P v v' = false
    | Some s =>
        exists ss,
          SpecifierSet P s = Some ss /\
          Forall (fun r => Version P r <> None) (releases document) /\
          (exists r, In r (releases document) /\ stable_in P ss r) /\
          (forall r v', In r (releases document) -> stable_in P ss r ->
                        Version P r = Some v' -> ver_ltb P v v' = false)
    end.

(** Every declared extra is present in the environment and satisfies its
    constraint and, when [upgrade] is set, the index has nothing newer for
    it.  The index is asked once per extra: [w] is the world before the
    first lookup and [w'] the world after the last. *)
Fixpoint extras_agree {W : Type} (H : Host W) (P : Packaging) (upgrade : bool)
    (curr : tool_info) (l : list extra) (w w' : W) : Prop :=
  match l with
  | [] => w' = w
  | e :: l' =>
      exists pkg spec installed_version,
        uv_tool.extra_pkg_spec e = Ok (pkg, spec) /\
        t_pkgs curr !! pkg = Some installed_version /\
        satisfies P spec installed_version /\
        if upgrade then
          exists w1, nothing_newer H P pkg spec installed_version w w1 /\
                     extras_agree H P upgrade curr l' w1 w'
        else extras_agree H P upgrade curr l' w w'
  end.

(** A line of the listing that [tool_list] passes over when it is asked for
    [name] alone: it lists an executable, or it does not name the tool. *)
Definition passes_over {W : Type} (H : Host W) (name : string) (line : string) : Prop :=
  startswith "-" line = true \/
  (forall version spec venv, LIST_REGEX_match H line <> Some (name, version, spec, venv)).

(** The tool [k] is among those a query asks for. *)
Definition asked (query : option str_or_list) (k : string) : Prop :=
  match query with
  | Some q => mem k (as_list q) = true
  | None => True
  end.

(** The two commands [tool_list] runs for the environment [venv] of a tool
    return, in whatever world they are run: [uv pip list] ends with the
    status 0 and prints what [json.loads] reads, and the interpreter of the
    environment prints its version. *)
Definition environment_is_read {W : Type} (H : Host W) (system : option bool)
    (user : option string) (kw : list (string * kwval)) (venv : string) : Prop :=
  forall w, exists items w1 pyver w2,
    uv._uv H ["pip"; "list"] [] ["--format"; "json"] user (uv.pip_list_env H system user kw)
           true (dict_set "directory" (KStr venv) kw) w
    = (Ok (OutJson items), w1) /\
    cmd_run H (shlex_join H [Path_resolve H (uv.venv_python venv) w1; "--version"]) user w1
    = (Ok pyver, w2).

(** ** The claims as the specification words them *)

(** C7 as the specification words it, read on the calls of one run: every
    call of [tool_install] has [reinstall] set. *)
Definition reinstall_always_set (calls : list uv_tool.call) : Prop :=
  forall name extras refresh refresh_package reinstall force python system user,
    In (uv_tool.Call_tool_install name extras refresh refresh_package reinstall force python
                                  system user) calls ->
    reinstall = true.

(** C2 as the specification words it, read on the diff and the calls of one
    run: a recorded interpreter change sets the install flag and the action
    is [tool_install]. *)
Definition interpreter_change_forces_install (d : changes_t * bool)
    (calls : list uv_tool.call) : Prop :=
  ch_python (fst d) <> None ->
  snd d = true /\
  exists name extras refresh refresh_package reinstall force python system user,
    In (uv_tool.Call_tool_install name extras refresh refresh_package reinstall force python
                                  system user) calls.

(** C1 as the specification words it, read on the outcome of one run: a
    failed verification leaves [installed] as an exception of a class other
    than those the handler turns into a failed result. *)
Definition consistency_failure_is_distinct {W : Type}
    (outcome : result state_ret * uv_tool.frame (W := W)) : Prop :=
  exists e, fst outcome = Raise e /\ uv_tool.caught e = false.

(** C8 as the specification words it, read on what the block raised and
    what the state function did: a [SaltInvocationError] of the block leaves
    the state function as that exception. *)
Definition invocation_error_propagates {W : Type}
    (block : result unit * uv_tool.frame (W := W))
    (outcome : result state_ret * uv_tool.frame (W := W)) : Prop :=
  forall msg, fst block = Raise (SaltInvocationError msg) ->
              fst outcome = Raise (SaltInvocationError msg).

(** C9 as the specification words it: the listing of one installed name is
    a mapping that holds the record under the name. *)
Definition lists_by_name (name : string) (l : tool_listing) : Prop :=
  exists tools t, l = Tools tools /\ dict_get name tools = Some t.

(** C5 as the specification words it, read on one run of [installed] with
    [upgrade] set, without extras and interpreter, for a tool that is listed
    as [curr] while the index answers with [index]: when the constraint is
    the recorded one, the installed version lies in it and no release in it
    is newer, the run returns the record it started with and makes no
    action. *)
Definition matching_is_noop {W : Type} (P : Packaging) (name : string)
    (version_spec : option string) (curr : tool_info) (index : pypi)
    (outcome : result state_ret * uv_tool.frame (W := W)) : Prop :=
  t_install_spec curr = version_spec ->
  satisfies P version_spec (t_version curr) ->
  (forall r v v', In r (releases index) -> satisfies P version_spec r ->
                  Version P (t_version curr) = Some v -> Version P r = Some v' ->
                  ver_ltb P v v' = false) ->
  fst outcome = Ok (uv_tool.ret0 name uv_tool.installed_comment) /\
  Forall (fun c => uv_tool.is_action c = false) (uv_tool.calls (snd outcome)).

(** ** Vocabulary of the further properties *)

(** The exception of [_uv] when it is called with [kw] directly, as
    [tool_list] calls it for the packages of an environment. *)
Definition invalid_for_uv (kw : list (string * kwval)) : exn :=
  SaltInvocationError
    ("The following keyword arguments are invalid: " +:+
     join ", " (filter (fun kwarg => negb (startswith "__" kwarg))
                       (map fst (kw_without uv._uv_params kw)))).

(** A line of the listing that [tool_list] reads as a tool it was asked
    for. *)
Definition names_tool {W : Type} (H : Host W) (query : option str_or_list) (line : string)
    : Prop :=
  startswith "-" line = false /\
  exists tool version spec venv,
    LIST_REGEX_match H line = Some (tool, version, spec, venv) /\
    match query with
    | Some q => mem tool (as_list q) = true
    | None => True
    end.

(** A keyword that is no parameter of [_uv] or of [_uv_tool] and that Salt
    did not add. *)
Definition unknown_keyword (k : string) : bool :=
  negb (mem k uv._uv_params) && negb (mem k uv._uv_tool_params) && negb (startswith "__" k).

(** Keywords with one that is no parameter, between one that is and one that
    Salt adds. *)
Definition colour_kwargs : kwargs :=
  {| kw_items := [("offline", KBool true); ("colour", KStr "never"); ("__pub_fun", KOther)];
     kw_ok := eq_refl |}.

(** Keywords with a directory for the environments of the tools. *)
Definition tool_dir_kwargs : kwargs :=
  {| kw_items := [("tool_dir", KStr "/srv/uv/tools")]; kw_ok := eq_refl |}.

(** The tools of the system are meant: [system] is set, or it was left out
    together with [user] by a caller that runs as root. *)
Definition system_scope {W : Type} (H : Host W) (system : option bool)
    (user : option string) : Prop :=
  system = Some true \/ (system = None /\ user = None /\ os_getuid H = 0%Z).

(** [x or d] for a directory that may be left out. *)
Definition dir_or (x : option string) (d : string) : string :=
  match x with
  | Some (String c s) => String c s
  | _ => d
  end.

(** The environment the caller gave, [{}] when there is none. *)
Definition caller_env (kw : list (string * kwval)) : list (string * string) :=
  match kw_env kw with
  | Some e => e
  | None => []
  end.

(** The host of the examples with another answer of the package index. *)
Definition index_host (latest : string) (keys : list string) : Host string :=
  {| cmd_run_all := cmd_run_all (toy.host true 0);
     cmd_run := cmd_run (toy.host true 0);
     http_query := fun _ w => (Ok (Some {| info_version := latest; releases := keys |}), w);
     os_getuid := os_getuid (toy.host true 0);
     Path_resolve := Path_resolve (toy.host true 0);
     shlex_join := shlex_join (toy.host true 0);
     json_loads := json_loads (toy.host true 0);
     json_dumps := json_dumps (toy.host true 0);
     LIST_REGEX_match := LIST_REGEX_match (toy.host true 0) |}.

(** The record [absent] returns after a removal that it has verified. *)
Definition removed_ret (name : string) (system : option bool) (user : option string)
    : state_ret :=
  {| st_name := name;
     st_result := Some true;
     st_comment := "The tool has been removed " +:+ uv_tool.scope_text system user;
     st_changes := uv_tool.set_removed name no_changes |}.

(** The error of [absent] when the tool is still listed after its removal. *)
Definition still_installed : exn :=
  CommandExecutionError
    "There were no errors during uninstallation, but the tool is still reported as installed".

(** The record [installed] returns after an action that it has verified:
    [curr] is the listing before the action and [changes] what was computed
    from it. *)
Definition installed_ret (name : string) (system : option bool) (user : option string)
    (curr : tool_listing) (changes : changes_t) : state_ret :=
  {| st_name := name;
     st_result := Some true;
     st_comment := "The tool has been " +:+ (if listing_truthy curr then "re" else "") +:+
                   "installed " +:+ uv_tool.scope_text system user;
     st_changes := changes |}.

(** The record [installed] returns in a dry run that found changes. *)
Definition would_install_ret (name : string) (system : option bool) (user : option string)
    (curr : tool_listing) (changes : changes_t) : state_ret :=
  {| st_name := name;
     st_result := None;
     st_comment := "The tool would have been " +:+
                   (if listing_truthy curr then "re" else "") +:+
                   "installed " +:+ uv_tool.scope_text system user;
     st_changes := changes |}.




(** The installed version is a version outside the declared constraint. *)
Definition violates (P : Packaging) (spec : option string) (version : string) : Prop :=
  exists s v ss,
    spec = Some s /\ Version P version = Some v /\ SpecifierSet P s = Some ss /\
    spec_contains P ss v = false.

(** The entry of [changes] for the constraint: the recorded text and the
    declared one, when they are not the same. *)
Definition version_spec_change (curr : tool_info) (version_spec : option string)
    : option oldnew :=
  if bool_decide (t_install_spec curr = version_spec) then None
  else Some {| old := t_install_spec curr; new := version_spec |}.

(** The entry of [changes] for the extras, from the dict the loop over them
    has filled. *)
Definition extras_change (misses : list (string * oldnew))
    : option (list (string * oldnew)) :=
  match misses with
  | [] => None
  | _ :: _ => Some misses
  end.

(** An entry of [changes["extras"]]: its key is the package of a declared
    extra, [old] is the version of that package in the environment ([None]
    when it is not there) and [new] is a version. *)
Definition extras_entry (curr : tool_info) (items : list extra) (kv : string * oldnew)
    : Prop :=
  old (snd kv) = t_pkgs curr !! fst kv /\
  new (snd kv) <> None /\
  exists e spec, In e items /\ uv_tool.extra_pkg_spec e = Ok (fst kv, spec).

(** The dict of copier 1.0.0 for the examples, with an empty environment. *)
Definition listed_copier : tool_info :=
  {| t_python := "/opt/uv/tools/copier/bin/python";
     t_python_version := "3.12.1";
     t_install_spec := None;
     t_version := "1.0.0";
     t_venv_path := "/opt/uv/tools/copier";
     t_pkgs := ∅ |}.

(** The [spec] that stands for the constraint [tool_list] has recorded. *)
Definition recorded_spec (t : tool_info) : outdated_spec :=
  match t_install_spec t with
  | Some (String c s) => Spec_str (String c s)
  | _ => Spec_False
  end.

(** The argument of [--with] for a declared extra. *)
Definition with_argument (e : extra) (s : string) : Prop :=
  exists pkg spec,
    uv_tool.extra_pkg_spec e = Ok (pkg, spec) /\
    s = match spec with
        | Some sp => pkg +:+ sp
        | None => pkg
        end.

(** The dict of a listed tool shows what was declared: the constraint as
    its text, the interpreter, a version inside the constraint, and the
    package of every declared extra in the environment. *)
Definition as_declared {W : Type} (H : Host W) (P : Packaging)
    (version_spec : option string) (extras : option extras_arg) (python : option string)
    (t : tool_info) (w : W) : Prop :=
  t_install_spec t = version_spec /\
  interpreter_matches H python t w /\
  ~ violates P version_spec (t_version t) /\
  forall ex e pkg spec,
    extras = Some ex -> In e (extras_items ex) ->
    uv_tool.extra_pkg_spec e = Ok (pkg, spec) -> t_pkgs t !! pkg <> None.

(** * Properties *)

(** ** The monad *)

Lemma bind_Ok {S A B : Type} (c : M S A) (k : A -> M S B) (s s' : S) (a : A) :
  c s = (Ok a, s') -> bind c k s = k a s'.
Proof. intros Hc. unfold bind. now rewrite Hc. Qed.

Lemma bind_Raise {S A B : Type} (c : M S A) (k : A -> M S B) (s s' : S) (e : exn) :
  c s = (Raise e, s') -> bind c k s = (Raise e, s').
Proof. intros Hc. unfold bind. now rewrite Hc. Qed.

Lemma bind_inv {S A B : Type} (c : M S A) (k : A -> M S B) (s s' : S) (r : result B) :
  bind c k s = (r, s') ->
  (exists a s1, c s = (Ok a, s1) /\ k a s1 = (r, s')) \/
  (exists e, c s = (Raise e, s') /\ r = Raise e).
Proof.
  unfold bind. destruct (c s) as [[a | e] s1]; intros Hk.
  - left. eauto.
  - right. inversion Hk; subst. eauto.
Qed.

(** ** Relations between the frame before and after a computation *)
Section respects.

Context {W : Type}.
Variable R : uv_tool.frame (W := W) -> uv_tool.frame (W := W) -> Prop.
Hypothesis R_refl : forall f, R f f.
Hypothesis R_trans : forall f g h, R f g -> R g h -> R f h.

Lemma respects_ret {A : Type} (a : A) : respects R (ret a).
Proof. intros f r f' Hm. inversion Hm; subst. apply R_refl. Qed.

Lemma respects_raise {A : Type} (e : exn) : respects R (@raise _ A e).
Proof. intros f r f' Hm. inversion Hm; subst. apply R_refl. Qed.

Lemma respects_of_result {A : Type} (x : result A) : respects R (of_result x).
Proof. intros f r f' Hm. inversion Hm; subst. apply R_refl. Qed.

Lemma respects_read_world : respects R uv_tool.read_world.
Proof. intros f r f' Hm. inversion Hm; subst. apply R_refl. Qed.

Lemma respects_version_of (P : Packaging) (text : string) :
  respects R (uv.version_of P text).
Proof.
  unfold uv.version_of. destruct (Version P text); [apply respects_ret | apply respects_raise].
Qed.

Lemma respects_specifier_of (P : Packaging) (text : string) :
  respects R (uv.specifier_of P text).
Proof.
  unfold uv.specifier_of.
  destruct (SpecifierSet P text); [apply respects_ret | apply respects_raise].
Qed.

Lemma respects_the_tool (key : string) (l : tool_listing) : respects R (uv.the_tool key l).
Proof. destruct l; [apply respects_raise | apply respects_ret]. Qed.

Lemma respects_bind {A B : Type} (c : M _ A) (k : A -> M _ B) :
  respects R c -> (forall a, respects R (k a)) -> respects R (bind c k).
Proof.
  intros Hc Hk f r f' Hm. apply bind_inv in Hm as [(a & f1 & Hc1 & Hk1) | (e & Hc1 & _)].
  - eapply R_trans; [eapply Hc | eapply Hk]; eauto.
  - eapply Hc; eauto.
Qed.

Lemma respects_foldM {A B : Type} (g : B -> A -> M _ B) (l : list A) :
  (forall acc x, respects R (g acc x)) -> forall acc, respects R (foldM g l acc).
Proof.
  intros Hg. induction l as [| x l IH]; intros acc; simpl.
  - apply respects_ret.
  - apply respects_bind; auto.
Qed.

End respects.

(** Case analysis of a computation down to its calls. *)
Ltac respects_step :=
  first
    [ apply respects_ret; solve [eauto]
    | apply respects_raise; solve [eauto]
    | apply respects_of_result; solve [eauto]
    | apply respects_read_world; solve [eauto]
    | apply respects_version_of; solve [eauto]
    | apply respects_specifier_of; solve [eauto]
    | apply respects_the_tool; solve [eauto]
    | apply respects_bind; [solve [eauto] | | intros ?]
    | apply respects_foldM; [solve [eauto] | solve [eauto] | intros ? ?]
    | match goal with
      | |- respects _ (match ?x with _ => _ end) => destruct x
      | |- respects _ (if ?x then _ else _) => destruct x
      end
    | progress cbv zeta ].

Ltac respects_go := repeat respects_step.

Section frames.

Context {W : Type} (H : Host W) (P : Packaging).

Local Abbreviation frame := (uv_tool.frame (W := W)).

Lemma same_ret_refl (f : frame) : same_ret f f.
Proof. reflexivity. Qed.

Lemma same_ret_trans (f g h : frame) : same_ret f g -> same_ret g h -> same_ret f h.
Proof. unfold same_ret. congruence. Qed.

Lemma quiet_refl (f : frame) : quiet f f.
Proof. exists []. split; [now rewrite app_nil_r | constructor]. Qed.

Lemma quiet_trans (f g h : frame) : quiet f g -> quiet g h -> quiet f h.
Proof.
  intros (l1 & E1 & F1) (l2 & E2 & F2). exists (l1 ++ l2). split.
  - rewrite E2, E1. now rewrite <- app_assoc.
  - apply Forall_app. split; assumption.
Qed.

Lemma salt_frame {A : Type} (c : uv_tool.call) (m : M W A) (f f' : frame) (r : result A) :
  uv_tool.salt c m f = (r, f') ->
  m (uv_tool.world f) = (r, uv_tool.world f') /\
  uv_tool.calls f' = uv_tool.calls f ++ [c] /\
  uv_tool.ret_dict f' = uv_tool.ret_dict f.
Proof.
  unfold uv_tool.salt. destruct (m (uv_tool.world f)) as [r1 w1]. intros E.
  inversion E; subst. simpl. auto.
Qed.

Lemma salt_same_ret {A : Type} (c : uv_tool.call) (m : M W A) :
  respects same_ret (uv_tool.salt c m).
Proof. intros f r f' E. apply salt_frame in E. apply E. Qed.

Lemma salt_quiet {A : Type} (c : uv_tool.call) (m : M W A) :
  uv_tool.is_action c = false -> respects quiet (uv_tool.salt c m).
Proof.
  intros Hc f r f' E. apply salt_frame in E as (_ & E & _).
  exists [c]. split; [assumption | now constructor].
Qed.

Hint Resolve same_ret_refl same_ret_trans quiet_refl quiet_trans : core.

Lemma get_latest_same_ret (name : string) (spec : option string) :
  respects same_ret (uv_tool.salt_get_latest_version H P name spec).
Proof. apply salt_same_ret. Qed.

Lemma get_latest_quiet (name : string) (spec : option string) :
  respects quiet (uv_tool.salt_get_latest_version H P name spec).
Proof. now apply salt_quiet. Qed.

Lemma tool_list_same_ret (name : string) (system : option bool) (user : option string)
    (kw : list (string * kwval)) :
  respects same_ret (uv_tool.salt_tool_list H name system user kw).
Proof. apply salt_same_ret. Qed.

Lemma tool_list_quiet (name : string) (system : option bool) (user : option string)
    (kw : list (string * kwval)) :
  respects quiet (uv_tool.salt_tool_list H name system user kw).
Proof. now apply salt_quiet. Qed.

Lemma check_extra_same_ret (upgrade : bool) (curr : tool_info)
    (misses : list (string * oldnew)) (e : extra) :
  respects same_ret (uv_tool.check_extra H P upgrade curr misses e).
Proof.
  unfold uv_tool.check_extra. respects_go; apply get_latest_same_ret.
Qed.

Lemma check_extra_quiet (upgrade : bool) (curr : tool_info)
    (misses : list (string * oldnew)) (e : extra) :
  respects quiet (uv_tool.check_extra H P upgrade curr misses e).
Proof.
  unfold uv_tool.check_extra. respects_go; apply get_latest_quiet.
Qed.

Lemma check_changes_same_ret (name : string) (version_spec : option string) (upgrade : bool)
    (extras : option extras_arg) (python : option string) (system : option bool)
    (user : option string) (kw : list (string * kwval)) (curr : tool_info) :
  respects same_ret
    (uv_tool._check_changes H P name version_spec upgrade extras python system user kw curr).
Proof.
  unfold uv_tool._check_changes.
  respects_go; apply salt_same_ret.
Qed.

Lemma check_changes_quiet (name : string) (version_spec : option string) (upgrade : bool)
    (extras : option extras_arg) (python : option string) (system : option bool)
    (user : option string) (kw : list (string * kwval)) (curr : tool_info) :
  respects quiet
    (uv_tool._check_changes H P name version_spec upgrade extras python system user kw curr).
Proof.
  unfold uv_tool._check_changes.
  respects_go; now apply salt_quiet.
Qed.

Lemma observe_diff_same_ret (name : string) (version_spec : option string) (upgrade : bool)
    (extras : option extras_arg) (python : option string) (system : option bool)
    (user : option string) (kw : list (string * kwval)) :
  respects same_ret
    (uv_tool.observe_diff H P name version_spec upgrade extras python system user kw).
Proof.
  unfold uv_tool.observe_diff.
  respects_go; apply salt_same_ret.
Qed.

Lemma observe_diff_quiet (name : string) (version_spec : option string) (upgrade : bool)
    (extras : option extras_arg) (python : option string) (system : option bool)
    (user : option string) (kw : list (string * kwval)) :
  respects quiet
    (uv_tool.observe_diff H P name version_spec upgrade extras python system user kw).
Proof.
  unfold uv_tool.observe_diff.
  respects_go; now apply salt_quiet.
Qed.

End frames.

(** Splitting an equation on a [bind] into the cases of its first part. *)
Ltac bind_cases E :=
  let a := fresh "a" in
  let f1 := fresh "f" in
  let E1 := fresh "E" in
  let e := fresh "e" in
  let Er := fresh "Er" in
  apply bind_inv in E as [(a & f1 & E1 & E) | (e & E1 & Er)];
  [| match type of Er with
     | ?x = _ => first [is_var x; subst x | discriminate Er]
     end].

Section runs.

Context {W : Type} (H : Host W) (P : Packaging).

Local Abbreviation frame := (uv_tool.frame (W := W)).

Lemma dispatch_same_ret (name : string) (upgrade : bool) (extras : option extras_arg)
    (refresh : bool) (refresh_package : option str_or_list) (force : bool)
    (python : option string) (system : option bool) (user : option string)
    (kw : list (string * kwval)) (curr : tool_listing) (requires_install : bool) :
  respects same_ret
    (uv_tool.dispatch H name upgrade extras refresh refresh_package force python system user
                      kw curr requires_install).
Proof.
  pose proof (@same_ret_refl W). pose proof (@same_ret_trans W).
  unfold uv_tool.dispatch. respects_go; apply salt_same_ret.
Qed.

Lemma verify_ret (name : string) (version_spec : option string) (upgrade : bool)
    (extras : option extras_arg) (python : option string) (system : option bool)
    (user : option string) (kw : list (string * kwval)) (curr : tool_listing)
    (changes : changes_t) (f f' : frame) (r : result unit) :
  uv_tool.verify H P name version_spec upgrade extras python system user kw curr changes f
  = (r, f') ->
  match r with
  | Raise _ => same_ret f f'
  | Ok _ => st_result (uv_tool.ret_dict f') = st_result (uv_tool.ret_dict f)
  end.
Proof.
  unfold uv_tool.verify. intros E. cbv zeta in E.
  bind_cases E; [| eapply tool_list_same_ret; eauto].
  pose proof (tool_list_same_ret _ _ _ _ _ _ _ _ E0) as S1.
  destruct (negb (listing_truthy a)).
  { inversion E; subst. exact S1. }
  bind_cases E.
  2: { eapply same_ret_trans; [exact S1 |]. eapply (respects_the_tool same_ret); eauto.
       apply same_ret_refl. }
  assert (S2 : same_ret f0 f1).
  { eapply (respects_the_tool same_ret); eauto. apply same_ret_refl. }
  bind_cases E.
  2: { eapply same_ret_trans; [exact S1 |]. eapply same_ret_trans; [exact S2 |].
       eapply check_changes_same_ret; eauto. }
  pose proof (check_changes_same_ret _ _ _ _ _ _ _ _ _ _ _ _ _ _ E2) as S3.
  assert (S03 : same_ret f f2).
  { eapply same_ret_trans; [exact S1 |]. eapply same_ret_trans; eauto. }
  destruct (changes_truthy (fst a1)).
  { inversion E; subst. exact S03. }
  inversion E; subst. simpl. now rewrite S03.
Qed.

(** How [ret] stands when the [try] block of [installed] is left: untouched
    when an exception leaves it, and with the result [None] or the one it
    had when it is left normally. *)
Lemma installed_try_ret (name : string) (version_spec : option string) (upgrade : bool)
    (extras : option extras_arg) (refresh : bool) (refresh_package : option str_or_list)
    (force : bool) (python : option string) (system : option bool) (user : option string)
    (kw : list (string * kwval)) (test : bool) (f f' : frame) (r : result unit) :
  uv_tool.installed_try H P name version_spec upgrade extras refresh refresh_package force
                        python system user kw test f = (r, f') ->
  match r with
  | Raise _ => same_ret f f'
  | Ok _ => st_result (uv_tool.ret_dict f') = None \/
            st_result (uv_tool.ret_dict f') = st_result (uv_tool.ret_dict f)
  end.
Proof.
  unfold uv_tool.installed_try. intros E. cbv zeta in E.
  bind_cases E; [| eapply observe_diff_same_ret; eauto].
  pose proof (observe_diff_same_ret _ _ _ _ _ _ _ _ _ _ _ _ _ E0) as S1.
  destruct (negb (changes_truthy (fst (snd a)))).
  { inversion E; subst. right. now rewrite S1. }
  destruct test.
  { inversion E; subst. now left. }
  bind_cases E.
  2: { eapply same_ret_trans; [exact S1 |]. eapply dispatch_same_ret; eauto. }
  pose proof (dispatch_same_ret _ _ _ _ _ _ _ _ _ _ _ _ _ _ _ E1) as S2.
  apply verify_ret in E. destruct r.
  - right. rewrite E. unfold same_ret in *. congruence.
  - eapply same_ret_trans; [exact S1 |]. eapply same_ret_trans; eauto.
Qed.

Lemma absent_try_ret (name : string) (system : option bool) (user : option string)
    (kw : list (string * kwval)) (test : bool) (f f' : frame) (r : result unit) :
  uv_tool.absent_try H name system user kw test f = (r, f') ->
  match r with
  | Raise _ => same_ret f f'
  | Ok _ => st_result (uv_tool.ret_dict f') = None \/
            st_result (uv_tool.ret_dict f') = st_result (uv_tool.ret_dict f)
  end.
Proof.
  unfold uv_tool.absent_try. intros E. cbv zeta in E.
  bind_cases E; [| eapply salt_same_ret; eauto].
  pose proof (salt_same_ret _ _ _ _ _ E0) as S1.
  destruct (negb a).
  { inversion E; subst. right. now rewrite S1. }
  destruct test.
  { inversion E; subst. now left. }
  bind_cases E.
  2: { eapply same_ret_trans; [exact S1 |]. eapply salt_same_ret; eauto. }
  pose proof (salt_same_ret _ _ _ _ _ E1) as S2.
  bind_cases E.
  2: { eapply same_ret_trans; [exact S1 |]. eapply same_ret_trans; [exact S2 |].
       eapply salt_same_ret; eauto. }
  pose proof (salt_same_ret _ _ _ _ _ E2) as S3.
  assert (S03 : same_ret f f2).
  { eapply same_ret_trans; [exact S1 |]. eapply same_ret_trans; eauto. }
  destruct a1.
  { inversion E; subst. exact S03. }
  inversion E; subst. right. simpl. now rewrite S03.
Qed.

(** A state that returns [False] returns no changes, whatever its block. *)
Lemma run_state_failed (name comment : string) (body : M frame unit) (w : W)
    (x : state_ret) (f : frame) :
  (forall f0 r f', body f0 = (r, f') ->
     match r with
     | Raise _ => same_ret f0 f'
     | Ok _ => st_result (uv_tool.ret_dict f') = None \/
               st_result (uv_tool.ret_dict f') = st_result (uv_tool.ret_dict f0)
     end) ->
  uv_tool.run_state name comment body w = (Ok x, f) ->
  st_result x = Some false -> st_changes x = no_changes.
Proof.
  intros Hbody. unfold uv_tool.run_state, uv_tool.try_except_salt.
  set (f0' := uv_tool.frame0 name comment w).
  specialize (Hbody f0'). destruct (body f0') as [[[] | e] f1] eqn:Eb.
  - specialize (Hbody _ _ eq_refl). intros E Hx. inversion E; subst.
    destruct Hbody as [Hn | Hn]; rewrite Hn in Hx; discriminate.
  - specialize (Hbody _ _ eq_refl). unfold same_ret in Hbody.
    destruct e; intros E Hx; try discriminate;
      inversion E; subst; simpl; now rewrite Hbody.
Qed.

End runs.

Section dry_run.

Context {W : Type} (H : Host W) (P : Packaging).

Local Abbreviation frame := (uv_tool.frame (W := W)).

Lemma set_ret_quiet (g : state_ret -> state_ret) : respects quiet (@uv_tool.set_ret W g).
Proof.
  intros f r f' E. inversion E; subst. exists []. simpl.
  split; [now rewrite app_nil_r | constructor].
Qed.

Lemma on_error_quiet (e : exn) : respects quiet (@uv_tool.on_error W e).
Proof.
  unfold uv_tool.on_error.
  apply respects_bind; [apply quiet_trans | apply set_ret_quiet |].
  intros _. apply set_ret_quiet.
Qed.

(** A block that calls no action makes a state that calls no action. *)
Lemma run_state_quiet (name comment : string) (body : M frame unit) (w : W) :
  respects quiet body ->
  Forall (fun c => uv_tool.is_action c = false)
         (uv_tool.calls (snd (uv_tool.run_state name comment body w))).
Proof.
  intros Hb. unfold uv_tool.run_state, uv_tool.try_except_salt.
  set (f0 := uv_tool.frame0 name comment w).
  assert (Hq : forall f, quiet f0 f -> Forall (fun c => uv_tool.is_action c = false)
                                              (uv_tool.calls f)).
  { intros f (l & E & F). rewrite E. exact F. }
  destruct (body f0) as [[[] | e] f1] eqn:Eb; pose proof (Hb _ _ _ Eb) as Q1.
  - simpl. auto.
  - assert (He : forall r f2, uv_tool.on_error e f1 = (r, f2) -> quiet f0 f2).
    { intros r f2 E. eapply quiet_trans; [exact Q1 |]. eapply on_error_quiet; eauto. }
    destruct e; simpl; auto;
      match goal with
      | |- context [uv_tool.on_error ?x f1] =>
          destruct (uv_tool.on_error x f1) as [[[] | e'] f2] eqn:Eh; simpl; eauto
      end.
Qed.

Lemma installed_try_test_quiet (name : string) (version_spec : option string)
    (upgrade : bool) (extras : option extras_arg) (refresh : bool)
    (refresh_package : option str_or_list) (force : bool) (python : option string)
    (system : option bool) (user : option string) (kw : list (string * kwval)) :
  respects quiet
    (uv_tool.installed_try H P name version_spec upgrade extras refresh refresh_package force
                           python system user kw true).
Proof.
  pose proof (@quiet_refl W). pose proof (@quiet_trans W).
  unfold uv_tool.installed_try. cbv zeta.
  apply respects_bind; [assumption | apply observe_diff_quiet |].
  intros a. destruct (negb (changes_truthy (fst (snd a)))).
  - now apply respects_ret.
  - respects_go; apply set_ret_quiet.
Qed.

Lemma absent_try_test_quiet (name : string) (system : option bool) (user : option string)
    (kw : list (string * kwval)) :
  respects quiet (uv_tool.absent_try H name system user kw true).
Proof.
  pose proof (@quiet_refl W). pose proof (@quiet_trans W).
  unfold uv_tool.absent_try. cbv zeta.
  apply respects_bind; [assumption | now apply salt_quiet |].
  intros a. destruct (negb a).
  - now apply respects_ret.
  - respects_go; apply set_ret_quiet.
Qed.

End dry_run.

(** C3: with the test flag set, [installed] and [absent] make no call to
    [tool_install], [tool_upgrade] or [tool_remove], whatever happens and
    whatever the changes are; when the computed changes are not empty,
    [installed] returns the result [None] with these changes, and when the
    tool is installed [absent] returns the result [None] with the pending
    removal. *)
Theorem dry_run_takes_no_action {W : Type} (H : Host W) (P : Packaging)
    (name : string) (version_spec : option string) (upgrade : bool)
    (extras : option extras_arg) (refresh : bool) (refresh_package : option str_or_list)
    (force : bool) (python : option string) (system : option bool) (user : option string)
    (kw : kwargs) (w : W) :
  let run_installed :=
    uv_tool.installed H P name version_spec upgrade extras refresh refresh_package force
                      python system user kw true w in
  let run_absent := uv_tool.absent H name system user kw true w in
  Forall (fun c => uv_tool.is_action c = false) (uv_tool.calls (snd run_installed)) /\
  Forall (fun c => uv_tool.is_action c = false) (uv_tool.calls (snd run_absent)) /\
  (forall curr changes requires_install f1,
     uv_tool.observe_diff H P name version_spec upgrade extras python
       (uv.default_system H system user) user kw
       (uv_tool.frame0 name uv_tool.installed_comment w)
     = (Ok (curr, (changes, requires_install)), f1) ->
     changes_truthy changes = true ->
     exists x, fst run_installed = Ok x /\ st_result x = None /\ st_changes x = changes) /\
  (forall w1,
     uv.tool_is_installed H name (uv.default_system H system user) user kw w = (Ok true, w1) ->
     exists x, fst run_absent = Ok x /\ st_result x = None /\
               st_changes x = uv_tool.set_removed name no_changes).
Proof.
  cbv zeta. repeat split.
  - apply run_state_quiet, installed_try_test_quiet.
  - apply run_state_quiet, absent_try_test_quiet.
  - intros curr changes req f1 Eo Hc.
    unfold uv_tool.installed, uv_tool.run_state, uv_tool.try_except_salt,
      uv_tool.installed_try.
    cbv zeta. rewrite (bind_Ok _ _ _ _ _ Eo). simpl. rewrite Hc. simpl.
    eexists. repeat split.
  - intros w1 Ei.
    unfold uv_tool.absent, uv_tool.run_state, uv_tool.try_except_salt, uv_tool.absent_try.
    cbv zeta. unfold bind at 1. unfold uv_tool.salt at 1. simpl. rewrite Ei. simpl.
    eexists. repeat split.
Qed.

Lemma dry_run_takes_no_action_witness :
  (exists x,
     fst (uv_tool.installed (toy.host true 0) toy.packaging "copier" None false None false
            None false (Some "/usr/bin/python3") None None toy.no_kwargs true
            toy.installed_copier) = Ok x /\
     st_result x = None /\
     st_changes x =
       uv_tool.set_python {| old := Some "/opt/uv/tools/copier/bin/python";
                             new := Some "/usr/bin/python3" |} no_changes) /\
  (exists x,
     fst (uv_tool.absent (toy.host true 0) "copier" None None toy.no_kwargs true
            toy.installed_copier) = Ok x /\
     st_result x = None /\
     st_changes x = uv_tool.set_removed "copier" no_changes).
Proof.
  destruct (dry_run_takes_no_action (toy.host true 0) toy.packaging "copier" None false None
              false None false (Some "/usr/bin/python3") None None toy.no_kwargs
              toy.installed_copier) as (_ & _ & Hi & Ha).
  split.
  - eapply Hi; [vm_compute; reflexivity | reflexivity].
  - eapply Ha. vm_compute. reflexivity.
Defined.

(** C10: a result record of [installed] or [absent] whose result is [False]
    has empty changes. *)
Theorem failed_result_has_no_changes {W : Type} (H : Host W) (P : Packaging)
    (name : string) (version_spec : option string) (upgrade : bool)
    (extras : option extras_arg) (refresh : bool) (refresh_package : option str_or_list)
    (force : bool) (python : option string) (system : option bool) (user : option string)
    (kw : kwargs) (test : bool) (w : W) (x : state_ret) (f : uv_tool.frame) :
  uv_tool.installed H P name version_spec upgrade extras refresh refresh_package force
                    python system user kw test w = (Ok x, f) \/
  uv_tool.absent H name system user kw test w = (Ok x, f) ->
  st_result x = Some false ->
  st_changes x = no_changes.
Proof.
  intros [E | E] Hx.
  - eapply run_state_failed; [| exact E | exact Hx].
    intros f0 r f'. apply installed_try_ret.
  - eapply run_state_failed; [| exact E | exact Hx].
    intros f0 r f'. apply absent_try_ret.
Qed.

Lemma failed_result_has_no_changes_witness :
  exists x f,
    uv_tool.installed (toy.host true 1) toy.packaging "copier" None false None false None
      false None None None toy.no_kwargs false "" = (Ok x, f) /\
    st_result x = Some false /\
    st_changes x = no_changes.
Proof.
  eexists. eexists. split; [vm_compute; reflexivity |]. split; [reflexivity |].
  eapply (failed_result_has_no_changes (toy.host true 1) toy.packaging "copier" None false
            None false None false None None None toy.no_kwargs false "");
    [left; vm_compute; reflexivity | reflexivity].
Defined.

Section dispatching.

Context {W : Type} (H : Host W) (P : Packaging).

Local Abbreviation frame := (uv_tool.frame (W := W)).

(** The three ways a state function ends. *)
Lemma run_state_Ok (name comment : string) (body : M frame unit) (w : W) (f : frame) (u : unit) :
  body (uv_tool.frame0 name comment w) = (Ok u, f) ->
  uv_tool.run_state name comment body w = (Ok (uv_tool.ret_dict f), f).
Proof.
  intros E. unfold uv_tool.run_state, uv_tool.try_except_salt. now rewrite E.
Qed.

Lemma run_state_caught (name comment : string) (body : M frame unit) (w : W) (f : frame)
    (e : exn) :
  body (uv_tool.frame0 name comment w) = (Raise e, f) ->
  uv_tool.caught e = true ->
  uv_tool.run_state name comment body w
  = (Ok (uv_tool.failed_ret (uv_tool.ret_dict f) e),
     {| uv_tool.world := uv_tool.world f; uv_tool.calls := uv_tool.calls f;
        uv_tool.ret_dict := uv_tool.failed_ret (uv_tool.ret_dict f) e |}).
Proof.
  intros E He. unfold uv_tool.run_state, uv_tool.try_except_salt. rewrite E.
  destruct e; try discriminate; reflexivity.
Qed.

Lemma run_state_uncaught (name comment : string) (body : M frame unit) (w : W) (f : frame)
    (e : exn) :
  body (uv_tool.frame0 name comment w) = (Raise e, f) ->
  uv_tool.caught e = false ->
  uv_tool.run_state name comment body w = (Raise e, f).
Proof.
  intros E He. unfold uv_tool.run_state, uv_tool.try_except_salt. rewrite E.
  destruct e; try discriminate; reflexivity.
Qed.

(** The calls of a state function are those of its block. *)
Lemma run_state_calls (name comment : string) (body : M frame unit) (w : W)
    (r : result unit) (f : frame) :
  body (uv_tool.frame0 name comment w) = (r, f) ->
  uv_tool.calls (snd (uv_tool.run_state name comment body w)) = uv_tool.calls f.
Proof.
  intros E. unfold uv_tool.run_state, uv_tool.try_except_salt. rewrite E.
  destruct r as [u | e]; [reflexivity |]. destruct e; reflexivity.
Qed.

Lemma dispatch_calls (name : string) (upgrade : bool) (extras : option extras_arg)
    (refresh : bool) (refresh_package : option str_or_list) (force : bool)
    (python : option string) (system : option bool) (user : option string)
    (kw : list (string * kwval)) (curr : tool_listing) (requires_install : bool)
    (f f' : frame) (r : result bool) :
  uv_tool.dispatch H name upgrade extras refresh refresh_package force python system user
                   kw curr requires_install f = (r, f') ->
  uv_tool.calls f' =
    uv_tool.calls f ++ dispatched name upgrade extras refresh refresh_package force python
                                  system user curr requires_install.
Proof.
  unfold uv_tool.dispatch, dispatched. destruct requires_install.
  - destruct (uv_tool.cmd_extras extras) as [ce | e]; intros E.
    + unfold bind, of_result in E. now apply salt_frame in E.
    + unfold bind, of_result in E. inversion E; subst. now rewrite app_nil_r.
  - intros E. now apply salt_frame in E.
Qed.

Lemma verify_quiet (name : string) (version_spec : option string) (upgrade : bool)
    (extras : option extras_arg) (python : option string) (system : option bool)
    (user : option string) (kw : list (string * kwval)) (curr : tool_listing)
    (changes : changes_t) :
  respects quiet
    (uv_tool.verify H P name version_spec upgrade extras python system user kw curr changes).
Proof.
  pose proof (@quiet_refl W). pose proof (@quiet_trans W).
  unfold uv_tool.verify.
  respects_go; first [now apply salt_quiet | apply set_ret_quiet].
Qed.

(** The calls of [installed] outside the dry run, once the changes it
    computed are not empty: those of the observation, the one dispatched
    call, and calls that are no action. *)
Lemma installed_calls (name : string) (version_spec : option string) (upgrade : bool)
    (extras : option extras_arg) (refresh : bool) (refresh_package : option str_or_list)
    (force : bool) (python : option string) (system : option bool) (user : option string)
    (kw : kwargs) (w : W) (curr : tool_listing) (changes : changes_t)
    (requires_install : bool) (f1 : frame) :
  uv_tool.observe_diff H P name version_spec upgrade extras python
    (uv.default_system H system user) user kw
    (uv_tool.frame0 name uv_tool.installed_comment w)
  = (Ok (curr, (changes, requires_install)), f1) ->
  changes_truthy changes = true ->
  exists rest,
    uv_tool.calls (snd (uv_tool.installed H P name version_spec upgrade extras refresh
                          refresh_package force python system user kw false w))
    = uv_tool.calls f1 ++
      dispatched name upgrade extras refresh refresh_package force python
                 (uv.default_system H system user) user curr requires_install ++ rest /\
    Forall (fun c => uv_tool.is_action c = false) rest.
Proof.
  intros Eo Hc. unfold uv_tool.installed.
  destruct (uv_tool.installed_try H P name version_spec upgrade extras refresh
              refresh_package force python system user kw false
              (uv_tool.frame0 name uv_tool.installed_comment w)) as [r f] eqn:E.
  rewrite (run_state_calls _ _ _ _ _ _ E).
  unfold uv_tool.installed_try in E. cbv zeta in E.
  rewrite (bind_Ok _ _ _ _ _ Eo) in E. simpl in E. rewrite Hc in E. simpl in E.
  bind_cases E.
  - apply dispatch_calls in E0. apply verify_quiet in E as (rest & E & F).
    exists rest. split; [| exact F]. rewrite E, E0. now rewrite <- app_assoc.
  - apply dispatch_calls in E0. exists []. split; [| constructor].
    now rewrite app_nil_r.
Qed.

(** Without changes, or in a dry run, or when the observation fails, no
    action is called. *)
Lemma installed_quiet_otherwise (name : string) (version_spec : option string)
    (upgrade : bool) (extras : option extras_arg) (refresh : bool)
    (refresh_package : option str_or_list) (force : bool) (python : option string)
    (system : option bool) (user : option string) (kw : kwargs) (test : bool) (w : W)
    (r : result (tool_listing * (changes_t * bool))) (f1 : frame) :
  uv_tool.observe_diff H P name version_spec upgrade extras python
    (uv.default_system H system user) user kw
    (uv_tool.frame0 name uv_tool.installed_comment w) = (r, f1) ->
  match r with
  | Ok (_, (changes, _)) => changes_truthy changes = false \/ test = true
  | Raise _ => True
  end ->
  Forall (fun c => uv_tool.is_action c = false)
    (uv_tool.calls (snd (uv_tool.installed H P name version_spec upgrade extras refresh
                           refresh_package force python system user kw test w))).
Proof.
  intros Eo Hr. unfold uv_tool.installed.
  destruct (uv_tool.installed_try H P name version_spec upgrade extras refresh
              refresh_package force python system user kw test
              (uv_tool.frame0 name uv_tool.installed_comment w)) as [r' f] eqn:E.
  rewrite (run_state_calls _ _ _ _ _ _ E).
  assert (Q : quiet (uv_tool.frame0 name uv_tool.installed_comment w) f).
  { pose proof (observe_diff_quiet _ _ _ _ _ _ _ _ _ _ _ _ _ Eo) as Q1.
    unfold uv_tool.installed_try in E. cbv zeta in E.
    destruct r as [[curr [changes req]] | e].
    - rewrite (bind_Ok _ _ _ _ _ Eo) in E. simpl in E.
      destruct (changes_truthy changes) eqn:Hc; simpl in E.
      + destruct Hr as [Hr | ->]; [discriminate |]. inversion E; subst.
        destruct Q1 as (l & E1 & F1). exists l. simpl. auto.
      + inversion E; subst. exact Q1.
    - rewrite (bind_Raise _ _ _ _ _ Eo) in E. inversion E; subst. exact Q1. }
  destruct Q as (l & El & F). simpl in El. now rewrite El.
Qed.

End dispatching.

Section observation.

Context {W : Type} (H : Host W) (P : Packaging).

Local Abbreviation frame := (uv_tool.frame (W := W)).

(** The listing [observe_diff] returns is what [tool_list] gave in the
    world the state started in. *)
Lemma observe_diff_listing (name : string) (version_spec : option string) (upgrade : bool)
    (extras : option extras_arg) (python : option string) (system : option bool)
    (user : option string) (kw : list (string * kwval)) (f f1 : frame)
    (curr : tool_listing) (diff : changes_t * bool) :
  uv_tool.observe_diff H P name version_spec upgrade extras python system user kw f
  = (Ok (curr, diff), f1) ->
  exists w1,
    uv.tool_list H (Some (StrList [name])) system user kw (uv_tool.world f) = (Ok curr, w1).
Proof.
  unfold uv_tool.observe_diff. intros E. bind_cases E.
  apply salt_frame in E0 as (E0 & _). bind_cases E. inversion E; subst. eauto.
Qed.

(** When the listing is empty, [observe_diff] stops at the marker. *)
Lemma observe_diff_absent (name : string) (version_spec : option string) (upgrade : bool)
    (extras : option extras_arg) (python : option string) (system : option bool)
    (user : option string) (kw : list (string * kwval)) (f : frame) (w1 : W)
    (l : tool_listing) :
  uv.tool_list H (Some (StrList [name])) system user kw (uv_tool.world f) = (Ok l, w1) ->
  listing_truthy l = false ->
  uv_tool.observe_diff H P name version_spec upgrade extras python system user kw f
  = (Ok (l, (uv_tool.set_installed name no_changes, true)),
     {| uv_tool.world := w1;
        uv_tool.calls := uv_tool.calls f ++ [uv_tool.Call_tool_list [name] system user];
        uv_tool.ret_dict := uv_tool.ret_dict f |}).
Proof.
  intros El Hl. unfold uv_tool.observe_diff, uv_tool.salt_tool_list.
  unfold bind at 1. unfold uv_tool.salt. rewrite El. rewrite Hl. reflexivity.
Qed.

End observation.

(** C4: when the listing of the tool is empty, the changes are exactly
    [{installed: name}] and the install flag is set, the only call made up
    to there is the listing itself (no rule of [_check_changes] has run),
    and outside the dry run the next call is [tool_install].  No other
    action is called: any call to the action executor in the run is that
    [tool_install]. *)
Theorem absent_tool_gets_installed {W : Type} (H : Host W) (P : Packaging)
    (name : string) (version_spec : option string) (upgrade : bool)
    (extras : option extras_arg) (refresh : bool) (refresh_package : option str_or_list)
    (force : bool) (python : option string) (system : option bool) (user : option string)
    (kw : kwargs) (w w1 : W) (l : tool_listing) :
  let system' := uv.default_system H system user in
  uv.tool_list H (Some (StrList [name])) system' user kw w = (Ok l, w1) ->
  listing_truthy l = false ->
  uv_tool.observe_diff H P name version_spec upgrade extras python system' user kw
    (uv_tool.frame0 name uv_tool.installed_comment w)
  = (Ok (l, (uv_tool.set_installed name no_changes, true)),
     {| uv_tool.world := w1;
        uv_tool.calls := [uv_tool.Call_tool_list [name] system' user];
        uv_tool.ret_dict := uv_tool.ret0 name uv_tool.installed_comment |}) /\
  (forall ce,
     uv_tool.cmd_extras extras = Ok ce ->
     exists rest,
       uv_tool.calls (snd (uv_tool.installed H P name version_spec upgrade extras refresh
                             refresh_package force python system user kw false w))
       = [uv_tool.Call_tool_list [name] system' user;
          uv_tool.Call_tool_install name ce refresh refresh_package false force python
                                    system' user] ++ rest /\
       Forall (fun c => uv_tool.is_action c = false) rest) /\
  (forall test c,
     In c (uv_tool.calls (snd (uv_tool.installed H P name version_spec upgrade extras
                                 refresh refresh_package force python system user kw test
                                 w))) ->
     uv_tool.is_action c = true ->
     exists ce,
       c = uv_tool.Call_tool_install name ce refresh refresh_package false force python
                                     system' user).
Proof.
  intros system' El Hl.
  pose proof (observe_diff_absent H P name version_spec upgrade extras python system' user
                kw (uv_tool.frame0 name uv_tool.installed_comment w) w1 l El Hl) as Eo.
  destruct (installed_calls H P name version_spec upgrade extras refresh refresh_package
              force python system user kw w _ _ _ _ Eo eq_refl) as (rest & Ec & F).
  assert (Hno : forall cs c, Forall (fun c => uv_tool.is_action c = false) cs ->
                             In c cs -> uv_tool.is_action c = true -> False).
  { intros cs c Hcs Hin Ha. rewrite Forall_forall in Hcs.
    apply list_elem_of_In in Hin. apply Hcs in Hin. congruence. }
  split; [exact Eo |]. split.
  - intros ce Hce. exists rest. split; [| exact F]. rewrite Ec. unfold dispatched.
    rewrite Hce, Hl. reflexivity.
  - intros test c Hin Ha. destruct test.
    + exfalso. eapply Hno; [| exact Hin | exact Ha].
      eapply installed_quiet_otherwise; [exact Eo |]. now right.
    + rewrite Ec in Hin. simpl uv_tool.calls in Hin.
      apply in_app_or in Hin as [Hin | Hin].
      { destruct Hin as [<- | []]. discriminate Ha. }
      apply in_app_or in Hin as [Hin | Hin]; [| exfalso; eapply Hno; eauto].
      unfold dispatched in Hin. rewrite Hl in Hin.
      destruct (uv_tool.cmd_extras extras) as [ce | e]; [| destruct Hin].
      destruct Hin as [<- | []]. now exists ce.
Qed.

Lemma absent_tool_gets_installed_witness :
  exists rest,
    uv_tool.calls (snd (uv_tool.installed (toy.host true 0) toy.packaging "copier" None false
                          None false None false None None None toy.no_kwargs false ""))
    = [uv_tool.Call_tool_list ["copier"] (Some true) None;
       uv_tool.Call_tool_install "copier" None false None false false None (Some true) None]
      ++ rest /\
    Forall (fun c => uv_tool.is_action c = false) rest.
Proof.
  refine (proj1 (proj2 (absent_tool_gets_installed (toy.host true 0) toy.packaging "copier"
                          None false None false None false None None None toy.no_kwargs ""
                          "" (Tools []) _ _)) None _);
    vm_compute; reflexivity.
Defined.

(** C7, counterexample: a tool that is not installed yet is installed with
    [reinstall=False]. *)
Lemma reinstall_depends_on_listing :
  ~ reinstall_always_set
      (uv_tool.calls (snd (uv_tool.installed (toy.host true 0) toy.packaging "copier" None
                             false None false None false None None None toy.no_kwargs false
                             ""))).
Proof.
  intros Hc.
  specialize (Hc "copier" None false None false false None (Some true) None).
  assert (Hf : false = true); [| discriminate Hf].
  apply Hc. vm_compute. right. left. reflexivity.
Qed.

(** C7, amended: in every call of [tool_install] that [installed] makes,
    [reinstall] is the truth value of the listing taken before the action:
    set when the tool was listed as installed, not set when it was not. *)
Theorem reinstall_is_truth_of_listing {W : Type} (H : Host W) (P : Packaging)
    (name : string) (version_spec : option string) (upgrade : bool)
    (extras : option extras_arg) (refresh : bool) (refresh_package : option str_or_list)
    (force : bool) (python : option string) (system : option bool) (user : option string)
    (kw : kwargs) (test : bool) (w : W)
    (name' : string) (extras' : option (list string)) (refresh' : bool)
    (refresh_package' : option str_or_list) (reinstall force' : bool)
    (python' : option string) (system' : option bool) (user' : option string) :
  In (uv_tool.Call_tool_install name' extras' refresh' refresh_package' reinstall force'
                                python' system' user')
     (uv_tool.calls (snd (uv_tool.installed H P name version_spec upgrade extras refresh
                            refresh_package force python system user kw test w))) ->
  exists l w1,
    uv.tool_list H (Some (StrList [name])) (uv.default_system H system user) user kw w
    = (Ok l, w1) /\
    reinstall = listing_truthy l.
Proof.
  intros Hin.
  assert (Hact : forall cs, Forall (fun c => uv_tool.is_action c = false) cs ->
                            ~ In (uv_tool.Call_tool_install name' extras' refresh'
                                    refresh_package' reinstall force' python' system' user')
                                 cs).
  { intros cs F Hc. rewrite Forall_forall in F.
    apply list_elem_of_In in Hc. apply F in Hc. discriminate Hc. }
  destruct (uv_tool.observe_diff H P name version_spec upgrade extras python
              (uv.default_system H system user) user kw
              (uv_tool.frame0 name uv_tool.installed_comment w)) as [r f1] eqn:Eo.
  assert (Hquiet : match r with
                   | Ok (_, (changes, _)) => changes_truthy changes = false \/ test = true
                   | Raise _ => True
                   end -> False).
  { intros Hr. eapply Hact; [| exact Hin].
    eapply installed_quiet_otherwise; eauto. }
  destruct r as [[curr [changes req]] | e]; [| now destruct Hquiet].
  destruct (changes_truthy changes) eqn:Hc; [| destruct Hquiet; now left].
  destruct test; [destruct Hquiet; now right |].
  destruct (installed_calls H P name version_spec upgrade extras refresh refresh_package
              force python system user kw w _ _ _ _ Eo Hc) as (rest & Ec & F).
  rewrite Ec in Hin. apply in_app_or in Hin as [Hin | Hin].
  { exfalso. eapply Hact; [| exact Hin].
    destruct (observe_diff_quiet _ _ _ _ _ _ _ _ _ _ _ _ _ Eo) as (l0 & E0 & F0).
    simpl in E0. now rewrite E0. }
  apply in_app_or in Hin as [Hin | Hin]; [| exfalso; eapply Hact; eauto].
  apply observe_diff_listing in Eo as (w1 & El). simpl in El.
  exists curr, w1. split; [exact El |].
  unfold dispatched in Hin. destruct req.
  - destruct (uv_tool.cmd_extras extras); simpl in Hin; [| contradiction].
    destruct Hin as [Hin | []]. now inversion Hin.
  - simpl in Hin. destruct Hin as [Hin | []]. discriminate Hin.
Qed.

Lemma reinstall_is_truth_of_listing_witness :
  exists l w1,
    uv.tool_list (toy.host true 0) (Some (StrList ["copier"]))
      (uv.default_system (toy.host true 0) None None) None toy.no_kwargs
      toy.installed_copier = (Ok l, w1) /\
    true = listing_truthy l.
Proof.
  apply (reinstall_is_truth_of_listing (toy.host true 0) toy.packaging "copier" (Some "<2")
           false None false None false None None None toy.no_kwargs false
           toy.installed_copier "copier" None false None true false None (Some true) None).
  vm_compute. repeat (first [left; reflexivity | right]).
Defined.

(** ** What [_check_changes] computes *)
Section check_changes.

Context {W : Type} (H : Host W) (P : Packaging).

Local Abbreviation frame := (uv_tool.frame (W := W)).

Lemma check_changes_shape (name : string) (version_spec : option string) (upgrade : bool)
    (extras : option extras_arg) (python : option string) (system : option bool)
    (user : option string) (kw : list (string * kwval)) (curr : tool_info)
    (f f' : frame) (d : changes_t * bool) :
  uv_tool._check_changes H P name version_spec upgrade extras python system user kw curr f
  = (Ok d, f') ->
  diff_ok (python_change H python curr (uv_tool.world f)) d.
Proof.
  unfold uv_tool._check_changes. intros E. cbv zeta in E.
  bind_cases E. inversion E0; subst a f0. clear E0.
  set (pc := python_change H python curr (uv_tool.world f)).
  match type of E with
  | context [match extras with Some _ => _ | None => ret (?c, false) end] =>
      assert (I0 : diff_ok pc (c, false))
  end.
  { unfold diff_ok, pc, python_change. simpl. destruct python as [py |]; simpl.
    - destruct (String.eqb (t_python curr) (Path_resolve H py (uv_tool.world f)));
        simpl; repeat split; discriminate.
    - repeat split; discriminate. }
  match type of E with
  | context [match extras with Some _ => _ | None => ret (?c, false) end] =>
      set (c0 := c) in *
  end.
  clearbody c0.
  (* the extras *)
  bind_cases E.
  assert (I1 : diff_ok pc a).
  { destruct extras as [ex |].
    - bind_cases E0. destruct a0; inversion E0; subst; [exact I0 |].
      destruct I0 as (? & ? & ? & ?). repeat split; simpl; auto;
        try (intros _; left; discriminate).
    - inversion E0; subst. exact I0. }
  clear E0 I0. destruct a as [c1 r1]. simpl in E.
  (* the version specifier *)
  bind_cases E.
  assert (I2 : diff_ok pc a).
  { destruct (negb (bool_decide (t_install_spec curr = version_spec))).
    - bind_cases E0. bind_cases E0. bind_cases E0.
      destruct I1 as (? & ? & ? & ?).
      destruct (negb (ver_eqb P a1 a2)); inversion E0; subst;
        repeat split; simpl; auto; try (intros _; right; left; discriminate).
    - inversion E0; subst. exact I1. }
  clear E0 I1. destruct a as [c2 r2]. simpl in E.
  (* the version against the specifier *)
  bind_cases E.
  assert (I3 : diff_ok pc a).
  { destruct version_spec as [spec |]; [| inversion E0; subst; exact I2].
    destruct (ch_version_spec c2); [inversion E0; subst; exact I2 |].
    bind_cases E0. bind_cases E0.
    destruct (negb (spec_contains P a1 a0)); [| inversion E0; subst; exact I2].
    bind_cases E0. inversion E0; subst.
    destruct I2 as (? & ? & ? & ?). repeat split; simpl; auto;
      try (intros _; right; right; discriminate). }
  clear E0 I2. destruct a as [c3 r3]. simpl in E.
  (* the upgrade *)
  bind_cases E. inversion E; subst. clear E.
  assert (Fin : forall c,
             ch_python c = ch_python c3 -> ch_installed c = ch_installed c3 ->
             ch_removed c = ch_removed c3 -> ch_extras c = ch_extras c3 ->
             ch_version_spec c = ch_version_spec c3 ->
             (ch_version c3 <> None -> ch_version c <> None) ->
             diff_ok pc (c, r3)).
  { intros c Ep Ei Er Ee Es Ev. destruct I3 as (Hp & Hi & Hr & Hf). simpl in *.
    repeat split; simpl; try congruence.
    intros Ht. destruct (Hf Ht) as [Hx | [Hx | Hx]].
    - left. congruence.
    - right. left. congruence.
    - right. right. auto. }
  assert (Hret : forall (c : changes_t) (g g' : frame), ret c g = (Ok a, g') -> a = c).
  { intros c g g' Eg. now inversion Eg. }
  destruct (ch_version c3) eqn:Hv.
  - apply Hret in E0. subst a. apply Fin; auto; intros; congruence.
  - destruct upgrade; [| apply Hret in E0; subst a; apply Fin; auto; intros; congruence].
    bind_cases E0.
    destruct a0 as [res | res cv lv];
      [apply Hret in E0; subst a; apply Fin; auto; intros; congruence |].
    destruct res; apply Hret in E0; subst a; apply Fin; simpl; auto; intros; congruence.
Qed.

End check_changes.

(** ** Observed state that matches the declared one *)
Section matching.

Context {W : Type} (H : Host W) (P : Packaging).

Local Abbreviation frame := (uv_tool.frame (W := W)).

Lemma salt_run {A : Type} (c : uv_tool.call) (m : M W A) (f : frame) (r : result A) (w' : W) :
  m (uv_tool.world f) = (r, w') ->
  uv_tool.salt c m f
  = (r, {| uv_tool.world := w'; uv_tool.calls := uv_tool.calls f ++ [c];
           uv_tool.ret_dict := uv_tool.ret_dict f |}).
Proof. intros E. unfold uv_tool.salt. now rewrite E. Qed.

Lemma version_of_Some {S : Type} (text : string) (v : ver P) (s : S) :
  Version P text = Some v -> uv.version_of P text s = (Ok v, s).
Proof. intros E. unfold uv.version_of. now rewrite E. Qed.

Lemma specifier_of_Some {S : Type} (text : string) (ss : specset P) (s : S) :
  SpecifierSet P text = Some ss -> uv.specifier_of P text s = (Ok ss, s).
Proof. intros E. unfold uv.specifier_of. now rewrite E. Qed.

(** The constraint test of the code on a version that satisfies it. *)
Lemma violated_false (spec : option string) (version : string) (f : frame) :
  satisfies P spec version ->
  (match spec with
   | None => ret false
   | Some s =>
       let* v := uv.version_of P version in
       let* ss := uv.specifier_of P s in
       ret (negb (spec_contains P ss v))
   end) f = (Ok false, f).
Proof.
  destruct spec as [s |]; [| reflexivity].
  intros (v & ss & Ev & Es & Ec).
  rewrite (bind_Ok _ _ _ _ _ (version_of_Some _ _ _ Ev)).
  rewrite (bind_Ok _ _ _ _ _ (specifier_of_Some _ _ _ Es)).
  now rewrite Ec.
Qed.

Lemma extras_loop_match (upgrade : bool) (curr : tool_info) (l : list extra) :
  forall (f : frame) (w' : W),
    extras_match H P upgrade curr l (uv_tool.world f) w' ->
    exists f',
      foldM (uv_tool.check_extra H P upgrade curr) l [] f = (Ok [], f') /\
      uv_tool.world f' = w' /\ uv_tool.ret_dict f' = uv_tool.ret_dict f.
Proof.
  induction l as [| e l IH]; intros f w' Hm; simpl in Hm.
  - subst w'. exists f. repeat split.
  - destruct Hm as (pkg & spec & iv & Ee & El & Hs & Hu). simpl.
    assert (Estep : exists f1,
               uv_tool.check_extra H P upgrade curr [] e f = (Ok [], f1) /\
               uv_tool.ret_dict f1 = uv_tool.ret_dict f /\
               extras_match H P upgrade curr l (uv_tool.world f1) w').
    { unfold uv_tool.check_extra. unfold of_result. unfold bind at 1. rewrite Ee.
      cbv beta iota zeta. cbn [fst snd]. rewrite El.
      rewrite (bind_Ok _ _ _ _ _ (violated_false _ _ f Hs)).
      destruct upgrade.
      - destruct Hu as (latest & w1 & v & v' & Eg & Ev & Ev' & Hlt & Hrest).
        unfold uv_tool.salt_get_latest_version.
        rewrite (bind_Ok _ _ _ _ _ (salt_run _ _ _ _ _ Eg)).
        rewrite (bind_Ok _ _ _ _ _ (version_of_Some _ _ _ Ev)).
        rewrite (bind_Ok _ _ _ _ _ (version_of_Some _ _ _ Ev')).
        rewrite Hlt. eexists. repeat split. exact Hrest.
      - exists f. repeat split. exact Hu. }
    destruct Estep as (f1 & E1 & R1 & Hrest).
    rewrite (bind_Ok _ _ _ _ _ E1).
    destruct (IH f1 w' Hrest) as (f' & E' & Hw & Hr).
    exists f'. repeat split; auto. congruence.
Qed.

(** The changes when nothing but the interpreter or the latest version can
    differ: the extras match, the constraint is the recorded one and holds
    of the installed version.  [needs] is the answer of [tool_is_outdated]
    when [upgrade] is set. *)
Lemma check_changes_matching (name : string) (version_spec : option string) (upgrade : bool)
    (extras : option extras_arg) (python : option string) (system : option bool)
    (user : option string) (kw : list (string * kwval)) (curr : tool_info)
    (f : frame) (w2 w3 : W) (needs : bool) (cv lv : string) :
  match extras with
  | Some ex => extras_match H P upgrade curr (extras_items ex) (uv_tool.world f) w2
  | None => w2 = uv_tool.world f
  end ->
  t_install_spec curr = version_spec ->
  satisfies P version_spec (t_version curr) ->
  (if upgrade then
     uv.tool_is_outdated H P name (uv_tool.spec_or_False version_spec) true system user kw w2
     = (Ok (OutdatedVersions needs cv lv), w3)
   else w3 = w2 /\ needs = false) ->
  exists f',
    uv_tool._check_changes H P name version_spec upgrade extras python system user kw curr f
    = (Ok ({| ch_python := python_change H python curr (uv_tool.world f);
              ch_extras := None;
              ch_version_spec := None;
              ch_version := if needs then Some {| old := Some cv; new := Some lv |}
                            else None;
              ch_installed := None;
              ch_removed := None |}, false), f') /\
    uv_tool.world f' = w3 /\
    uv_tool.ret_dict f' = uv_tool.ret_dict f.
Proof.
  intros Hex Hspec Hsat Hout.
  unfold uv_tool._check_changes. cbv zeta.
  unfold bind at 1. unfold uv_tool.read_world at 1.
  set (c0 := match python with
             | Some py => _
             | None => no_changes
             end).
  assert (Ec0 : c0 = {| ch_python := python_change H python curr (uv_tool.world f);
                        ch_extras := None; ch_version_spec := None; ch_version := None;
                        ch_installed := None; ch_removed := None |}).
  { unfold c0, python_change. destruct python as [py |]; [| reflexivity].
    destruct (String.eqb (t_python curr) (Path_resolve H py (uv_tool.world f)));
      reflexivity. }
  clearbody c0. subst c0.
  (* the extras *)
  assert (E1 : exists f1,
             (match extras with
              | Some ex =>
                  let* extra_misses :=
                    foldM (uv_tool.check_extra H P upgrade curr) (extras_items ex) [] in
                  match extra_misses with
                  | _ :: _ => ret (uv_tool.set_extras extra_misses
                                     {| ch_python := python_change H python curr
                                                       (uv_tool.world f);
                                        ch_extras := None; ch_version_spec := None;
                                        ch_version := None; ch_installed := None;
                                        ch_removed := None |}, true)
                  | [] => ret ({| ch_python := python_change H python curr
                                                 (uv_tool.world f);
                                  ch_extras := None; ch_version_spec := None;
                                  ch_version := None; ch_installed := None;
                                  ch_removed := None |}, false)
                  end
              | None => ret ({| ch_python := python_change H python curr (uv_tool.world f);
                                ch_extras := None; ch_version_spec := None;
                                ch_version := None; ch_installed := None;
                                ch_removed := None |}, false)
              end) f
             = (Ok ({| ch_python := python_change H python curr (uv_tool.world f);
                       ch_extras := None; ch_version_spec := None; ch_version := None;
                       ch_installed := None; ch_removed := None |}, false), f1) /\
             uv_tool.world f1 = w2 /\ uv_tool.ret_dict f1 = uv_tool.ret_dict f).
  { destruct extras as [ex |].
    - destruct (extras_loop_match _ _ _ _ _ Hex) as (f1 & El & Hw & Hr).
      exists f1. rewrite (bind_Ok _ _ _ _ _ El). auto.
    - exists f. auto. }
  destruct E1 as (f1 & E1 & Hw1 & Hr1).
  rewrite (bind_Ok _ _ _ _ _ E1). cbn [fst snd].
  (* the constraint is the recorded one *)
  rewrite bool_decide_eq_true_2 by exact Hspec. simpl negb. cbv iota.
  unfold bind at 1. unfold ret at 1. cbn [fst snd].
  (* the version satisfies it *)
  assert (E3 : forall g : frame,
             (match version_spec with
              | Some spec =>
                  let* v := uv.version_of P (t_version curr) in
                  let* s := uv.specifier_of P spec in
                  if negb (spec_contains P s v)
                  then
                    let* new_version :=
                      uv_tool.salt_get_latest_version H P name version_spec in
                    ret (uv_tool.set_version
                           {| old := Some (t_version curr); new := Some new_version |}
                           {| ch_python := python_change H python curr (uv_tool.world f);
                              ch_extras := None; ch_version_spec := None;
                              ch_version := None; ch_installed := None;
                              ch_removed := None |}, true)
                  else ret ({| ch_python := python_change H python curr (uv_tool.world f);
                               ch_extras := None; ch_version_spec := None;
                               ch_version := None; ch_installed := None;
                               ch_removed := None |}, false)
              | None => ret ({| ch_python := python_change H python curr (uv_tool.world f);
                                ch_extras := None; ch_version_spec := None;
                                ch_version := None; ch_installed := None;
                                ch_removed := None |}, false)
              end) g
             = (Ok ({| ch_python := python_change H python curr (uv_tool.world f);
                       ch_extras := None; ch_version_spec := None; ch_version := None;
                       ch_installed := None; ch_removed := None |}, false), g)).
  { intros g. destruct version_spec as [spec |]; [| reflexivity].
    destruct Hsat as (v & ss & Ev & Es & Ec).
    rewrite (bind_Ok _ _ _ _ _ (version_of_Some _ _ _ Ev)).
    rewrite (bind_Ok _ _ _ _ _ (specifier_of_Some _ _ _ Es)).
    now rewrite Ec. }
  simpl ch_version_spec. cbv iota.
  rewrite (bind_Ok _ _ _ _ _ (E3 f1)). cbn [fst snd]. simpl ch_version. cbv iota.
  (* the upgrade *)
  destruct upgrade.
  - rewrite <- Hw1 in Hout.
    unfold bind. rewrite (salt_run _ _ _ _ _ Hout).
    destruct needs; eexists; (split; [reflexivity |]); simpl; auto.
  - destruct Hout as [-> ->]. exists f1. auto.
Qed.

End matching.

Section present.

Context {W : Type} (H : Host W) (P : Packaging).

Local Abbreviation frame := (uv_tool.frame (W := W)).

(** When the tool is listed, [observe_diff] is [_check_changes] on its dict,
    in the world the listing left. *)
Lemma observe_diff_present (name : string) (version_spec : option string) (upgrade : bool)
    (extras : option extras_arg) (python : option string) (system : option bool)
    (user : option string) (kw : list (string * kwval)) (f : frame) (w1 : W)
    (curr : tool_info) :
  uv.tool_list H (Some (StrList [name])) system user kw (uv_tool.world f)
  = (Ok (Tool curr), w1) ->
  uv_tool.observe_diff H P name version_spec upgrade extras python system user kw f
  = match uv_tool._check_changes H P name version_spec upgrade extras python system user kw
            curr
            {| uv_tool.world := w1;
               uv_tool.calls := uv_tool.calls f ++ [uv_tool.Call_tool_list [name] system user];
               uv_tool.ret_dict := uv_tool.ret_dict f |} with
    | (Ok d, f') => (Ok (Tool curr, d), f')
    | (Raise e, f') => (Raise e, f')
    end.
Proof.
  intros El. unfold uv_tool.observe_diff, uv_tool.salt_tool_list.
  rewrite (bind_Ok _ _ _ _ _ (salt_run _ _ _ _ _ El)). simpl.
  unfold bind, ret.
  destruct (uv_tool._check_changes _ _ _ _ _ _ _ _ _ _ _ _) as [[d | e] f']; reflexivity.
Qed.

Lemma interpreter_matches_no_change (python : option string) (curr : tool_info) (w : W) :
  interpreter_matches H python curr w -> python_change H python curr w = None.
Proof.
  unfold interpreter_matches, python_change. destruct python as [py |]; [| reflexivity].
  intros ->. now rewrite String.eqb_refl.
Qed.

End present.

(** ** The releases of a package *)
Section releases.

Context {W : Type} (H : Host W) (P : Packaging).

(** [sorted(l, reverse=True)] holds the items of [l]. *)
Lemma insert_desc_In (x y : string) (l : list string) :
  In y (insert_desc x l) <-> y = x \/ In y l.
Proof.
  induction l as [| z l IH]; simpl.
  - split; intros [-> | []]; auto.
  - destruct (String.ltb x z); simpl; rewrite ?IH; intuition congruence.
Qed.

Lemma sorted_reverse_In (y : string) (l : list string) :
  In y (sorted_reverse l) <-> In y l.
Proof.
  induction l as [| x l IH]; simpl; [reflexivity |].
  rewrite insert_desc_In, IH. intuition congruence.
Qed.

Lemma sorted_reverse_nil (l : list string) : sorted_reverse l = [] -> l = [].
Proof.
  intros E. destruct l as [| x l]; [reflexivity |].
  assert (Hx : In x (sorted_reverse (x :: l))) by (apply sorted_reverse_In; now left).
  rewrite E in Hx. destruct Hx.
Qed.

(** The generator of [get_latest_version] yields the stable releases in the
    constraint. *)
Lemma select_releases_Ok (ss : specset P) (l m : list string) :
  uv.select_releases P ss l = Ok m ->
  forall r, In r m <-> In r l /\ stable_in P ss r.
Proof.
  revert m. induction l as [| x l IH]; intros m E r; simpl in E.
  - inversion E; subst. simpl. tauto.
  - destruct (Version P x) as [v |] eqn:Ev; [| discriminate E].
    destruct (uv.select_releases P ss l) as [rest | e]; [| discriminate E].
    specialize (IH rest eq_refl r).
    destruct (spec_contains P ss v && negb (is_prerelease P v) && negb (is_devrelease P v)
              && negb (is_postrelease P v)) eqn:Ec; inversion E; subst; simpl; rewrite ?IH.
    + repeat (apply andb_true_iff in Ec as [Ec ?]).
      split.
      * intros [<- | [Hin Hs]]; [| auto]. split; [now left |].
        exists v. repeat split; auto; now apply negb_true_iff.
      * intros [[<- | Hin] Hs]; auto.
    + split; [intros [Hin Hs]; auto |].
      intros [[<- | Hin] Hs]; [| auto].
      destruct Hs as (v' & Ev' & H1 & H2 & H3 & H4). rewrite Ev in Ev'.
      inversion Ev'; subst v'. rewrite H1, H2, H3, H4 in Ec. discriminate Ec.
Qed.

Lemma select_releases_parsed (ss : specset P) (l : list string) :
  Forall (fun r => Version P r <> None) l -> exists m, uv.select_releases P ss l = Ok m.
Proof.
  induction 1 as [| x l Hx Hl (m & IH)]; simpl; [eauto |].
  destruct (Version P x) as [v |]; [| contradiction]. rewrite IH.
  destruct (_ && _); eauto.
Qed.

(** The lookup under a constraint, when the index answers and every key is
    a version: a stable release in the constraint, or [StopIteration] when
    there is none. *)
Lemma get_latest_version_constrained (pkg spec : string) (ss : specset P) (document : pypi)
    (w w' : W) :
  http_query H ("https://pypi.org/pypi/" +:+ pkg +:+ "/json") w = (Ok (Some document), w') ->
  SpecifierSet P spec = Some ss ->
  Forall (fun r => Version P r <> None) (releases document) ->
  (exists latest,
     uv.get_latest_version H P pkg (Some spec) w = (Ok latest, w') /\
     In latest (releases document) /\ stable_in P ss latest) \/
  (uv.get_latest_version H P pkg (Some spec) w = (Raise StopIteration, w') /\
   forall r, In r (releases document) -> ~ stable_in P ss r).
Proof.
  intros Eq Es Hp. unfold uv.get_latest_version. cbv zeta.
  rewrite (bind_Ok _ _ _ _ _ Eq). unfold uv.specifier_of, uv.response_dict. rewrite Es.
  destruct (select_releases_parsed ss _ Hp) as (m & Em).
  pose proof (select_releases_Ok ss _ _ Em) as Hm.
  unfold bind, ret, of_result. rewrite Em.
  destruct (sorted_reverse m) as [| x rest] eqn:Er; simpl.
  - right. split; [reflexivity |]. apply sorted_reverse_nil in Er. subst m.
    intros r Hr Hs. now apply (Hm r).
  - left. exists x. split; [reflexivity |]. apply Hm, sorted_reverse_In.
    rewrite Er. now left.
Qed.

(** With nothing newer in the index, the lookup returns a version that is
    not newer. *)
Lemma nothing_newer_lookup (pkg : string) (spec : option string)
    (installed_version : string) (w w' : W) :
  nothing_newer H P pkg spec installed_version w w' ->
  exists latest v v',
    uv.get_latest_version H P pkg spec w = (Ok latest, w') /\
    Version P installed_version = Some v /\
    Version P latest = Some v' /\
    ver_ltb P v v' = false.
Proof.
  intros (document & v & Eq & Ev & Hs). destruct spec as [s |].
  - destruct Hs as (ss & Es & Hp & (r & Hr & Hst) & Hn).
    destruct (get_latest_version_constrained pkg s ss document w w' Eq Es Hp)
      as [(latest & El & Hin & Hl) | (_ & Hnone)]; [| now destruct (Hnone r Hr)].
    destruct Hl as (v' & Ev' & Hl). exists latest, v, v'.
    split; [exact El |]. split; [exact Ev |]. split; [exact Ev' |].
    apply (Hn latest v' Hin); [| exact Ev']. exists v'. auto.
  - destruct Hs as (v' & Ev' & Hlt). exists (info_version document), v, v'.
    split; [| auto]. unfold uv.get_latest_version. cbv zeta.
    now rewrite (bind_Ok _ _ _ _ _ Eq).
Qed.

Lemma extras_agree_match (upgrade : bool) (curr : tool_info) (l : list extra) :
  forall w w', extras_agree H P upgrade curr l w w' -> extras_match H P upgrade curr l w w'.
Proof.
  induction l as [| e l IH]; intros w w' Ha; simpl in *; [exact Ha |].
  destruct Ha as (pkg & spec & iv & Ee & El & Hs & Hu).
  exists pkg, spec, iv. split; [exact Ee |]. split; [exact El |]. split; [exact Hs |].
  destruct upgrade; [| now apply IH].
  destruct Hu as (w1 & Hn & Hrest).
  destruct (nothing_newer_lookup _ _ _ _ _ Hn) as (latest & v & v' & Eg & Ev & Ev' & Hlt).
  exists latest, w1, v, v'. repeat split; auto.
Qed.

(** [tool_is_outdated] for a listed tool with nothing newer in the index. *)
Lemma outdated_nothing_newer (name : string) (version_spec : option string)
    (system : option bool) (user : option string) (kw : list (string * kwval))
    (curr : tool_info) (w w1 w2 : W) :
  uv.tool_list H (Some (StrList [name])) system user kw w = (Ok (Tool curr), w1) ->
  nothing_newer H P name (or_None version_spec) (t_version curr) w1 w2 ->
  exists latest,
    uv.tool_is_outdated H P name (uv_tool.spec_or_False version_spec) true system user kw w
    = (Ok (OutdatedVersions false (t_version curr) latest), w2).
Proof.
  intros El Hn.
  destruct (nothing_newer_lookup _ _ _ _ _ Hn) as (latest & v & v' & Eg & Ev & Ev' & Hlt).
  exists latest. unfold uv.tool_is_outdated. rewrite (bind_Ok _ _ _ _ _ El).
  cbn [listing_truthy negb]. cbv iota.
  assert (Es : (match uv_tool.spec_or_False version_spec with
                | Spec_False => ret None
                | Spec_None =>
                    let* t := uv.the_tool "install_spec" (Tool curr) in
                    ret (or_None (t_install_spec t))
                | Spec_str s => ret (Some s)
                end) w1 = (Ok (or_None version_spec), w1)).
  { destruct version_spec as [[| c s] |]; reflexivity. }
  rewrite (bind_Ok _ _ _ _ _ Es). rewrite (bind_Ok _ _ _ _ _ Eg).
  unfold uv.the_tool. unfold bind at 1. unfold ret at 1.
  unfold uv.version_of. rewrite Ev, Ev'. unfold bind, ret. now rewrite Hlt.
Qed.

End releases.

(** C5, counterexample: copier is pinned to the post-release [1.0.post1]
    and installed at that version, and the index lists [1.0] and
    [1.0.post1].  The constraint is the recorded one, the installed version
    lies in it and nothing in it is newer, but the lookup that [upgrade]
    asks for leaves post-releases out, finds no release, and [installed]
    raises [StopIteration]. *)
Lemma pinned_post_release_is_no_noop :
  exists curr index,
    uv.tool_list toy.post_host (Some (StrList ["copier"])) (Some true) None toy.no_kwargs
      toy.pinned_copier
    = (Ok (Tool curr), toy.pinned_copier) /\
    http_query toy.post_host "https://pypi.org/pypi/copier/json" toy.pinned_copier
    = (Ok (Some index), toy.pinned_copier) /\
    fst (uv_tool.installed toy.post_host toy.packaging_post "copier" (Some "==1.0.post1") true
           None false None false None None None toy.no_kwargs false toy.pinned_copier)
    = Raise StopIteration /\
    ~ matching_is_noop toy.packaging_post "copier" (Some "==1.0.post1") curr index
        (uv_tool.installed toy.post_host toy.packaging_post "copier" (Some "==1.0.post1") true
           None false None false None None None toy.no_kwargs false toy.pinned_copier).
Proof.
  eexists _, _. split; [vm_compute; reflexivity |]. split; [reflexivity |].
  split; [vm_compute; reflexivity |].
  intros Hm. destruct Hm as [E _].
  - reflexivity.
  - eexists _, _. split; [vm_compute; reflexivity |]. split; vm_compute; reflexivity.
  - intros r v v' Hr Hs Ev Ev'. simpl in Hr.
    destruct Hr as [<- | [<- | []]].
    + destruct Hs as (v0 & ss & E0 & Es & Hc). vm_compute in E0, Es.
      inversion E0; inversion Es; subst. vm_compute in Hc. discriminate Hc.
    + vm_compute in Ev, Ev'. inversion Ev; inversion Ev'; subst. reflexivity.
  - vm_compute in E. discriminate E.
Qed.

(** C5, amended: when the observed state equals the declared one in every
    compared dimension (interpreter, extras, constraint text, version against
    the constraint) and, with [upgrade] set, the index has nothing newer for
    the tool and for every extra (it answers, and under a constraint every
    key of its releases is a version and a stable release lies in the
    constraint), the changes are empty and [installed] returns the record it
    started with: result [True], no changes, no call to the action executor.
    This holds of every run in such a state, so a second run after a first
    one makes no action. *)
Theorem matching_state_is_noop {W : Type} (H : Host W) (P : Packaging)
    (name : string) (version_spec : option string) (upgrade : bool)
    (extras : option extras_arg) (refresh : bool) (refresh_package : option str_or_list)
    (force : bool) (python : option string) (system : option bool) (user : option string)
    (kw : kwargs) (test : bool) (w w1 w2 w3 w4 : W) (curr : tool_info) :
  let system' := uv.default_system H system user in
  uv.tool_list H (Some (StrList [name])) system' user kw w = (Ok (Tool curr), w1) ->
  interpreter_matches H python curr w1 ->
  match extras with
  | Some ex => extras_agree H P upgrade curr (extras_items ex) w1 w2
  | None => w2 = w1
  end ->
  t_install_spec curr = version_spec ->
  satisfies P version_spec (t_version curr) ->
  (if upgrade then
     uv.tool_list H (Some (StrList [name])) system' user kw w2 = (Ok (Tool curr), w3) /\
     nothing_newer H P name (or_None version_spec) (t_version curr) w3 w4
   else w4 = w2) ->
  exists f,
    uv_tool.observe_diff H P name version_spec upgrade extras python system' user kw
      (uv_tool.frame0 name uv_tool.installed_comment w)
    = (Ok (Tool curr, (no_changes, false)), f) /\
    uv_tool.installed H P name version_spec upgrade extras refresh refresh_package force
                      python system user kw test w
    = (Ok (uv_tool.ret0 name uv_tool.installed_comment), f) /\
    uv_tool.world f = w4 /\
    Forall (fun c => uv_tool.is_action c = false) (uv_tool.calls f).
Proof.
  intros system' El Hpy Hex Hspec Hsat Hout.
  set (f0 := uv_tool.frame0 name uv_tool.installed_comment w).
  set (f1 := {| uv_tool.world := w1;
                uv_tool.calls := uv_tool.calls f0 ++ [uv_tool.Call_tool_list [name] system' user];
                uv_tool.ret_dict := uv_tool.ret_dict f0 |}).
  assert (Hlv : exists lv,
             if upgrade then
               uv.tool_is_outdated H P name (uv_tool.spec_or_False version_spec) true system'
                                   user kw w2
               = (Ok (OutdatedVersions false (t_version curr) lv), w4)
             else w4 = w2 /\ false = false).
  { destruct upgrade; [| exists ""; auto]. destruct Hout as [El2 Hn].
    exact (outdated_nothing_newer H P _ _ _ _ _ _ _ _ _ El2 Hn). }
  destruct Hlv as (lv & Hlv).
  destruct (check_changes_matching H P name version_spec upgrade extras python system' user
              kw curr f1 w2 w4 false (t_version curr) lv) as (f & Ec & Hw & Hr); auto.
  { destruct extras as [ex |]; [| exact Hex]. now apply extras_agree_match. }
  change (uv_tool.world f1) with w1 in Ec.
  rewrite (interpreter_matches_no_change H _ _ _ Hpy) in Ec.
  assert (Eo : uv_tool.observe_diff H P name version_spec upgrade extras python system' user
                 kw f0 = (Ok (Tool curr, (no_changes, false)), f)).
  { rewrite (observe_diff_present H P _ _ _ _ _ _ _ _ f0 w1 curr El).
    fold f1. now rewrite Ec. }
  exists f. split; [exact Eo |]. split; [| split; [exact Hw |]].
  - unfold uv_tool.installed.
    assert (Et : uv_tool.installed_try H P name version_spec upgrade extras refresh
                   refresh_package force python system user kw test f0 = (Ok tt, f)).
    { unfold uv_tool.installed_try. cbv zeta. fold system'.
      now rewrite (bind_Ok _ _ _ _ _ Eo). }
    rewrite (run_state_Ok _ _ _ _ _ _ Et). now rewrite Hr.
  - destruct (observe_diff_quiet _ _ _ _ _ _ _ _ _ _ _ _ _ Eo) as (l & E & F).
    simpl in E. now rewrite E.
Qed.

Lemma matching_state_is_noop_witness :
  (exists f,
     uv_tool.installed toy.post_host toy.packaging_post "copier" (Some "<1.1") true None false
       None false None None None toy.no_kwargs false toy.released_copier
     = (Ok (uv_tool.ret0 "copier" uv_tool.installed_comment), f) /\
     Forall (fun c => uv_tool.is_action c = false) (uv_tool.calls f)) /\
  (exists f,
     uv_tool.installed (toy.host true 0) toy.packaging "copier" None true
       (Some (ExtrasList [ExtraName "jinja2"])) false None false
       (Some "/opt/uv/tools/copier/bin/python") None None toy.no_kwargs false
       "copier v1.2.0 (/opt/uv/tools/copier)"
     = (Ok (uv_tool.ret0 "copier" uv_tool.installed_comment), f) /\
     Forall (fun c => uv_tool.is_action c = false) (uv_tool.calls f)).
Proof.
  split.
  - edestruct (matching_state_is_noop toy.post_host toy.packaging_post "copier"
                 (Some "<1.1") true None false None false None None None toy.no_kwargs false
                 toy.released_copier toy.released_copier toy.released_copier
                 toy.released_copier toy.released_copier)
      as (f & _ & Ei & _ & Ha).
    + vm_compute. reflexivity.
    + exact I.
    + reflexivity.
    + reflexivity.
    + eexists _, _. split; [vm_compute; reflexivity |]. split; vm_compute; reflexivity.
    + split; [vm_compute; reflexivity |].
      eexists _, _. split; [reflexivity |]. split; [vm_compute; reflexivity |].
      eexists. split; [vm_compute; reflexivity |].
      split; [repeat constructor; vm_compute; discriminate |].
      split.
      * exists "1.0". split; [now left |]. eexists. split; [vm_compute; reflexivity |].
        repeat split.
      * intros r v' [<- | [<- | []]] (v0 & E0 & Hc & _ & _ & Hp) Ev'.
        -- vm_compute in Ev'. inversion Ev'; subst. reflexivity.
        -- vm_compute in E0. inversion E0; subst. vm_compute in Hp. discriminate Hp.
    + exists f. split; [exact Ei | exact Ha].
  - edestruct (matching_state_is_noop (toy.host true 0) toy.packaging "copier" None true
                 (Some (ExtrasList [ExtraName "jinja2"])) false None false
                 (Some "/opt/uv/tools/copier/bin/python") None None toy.no_kwargs false
                 "copier v1.2.0 (/opt/uv/tools/copier)" "copier v1.2.0 (/opt/uv/tools/copier)"
                 "copier v1.2.0 (/opt/uv/tools/copier)" "copier v1.2.0 (/opt/uv/tools/copier)"
                 "copier v1.2.0 (/opt/uv/tools/copier)")
      as (f & _ & Ei & _ & Ha).
    + vm_compute. reflexivity.
    + reflexivity.
    + simpl. eexists "jinja2", None, "3.1.0". split; [reflexivity |].
      split; [vm_compute; reflexivity |]. split; [exact I |].
      eexists. split; [| reflexivity].
      eexists _, _. split; [reflexivity |]. split; [vm_compute; reflexivity |].
      eexists. split; vm_compute; reflexivity.
    + reflexivity.
    + exact I.
    + split; [vm_compute; reflexivity |].
      eexists _, _. split; [reflexivity |]. split; [vm_compute; reflexivity |].
      eexists. split; vm_compute; reflexivity.
    + exists f. split; [exact Ei | exact Ha].
Defined.

(** C6: with [upgrade] set and no other mismatch, the changes hold at most
    the key [version] and the install flag is not set; when they are not
    empty, the one action [installed] calls is [tool_upgrade], all its other
    calls being observations. *)
Theorem upgrade_alone_is_in_place {W : Type} (H : Host W) (P : Packaging)
    (name : string) (version_spec : option string)
    (extras : option extras_arg) (refresh : bool) (refresh_package : option str_or_list)
    (force : bool) (python : option string) (system : option bool) (user : option string)
    (kw : kwargs) (w w1 w2 w3 : W) (curr : tool_info) (needs : bool) (cv lv : string) :
  let system' := uv.default_system H system user in
  uv.tool_list H (Some (StrList [name])) system' user kw w = (Ok (Tool curr), w1) ->
  interpreter_matches H python curr w1 ->
  match extras with
  | Some ex => extras_match H P true curr (extras_items ex) w1 w2
  | None => w2 = w1
  end ->
  t_install_spec curr = version_spec ->
  satisfies P version_spec (t_version curr) ->
  uv.tool_is_outdated H P name (uv_tool.spec_or_False version_spec) true system' user kw w2
  = (Ok (OutdatedVersions needs cv lv), w3) ->
  exists f1,
    uv_tool.observe_diff H P name version_spec true extras python system' user kw
      (uv_tool.frame0 name uv_tool.installed_comment w)
    = (Ok (Tool curr,
           ({| ch_python := None; ch_extras := None; ch_version_spec := None;
               ch_version := if needs then Some {| old := Some cv; new := Some lv |}
                             else None;
               ch_installed := None; ch_removed := None |}, false)), f1) /\
    Forall (fun c => uv_tool.is_action c = false) (uv_tool.calls f1) /\
    (needs = true ->
     exists rest,
       uv_tool.calls (snd (uv_tool.installed H P name version_spec true extras refresh
                             refresh_package force python system user kw false w))
       = uv_tool.calls f1 ++ [uv_tool.Call_tool_upgrade name python true system' user]
         ++ rest /\
       Forall (fun c => uv_tool.is_action c = false) rest).
Proof.
  intros system' El Hpy Hex Hspec Hsat Hout.
  set (f0 := uv_tool.frame0 name uv_tool.installed_comment w).
  set (f1 := {| uv_tool.world := w1;
                uv_tool.calls := uv_tool.calls f0 ++ [uv_tool.Call_tool_list [name] system' user];
                uv_tool.ret_dict := uv_tool.ret_dict f0 |}).
  destruct (check_changes_matching H P name version_spec true extras python system' user
              kw curr f1 w2 w3 needs cv lv) as (f & Ec & Hw & Hr); auto.
  change (uv_tool.world f1) with w1 in Ec.
  rewrite (interpreter_matches_no_change H _ _ _ Hpy) in Ec.
  assert (Eo : uv_tool.observe_diff H P name version_spec true extras python system' user
                 kw f0
               = (Ok (Tool curr,
                      ({| ch_python := None; ch_extras := None; ch_version_spec := None;
                          ch_version := if needs
                                        then Some {| old := Some cv; new := Some lv |}
                                        else None;
                          ch_installed := None; ch_removed := None |}, false)), f)).
  { rewrite (observe_diff_present H P _ _ _ _ _ _ _ _ f0 w1 curr El).
    fold f1. now rewrite Ec. }
  exists f. split; [exact Eo |]. split.
  - destruct (observe_diff_quiet _ _ _ _ _ _ _ _ _ _ _ _ _ Eo) as (l & E & F).
    simpl in E. now rewrite E.
  - intros ->.
    destruct (installed_calls H P name version_spec true extras refresh refresh_package
                force python system user kw w _ _ _ _ Eo eq_refl) as (rest & E & F).
    exists rest. split; [exact E | exact F].
Qed.

Lemma upgrade_alone_is_in_place_witness :
  exists (f1 : uv_tool.frame (W := string)) rest,
    uv_tool.calls (snd (uv_tool.installed (toy.host true 0) toy.packaging "copier" None true
                          None false None false None None None toy.no_kwargs false
                          toy.installed_copier))
    = uv_tool.calls f1 ++ [uv_tool.Call_tool_upgrade "copier" None true (Some true) None]
      ++ rest /\
    Forall (fun c => uv_tool.is_action c = false) (uv_tool.calls f1) /\
    Forall (fun c => uv_tool.is_action c = false) rest.
Proof.
  edestruct (upgrade_alone_is_in_place (toy.host true 0) toy.packaging "copier" None None
               false None false None None None toy.no_kwargs toy.installed_copier)
    as (f1 & _ & Hq & Hc).
  - vm_compute. reflexivity.
  - exact I.
  - reflexivity.
  - reflexivity.
  - exact I.
  - vm_compute. reflexivity.
  - destruct (Hc eq_refl) as (rest & E & F). exists f1, rest. auto.
Defined.

(** C2, counterexample: copier is installed in its own environment and the
    state declares another interpreter, nothing else differing.  The change
    is recorded, the flag stays unset and the action is [tool_upgrade]. *)
Lemma interpreter_change_alone_upgrades :
  exists curr d (f1 : uv_tool.frame (W := string)),
    uv_tool.observe_diff (toy.host true 0) toy.packaging "copier" None false None
      (Some "/usr/bin/python3") (Some true) None toy.no_kwargs
      (uv_tool.frame0 "copier" uv_tool.installed_comment toy.installed_copier)
    = (Ok (curr, d), f1) /\
    uv_tool.calls (snd (uv_tool.installed (toy.host true 0) toy.packaging "copier" None false
                          None false None false (Some "/usr/bin/python3") None None
                          toy.no_kwargs false toy.installed_copier))
    = [uv_tool.Call_tool_list ["copier"] (Some true) None;
       uv_tool.Call_tool_upgrade "copier" (Some "/usr/bin/python3") false (Some true) None;
       uv_tool.Call_tool_list ["copier"] (Some true) None] /\
    ~ interpreter_change_forces_install d
        (uv_tool.calls (snd (uv_tool.installed (toy.host true 0) toy.packaging "copier" None
                               false None false None false (Some "/usr/bin/python3") None
                               None toy.no_kwargs false toy.installed_copier))).
Proof.
  eexists _, _, _. split; [vm_compute; reflexivity |].
  split; [vm_compute; reflexivity |].
  intros Hc. destruct Hc as [Hf _]; [simpl; discriminate | discriminate Hf].
Qed.

(** C2, amended: when the tool is installed and the declared interpreter,
    resolved, is not the observed one, the changes record
    [python: {old: observed, new: declared}].  This rule does not set the
    install flag: the flag is set only next to an entry for extras, for the
    constraint or for the version; and when [python] is the only entry, the
    action [installed] calls is [tool_upgrade] with the declared
    interpreter. *)
Theorem interpreter_mismatch_is_recorded {W : Type} (H : Host W) (P : Packaging)
    (name : string) (version_spec : option string) (upgrade : bool)
    (extras : option extras_arg) (refresh : bool) (refresh_package : option str_or_list)
    (force : bool) (py : string) (system : option bool) (user : option string)
    (kw : kwargs) (w w1 : W) (curr : tool_info) (changes : changes_t)
    (requires_install : bool) (f1 : uv_tool.frame) :
  let system' := uv.default_system H system user in
  uv.tool_list H (Some (StrList [name])) system' user kw w = (Ok (Tool curr), w1) ->
  t_python curr <> Path_resolve H py w1 ->
  uv_tool.observe_diff H P name version_spec upgrade extras (Some py) system' user kw
    (uv_tool.frame0 name uv_tool.installed_comment w)
  = (Ok (Tool curr, (changes, requires_install)), f1) ->
  ch_python changes = Some {| old := Some (t_python curr); new := Some py |} /\
  (requires_install = true ->
   ch_extras changes <> None \/ ch_version_spec changes <> None \/
   ch_version changes <> None) /\
  (ch_extras changes = None -> ch_version_spec changes = None ->
   ch_version changes = None ->
   exists rest,
     uv_tool.calls (snd (uv_tool.installed H P name version_spec upgrade extras refresh
                           refresh_package force (Some py) system user kw false w))
     = uv_tool.calls f1 ++ [uv_tool.Call_tool_upgrade name (Some py) upgrade system' user]
       ++ rest /\
     Forall (fun c => uv_tool.is_action c = false) (uv_tool.calls f1) /\
     Forall (fun c => uv_tool.is_action c = false) rest).
Proof.
  intros system' El Hne Eo.
  pose proof Eo as Eo'.
  rewrite (observe_diff_present H P _ _ _ _ _ _ _ _
             (uv_tool.frame0 name uv_tool.installed_comment w) w1 curr El) in Eo'.
  match type of Eo' with
  | context [uv_tool._check_changes ?a ?b ?c ?d ?e ?g ?h ?i ?j ?k ?l ?fr] =>
      destruct (uv_tool._check_changes a b c d e g h i j k l fr) as [[d0 | e0] f'] eqn:Ec;
      [| discriminate Eo']
  end.
  inversion Eo'; subst d0 f'. clear Eo'.
  apply check_changes_shape in Ec. destruct Ec as (Hp & _ & _ & Hf). simpl in Hp, Hf.
  assert (Hpy : ch_python changes = Some {| old := Some (t_python curr); new := Some py |}).
  { rewrite Hp. destruct (String.eqb_spec (t_python curr) (Path_resolve H py w1));
      [contradiction | reflexivity]. }
  split; [exact Hpy |]. split; [exact Hf |].
  intros He Hs Hv.
  assert (Hreq : requires_install = false).
  { destruct requires_install; [| reflexivity].
    destruct (Hf eq_refl) as [Hx | [Hx | Hx]]; contradiction. }
  subst requires_install.
  assert (Ht : changes_truthy changes = true).
  { clear - Hpy. destruct changes. simpl in Hpy. subst. reflexivity. }
  destruct (installed_calls H P name version_spec upgrade extras refresh refresh_package
              force (Some py) system user kw w _ _ _ _ Eo Ht) as (rest & E & F).
  exists rest. split; [exact E |]. split; [| exact F].
  destruct (observe_diff_quiet _ _ _ _ _ _ _ _ _ _ _ _ _ Eo) as (l & E' & F').
  simpl in E'. now rewrite E'.
Qed.

Lemma interpreter_mismatch_is_recorded_witness :
  exists (curr : tool_info) (changes : changes_t),
    ch_python changes = Some {| old := Some (t_python curr);
                                new := Some "/usr/bin/python3" |} /\
    t_python curr = "/opt/uv/tools/copier/bin/python".
Proof.
  edestruct (interpreter_mismatch_is_recorded (toy.host true 0) toy.packaging "copier" None
               false None false None false "/usr/bin/python3" None None toy.no_kwargs
               toy.installed_copier)
    as (Hp & _ & _).
  - vm_compute. reflexivity.
  - vm_compute. discriminate.
  - vm_compute. reflexivity.
  - eexists _, _. split; [exact Hp | reflexivity].
Defined.

(** C1, counterexample: the install command ends with status 0 and the tool
    is still not listed.  The block raises [CommandExecutionError], the class
    [_uv] raises for a command that fails, and [installed] returns a failed
    result as it does for such a command. *)
Lemma consistency_failure_is_caught :
  (exists f,
     uv_tool.installed_try (toy.host false 0) toy.packaging "copier" None false None false
       None false None None None toy.no_kwargs false
       (uv_tool.frame0 "copier" uv_tool.installed_comment "")
     = (Raise (CommandExecutionError
                 "There were no errors during installation, but 'copier' is still not installed"),
        f)) /\
  (exists f,
     uv_tool.installed_try (toy.host true 1) toy.packaging "copier" None false None false
       None false None None None toy.no_kwargs false
       (uv_tool.frame0 "copier" uv_tool.installed_comment "")
     = (Raise (CommandExecutionError
                 "Failed running 'uv tool install copier': error: failed"), f)) /\
  ~ consistency_failure_is_distinct
      (uv_tool.installed (toy.host false 0) toy.packaging "copier" None false None false
         None false None None None toy.no_kwargs false "").
Proof.
  split; [eexists; vm_compute; reflexivity |].
  split; [eexists; vm_compute; reflexivity |].
  intros (e & He & _). vm_compute in He. discriminate He.
Qed.

Section command.

Context {W : Type} (H : Host W).

(** [_uv] on keywords it accepts, by what [cmd.run_all] answers. *)
Lemma uv_runs (cmd params options : list string) (user : option string)
    (env : option (list (string * string))) (json : bool) (kw : list (string * kwval))
    (w : W) :
  forallb (startswith "__") (map fst (kw_without uv._uv_params kw)) = true ->
  uv._uv H cmd params options user env json kw w
  = match cmd_run_all H (command_line H cmd params options kw) env user w with
    | (Raise e, w') => (Raise e, w')
    | (Ok res, w') =>
        if (retcode res =? 0)%Z then
          if json then
            match json_loads H (stdout res) with
            | Ok items => (Ok (OutJson items), w')
            | Raise e => (Raise e, w')
            end
          else (Ok (OutText (stdout res)), w')
        else (Raise (CommandExecutionError
                       (failure_text (command_line H cmd params options kw) res)), w')
    end.
Proof.
  intros Hk. unfold uv._uv, command_line, failure_text. cbv zeta. rewrite Hk. cbn [negb].
  unfold bind at 1.
  destruct (cmd_run_all H _ env user w) as [[res | e] w']; [| reflexivity].
  destruct (retcode res =? 0)%Z; cbn [negb]; [| reflexivity].
  destruct json; cbn [negb]; [| reflexivity].
  unfold bind, of_result, ret. destruct (json_loads H (stdout res)); reflexivity.
Qed.

End command.

(** C1, amended: after an action that the executor reports as successful,
    [installed] lists the tool again and computes the changes again for the
    same arguments; when the tool is not listed, or the new changes are not
    empty, its block raises [CommandExecutionError].  That is the class
    [_uv] raises for a command that ends with another status than 0, and the
    handler of [installed] turns both into a failed result in the same way
    (result [False], the message as comment, no changes).  The action is
    the only one of the run. *)
Theorem consistency_failure_is_a_failed_result {W : Type} (H : Host W) (P : Packaging)
    (name : string) (version_spec : option string) (upgrade : bool)
    (extras : option extras_arg) (refresh : bool) (refresh_package : option str_or_list)
    (force : bool) (python : option string) (system : option bool) (user : option string)
    (kw : kwargs) (w : W) (curr : tool_listing) (changes : changes_t)
    (requires_install : bool) (f1 : uv_tool.frame) :
  let system' := uv.default_system H system user in
  let block := uv_tool.installed_try H P name version_spec upgrade extras refresh
                 refresh_package force python system user kw false
                 (uv_tool.frame0 name uv_tool.installed_comment w) in
  let run := uv_tool.installed H P name version_spec upgrade extras refresh refresh_package
               force python system user kw false w in
  let failed msg :=
    uv_tool.failed_ret (uv_tool.ret0 name uv_tool.installed_comment)
                       (CommandExecutionError msg) in
  let not_installed :=
    "There were no errors during installation, but '" +:+ name +:+ "' is still not installed" in
  let pending new_changes :=
    "Installation succeeded, but there are still pending changes: " +:+
    json_dumps H new_changes in
  uv_tool.observe_diff H P name version_spec upgrade extras python system' user kw
    (uv_tool.frame0 name uv_tool.installed_comment w)
  = (Ok (curr, (changes, requires_install)), f1) ->
  changes_truthy changes = true ->
  (forall b f2 new f3,
     uv_tool.dispatch H name upgrade extras refresh refresh_package force python system' user
                      kw curr requires_install f1 = (Ok b, f2) ->
     uv_tool.salt_tool_list H name system' user kw f2 = (Ok new, f3) ->
     (listing_truthy new = false ->
      block = (Raise (CommandExecutionError not_installed), f3) /\
      fst run = Ok (failed not_installed) /\
      uv_tool.world (snd run) = uv_tool.world f3) /\
     (forall t new_changes new_flag f4,
        new = Tool t ->
        uv_tool._check_changes H P name version_spec upgrade extras python system' user kw t
                               f3
        = (Ok (new_changes, new_flag), f4) ->
        changes_truthy new_changes = true ->
        block = (Raise (CommandExecutionError (pending new_changes)), f4) /\
        fst run = Ok (failed (pending new_changes)) /\
        uv_tool.world (snd run) = uv_tool.world f4) /\
     (exists c rest,
        uv_tool.calls (snd run) = uv_tool.calls f1 ++ [c] ++ rest /\
        uv_tool.is_action c = true /\
        Forall (fun c => uv_tool.is_action c = false) (uv_tool.calls f1) /\
        Forall (fun c => uv_tool.is_action c = false) rest)) /\
  (forall msg f2,
     uv_tool.dispatch H name upgrade extras refresh refresh_package force python system' user
                      kw curr requires_install f1 = (Raise (CommandExecutionError msg), f2) ->
     block = (Raise (CommandExecutionError msg), f2) /\
     fst run = Ok (failed msg) /\
     uv_tool.world (snd run) = uv_tool.world f2) /\
  (forall cmd params options runas env json (kw0 : list (string * kwval)) res w0 w1,
     forallb (startswith "__") (map fst (kw_without uv._uv_params kw0)) = true ->
     cmd_run_all H (command_line H cmd params options kw0) env runas w0 = (Ok res, w1) ->
     retcode res <> 0%Z ->
     uv._uv H cmd params options runas env json kw0 w0
     = (Raise (CommandExecutionError
                 (failure_text (command_line H cmd params options kw0) res)), w1)).
Proof.
  intros system' block run failed not_installed pending Eo Hc.
  set (f0 := uv_tool.frame0 name uv_tool.installed_comment w) in *.
  assert (R1 : uv_tool.ret_dict f1 = uv_tool.ret0 name uv_tool.installed_comment).
  { pose proof (observe_diff_same_ret _ _ _ _ _ _ _ _ _ _ _ _ _ Eo) as S1.
    unfold same_ret in S1. now rewrite S1. }
  split; [| split].
  - intros b f2 new f3 Ed El.
    assert (Et : block
                 = uv_tool.verify H P name version_spec upgrade extras python system' user kw
                                  curr changes f2).
    { unfold block, uv_tool.installed_try. cbv zeta. fold system' f0.
      rewrite (bind_Ok _ _ _ _ _ Eo). cbn [fst snd]. rewrite Hc. cbn [negb].
      now rewrite (bind_Ok _ _ _ _ _ Ed). }
    assert (R3 : uv_tool.ret_dict f3 = uv_tool.ret0 name uv_tool.installed_comment).
    { pose proof (dispatch_same_ret H _ _ _ _ _ _ _ _ _ _ _ _ _ _ _ Ed) as S2.
      pose proof (tool_list_same_ret _ _ _ _ _ _ _ _ El) as S3.
      unfold same_ret in *. rewrite S3, S2. exact R1. }
    split; [| split].
    + intros Hn.
      assert (Ev : block = (Raise (CommandExecutionError not_installed), f3)).
      { rewrite Et. unfold uv_tool.verify. cbv zeta.
        rewrite (bind_Ok _ _ _ _ _ El). now rewrite Hn. }
      split; [exact Ev |].
      unfold run, uv_tool.installed. rewrite (run_state_caught _ _ _ _ _ _ Ev eq_refl).
      simpl. now rewrite R3.
    + intros t nc nf f4 -> Ec Hnc.
      assert (Ev : block = (Raise (CommandExecutionError (pending nc)), f4)).
      { rewrite Et. unfold uv_tool.verify. cbv zeta.
        rewrite (bind_Ok _ _ _ _ _ El). cbn [listing_truthy negb].
        unfold uv.the_tool. unfold bind at 1. unfold ret at 1.
        rewrite (bind_Ok _ _ _ _ _ Ec). cbn [fst snd]. now rewrite Hnc. }
      split; [exact Ev |].
      unfold run, uv_tool.installed. rewrite (run_state_caught _ _ _ _ _ _ Ev eq_refl).
      simpl. pose proof (check_changes_same_ret _ _ _ _ _ _ _ _ _ _ _ _ _ _ Ec) as S4.
      unfold same_ret in S4. now rewrite S4, R3.
    + subst system'.
      destruct (installed_calls H P name version_spec upgrade extras refresh refresh_package
                  force python system user kw w _ _ _ _ Eo Hc) as (rest & E & F).
      assert (Hd : exists c, dispatched name upgrade extras refresh refresh_package force
                               python (uv.default_system H system user) user curr
                               requires_install = [c] /\
                             uv_tool.is_action c = true).
      { unfold dispatched. unfold uv_tool.dispatch in Ed. destruct requires_install.
        - destruct (uv_tool.cmd_extras extras) as [ce | e].
          + eexists. split; reflexivity.
          + unfold bind, of_result in Ed. discriminate Ed.
        - eexists. split; reflexivity. }
      destruct Hd as (c & Hd & Ha). exists c, rest.
      split; [unfold run; rewrite E; now rewrite Hd |]. split; [exact Ha |].
      split; [| exact F].
      destruct (observe_diff_quiet _ _ _ _ _ _ _ _ _ _ _ _ _ Eo) as (l & E' & F').
      simpl in E'. now rewrite E'.
  - intros msg f2 Ed.
    assert (Ev : block = (Raise (CommandExecutionError msg), f2)).
    { unfold block, uv_tool.installed_try. cbv zeta. fold system' f0.
      rewrite (bind_Ok _ _ _ _ _ Eo). cbn [fst snd]. rewrite Hc. cbn [negb].
      now rewrite (bind_Raise _ _ _ _ _ Ed). }
    split; [exact Ev |].
    unfold run, uv_tool.installed. rewrite (run_state_caught _ _ _ _ _ _ Ev eq_refl).
    simpl. pose proof (dispatch_same_ret H _ _ _ _ _ _ _ _ _ _ _ _ _ _ _ Ed) as S2.
    unfold same_ret in S2. now rewrite S2, R1.
  - intros cmd params options runas env json kw0 res w0 w1 Hk Er Hn.
    rewrite (uv_runs H _ _ _ _ _ _ _ _ Hk), Er.
    apply Z.eqb_neq in Hn. now rewrite Hn.
Qed.

Lemma consistency_failure_is_a_failed_result_witness :
  fst (uv_tool.installed_try (toy.host false 0) toy.packaging "copier" None false None false
         None false None None None toy.no_kwargs false
         (uv_tool.frame0 "copier" uv_tool.installed_comment ""))
  = Raise (CommandExecutionError
             "There were no errors during installation, but 'copier' is still not installed") /\
  fst (uv_tool.installed (toy.host false 0) toy.packaging "copier" None false None false None
         false None None None toy.no_kwargs false "")
  = Ok (uv_tool.failed_ret (uv_tool.ret0 "copier" uv_tool.installed_comment)
          (CommandExecutionError
             "There were no errors during installation, but 'copier' is still not installed")) /\
  uv._uv (toy.host true 1) ["tool"; "install"] ["copier"] [] None None false [] ""
  = (Raise (CommandExecutionError "Failed running 'uv tool install copier': error: failed"),
     "").
Proof.
  edestruct (consistency_failure_is_a_failed_result (toy.host false 0) toy.packaging "copier"
               None false None false None false None None None toy.no_kwargs "")
    as (Hv & _ & _).
  - vm_compute. reflexivity.
  - reflexivity.
  - edestruct Hv as (Hn & _ & _).
    + vm_compute. reflexivity.
    + vm_compute. reflexivity.
    + destruct (Hn eq_refl) as (Eb & Er & _).
      split; [now rewrite Eb |]. split; [exact Er |].
      edestruct (consistency_failure_is_a_failed_result (toy.host true 1) toy.packaging
                   "copier" None false None false None false None None None toy.no_kwargs "")
        as (_ & _ & Hu).
      * vm_compute. reflexivity.
      * reflexivity.
      * rewrite (Hu ["tool"; "install"] ["copier"] [] None None false []
                   {| retcode := 1; stdout := ""; stderr := "error: failed" |} "" "");
          [reflexivity | reflexivity | vm_compute; reflexivity | discriminate].
Defined.

(** ** Exceptions by class *)
Section invocation.

Context {W : Type} (H : Host W) (P : Packaging).

Local Abbreviation frame := (uv_tool.frame (W := W)).

(** [_uv_tool] raises it before any command is run. *)
Lemma uv_tool_invalid (cmd : string) (params options : list string)
    (system : option bool) (user : option string) (kw : list (string * kwval)) (w : W) :
  forallb (startswith "__") (leftover kw) = false ->
  uv._uv_tool H cmd params options system user kw w = (Raise (invalid_keywords kw), w).
Proof.
  intros Hl. unfold uv._uv_tool, uv._uv. cbv zeta. fold (leftover kw). now rewrite Hl.
Qed.

Lemma tool_list_invalid (name : option str_or_list) (system : option bool)
    (user : option string) (kw : list (string * kwval)) (w : W) :
  forallb (startswith "__") (leftover kw) = false ->
  uv.tool_list H name system user kw w = (Raise (invalid_keywords kw), w).
Proof.
  intros Hl. unfold uv.tool_list.
  now rewrite (bind_Raise _ _ _ _ _ (uv_tool_invalid _ _ _ _ _ _ _ Hl)).
Qed.

(** What reaches the handler is turned into a failed result; anything else
    leaves the state function. *)
Lemma installed_raises (name : string) (version_spec : option string) (upgrade : bool)
    (extras : option extras_arg) (refresh : bool) (refresh_package : option str_or_list)
    (force : bool) (python : option string) (system : option bool) (user : option string)
    (kw : kwargs) (test : bool) (w : W) (e : exn) (f : frame) :
  uv_tool.installed_try H P name version_spec upgrade extras refresh refresh_package force
    python system user kw test (uv_tool.frame0 name uv_tool.installed_comment w)
  = (Raise e, f) ->
  fst (uv_tool.installed H P name version_spec upgrade extras refresh refresh_package force
         python system user kw test w)
  = if uv_tool.caught e
    then Ok (uv_tool.failed_ret (uv_tool.ret0 name uv_tool.installed_comment) e)
    else Raise e.
Proof.
  intros E. unfold uv_tool.installed.
  pose proof (installed_try_ret H P _ _ _ _ _ _ _ _ _ _ _ _ _ _ _ E) as S. simpl in S.
  destruct (uv_tool.caught e) eqn:He.
  - rewrite (run_state_caught _ _ _ _ _ _ E He). simpl. unfold same_ret in S.
    now rewrite S.
  - now rewrite (run_state_uncaught _ _ _ _ _ _ E He).
Qed.

End invocation.

(** C8, counterexample: a keyword that no signature knows makes [_uv] raise
    [SaltInvocationError]; [installed] catches it and returns a failed
    result. *)
Lemma invalid_keyword_is_caught :
  fst (uv_tool.installed_try (toy.host true 0) toy.packaging "copier" None false None false
         None false None None None toy.bogus_kwargs false
         (uv_tool.frame0 "copier" uv_tool.installed_comment toy.installed_copier))
  = Raise (SaltInvocationError "The following keyword arguments are invalid: bogus") /\
  fst (uv_tool.installed (toy.host true 0) toy.packaging "copier" None false None false
         None false None None None toy.bogus_kwargs false toy.installed_copier)
  = Ok {| st_name := "copier"; st_result := Some false;
          st_comment := "The following keyword arguments are invalid: bogus";
          st_changes := no_changes |} /\
  ~ invocation_error_propagates
      (uv_tool.installed_try (toy.host true 0) toy.packaging "copier" None false None false
         None false None None None toy.bogus_kwargs false
         (uv_tool.frame0 "copier" uv_tool.installed_comment toy.installed_copier))
      (uv_tool.installed (toy.host true 0) toy.packaging "copier" None false None false
         None false None None None toy.bogus_kwargs false toy.installed_copier).
Proof.
  split; [vm_compute; reflexivity |]. split; [vm_compute; reflexivity |].
  intros Hc.
  specialize (Hc "The following keyword arguments are invalid: bogus").
  assert (Hr : fst (uv_tool.installed (toy.host true 0) toy.packaging "copier" None false
                      None false None false None None None toy.bogus_kwargs false
                      toy.installed_copier)
               = Raise (SaltInvocationError
                          "The following keyword arguments are invalid: bogus")).
  { apply Hc. vm_compute. reflexivity. }
  vm_compute in Hr. discriminate Hr.
Qed.

(** C8, amended: of the errors raised during [installed] or [absent], a
    [SaltInvocationError] (a keyword that is not one of the parameters) is
    caught at the operation boundary and turned into a failed result whose
    comment is the error text, before any command is run; an exception of
    any class other than [CommandExecutionError] and [SaltInvocationError]
    goes on to the caller.  A version lookup with no release in the
    constraint raises [StopIteration], which is such an exception: when it is
    raised while the changes are computed, [installed] raises it. *)
Theorem invocation_errors_by_class {W : Type} (H : Host W) (P : Packaging)
    (name : string) (version_spec : option string) (upgrade : bool)
    (extras : option extras_arg) (refresh : bool) (refresh_package : option str_or_list)
    (force : bool) (python : option string) (system : option bool) (user : option string)
    (kw : kwargs) (test : bool) (w : W) :
  let system' := uv.default_system H system user in
  let run_installed :=
    uv_tool.installed H P name version_spec upgrade extras refresh refresh_package force
                      python system user kw test w in
  let run_absent := uv_tool.absent H name system user kw test w in
  (forallb (startswith "__") (leftover kw) = false ->
   fst run_installed
   = Ok (uv_tool.failed_ret (uv_tool.ret0 name uv_tool.installed_comment)
                            (invalid_keywords kw)) /\
   uv_tool.world (snd run_installed) = w /\
   fst run_absent
   = Ok (uv_tool.failed_ret (uv_tool.ret0 name uv_tool.absent_comment)
                            (invalid_keywords kw)) /\
   uv_tool.world (snd run_absent) = w) /\
  (forall e f,
     uv_tool.caught e = false ->
     (uv_tool.installed_try H P name version_spec upgrade extras refresh refresh_package
        force python system user kw test (uv_tool.frame0 name uv_tool.installed_comment w)
      = (Raise e, f) -> run_installed = (Raise e, f)) /\
     (uv_tool.absent_try H name system user kw test
        (uv_tool.frame0 name uv_tool.absent_comment w)
      = (Raise e, f) -> run_absent = (Raise e, f))) /\
  (forall pkg spec ss response w0 w1,
     http_query H ("https://pypi.org/pypi/" +:+ pkg +:+ "/json") w0
     = (Ok (Some response), w1) ->
     SpecifierSet P spec = Some ss ->
     uv.select_releases P ss (releases response) = Ok [] ->
     uv.get_latest_version H P pkg (Some spec) w0 = (Raise StopIteration, w1)) /\
  (forall curr w1 e w2,
     uv.tool_list H (Some (StrList [name])) system' user kw w = (Ok (Tool curr), w1) ->
     extras = None ->
     t_install_spec curr <> version_spec ->
     uv.get_latest_version H P name version_spec w1 = (Raise e, w2) ->
     uv_tool.caught e = false ->
     fst run_installed = Raise e).
Proof.
  cbv zeta. split; [| split; [| split]].
  - intros Hl.
    assert (Ei : uv_tool.installed_try H P name version_spec upgrade extras refresh
                   refresh_package force python system user kw test
                   (uv_tool.frame0 name uv_tool.installed_comment w)
                 = (Raise (invalid_keywords kw),
                    {| uv_tool.world := w;
                       uv_tool.calls := [uv_tool.Call_tool_list [name]
                                           (uv.default_system H system user) user];
                       uv_tool.ret_dict := uv_tool.ret0 name uv_tool.installed_comment |})).
    { unfold uv_tool.installed_try, uv_tool.observe_diff, uv_tool.salt_tool_list. cbv zeta.
      unfold bind at 1 2. unfold uv_tool.salt. simpl uv_tool.world.
      now rewrite (tool_list_invalid H _ _ _ _ _ Hl). }
    assert (Ea : uv_tool.absent_try H name system user kw test
                   (uv_tool.frame0 name uv_tool.absent_comment w)
                 = (Raise (invalid_keywords kw),
                    {| uv_tool.world := w;
                       uv_tool.calls := [uv_tool.Call_tool_is_installed name
                                           (uv.default_system H system user) user];
                       uv_tool.ret_dict := uv_tool.ret0 name uv_tool.absent_comment |})).
    { unfold uv_tool.absent_try, uv.tool_is_installed. cbv zeta.
      unfold bind at 1. unfold uv_tool.salt. simpl uv_tool.world.
      now rewrite (bind_Raise _ _ _ _ _ (tool_list_invalid H _ _ _ _ _ Hl)). }
    unfold uv_tool.installed, uv_tool.absent.
    rewrite (run_state_caught _ _ _ _ _ _ Ei eq_refl).
    rewrite (run_state_caught _ _ _ _ _ _ Ea eq_refl). simpl. auto.
  - intros e f He. split; intros E.
    + unfold uv_tool.installed. now apply run_state_uncaught.
    + unfold uv_tool.absent. now apply run_state_uncaught.
  - intros pkg spec ss response w0 w1 Eq Es Er.
    unfold uv.get_latest_version. cbv zeta. rewrite (bind_Ok _ _ _ _ _ Eq).
    unfold uv.specifier_of, uv.response_dict. rewrite Es.
    unfold bind, ret, of_result. now rewrite Er.
  - intros curr w1 e w2 El -> Hne Eg He.
    set (f0 := uv_tool.frame0 name uv_tool.installed_comment w).
    assert (Et : exists f,
               uv_tool.installed_try H P name version_spec upgrade None refresh
                 refresh_package force python system user kw test f0 = (Raise e, f)).
    { unfold uv_tool.installed_try. cbv zeta.
      assert (Eo : exists f,
                 uv_tool.observe_diff H P name version_spec upgrade None python
                   (uv.default_system H system user) user kw f0 = (Raise e, f)).
      { rewrite (observe_diff_present H P _ _ _ _ _ _ _ _ f0 w1 curr El).
        match goal with
        | |- context [uv_tool._check_changes _ _ _ _ _ _ _ _ _ _ _ ?fr0] => set (fr := fr0)
        end.
        assert (Es : uv_tool.salt_get_latest_version H P name version_spec fr
                     = (Raise e, {| uv_tool.world := w2;
                                    uv_tool.calls :=
                                      uv_tool.calls fr ++
                                      [uv_tool.Call_get_latest_version name version_spec];
                                    uv_tool.ret_dict := uv_tool.ret_dict fr |})).
        { apply salt_run. exact Eg. }
        unfold uv_tool._check_changes. cbv zeta.
        unfold bind at 1. unfold uv_tool.read_world at 1.
        unfold bind at 1. unfold ret at 1. cbn [fst snd].
        rewrite bool_decide_eq_false_2 by exact Hne. cbn [negb].
        rewrite (bind_Raise _ _ _ _ _ (bind_Raise _ _ _ _ _ Es)). eauto. }
      destruct Eo as (f & Eo). exists f. now rewrite (bind_Raise _ _ _ _ _ Eo). }
    destruct Et as (f & Et).
    rewrite (installed_raises H P _ _ _ _ _ _ _ _ _ _ _ _ _ _ _ Et). now rewrite He.
Qed.

Lemma invocation_errors_by_class_witness :
  fst (uv_tool.installed (toy.host true 0) toy.packaging "copier" (Some ">5") false None
         false None false None None None toy.no_kwargs false toy.installed_copier)
  = Raise StopIteration /\
  uv.get_latest_version (toy.host true 0) toy.packaging "copier" (Some ">5")
    toy.installed_copier
  = (Raise StopIteration, toy.installed_copier).
Proof.
  destruct (invocation_errors_by_class (toy.host true 0) toy.packaging "copier" (Some ">5")
              false None false None false None None None toy.no_kwargs false
              toy.installed_copier) as (_ & _ & Hv & Hi).
  split.
  - eapply Hi; first [vm_compute; reflexivity | vm_compute; discriminate | reflexivity].
  - eapply Hv; vm_compute; reflexivity.
Defined.

(** ** Dicts *)
Section dicts.

Context {V : Type}.

Lemma dict_get_set_same (k : string) (v : V) (d : list (string * V)) :
  dict_get k (dict_set k v d) = Some v.
Proof.
  induction d as [| [k' v'] d IH]; simpl.
  - now rewrite String.eqb_refl.
  - destruct (String.eqb k k') eqn:E; simpl; [now rewrite String.eqb_refl |].
    now rewrite E.
Qed.

Lemma dict_get_set_other (k k' : string) (v : V) (d : list (string * V)) :
  String.eqb k' k = false -> dict_get k' (dict_set k v d) = dict_get k' d.
Proof.
  intros Hne. induction d as [| [k0 v0] d IH]; simpl.
  - now rewrite Hne.
  - destruct (String.eqb k k0) eqn:E; simpl.
    + apply String.eqb_eq in E. subst k0. now rewrite Hne.
    + now rewrite IH.
Qed.

Lemma dict_set_keys (k : string) (v : V) (d : list (string * V)) :
  map fst (dict_set k v d)
  = if mem k (map fst d) then map fst d else map fst d ++ [k].
Proof.
  unfold mem. induction d as [| [k0 v0] d IH]; simpl; [reflexivity |].
  destruct (String.eqb k k0) eqn:E; simpl.
  - apply String.eqb_eq in E. now subst k0.
  - rewrite IH. now destruct (existsb (String.eqb k) (map fst d)).
Qed.

Lemma dict_set_NoDup (k : string) (v : V) (d : list (string * V)) :
  NoDup (map fst d) -> NoDup (map fst (dict_set k v d)).
Proof.
  intros Hd. rewrite dict_set_keys. destruct (mem k (map fst d)) eqn:Hk; [exact Hd |].
  apply NoDup_app. split; [exact Hd |]. split; [| apply NoDup_singleton].
  intros x Hx Hx'. apply list_elem_of_singleton in Hx'. subst x.
  unfold mem in Hk. apply not_true_iff_false in Hk. apply Hk.
  apply existsb_exists. exists k. split; [now apply list_elem_of_In | apply String.eqb_refl].
Qed.

Lemma dict_set_Forall (Q : string * V -> Prop) (k : string) (v : V)
    (d : list (string * V)) :
  Q (k, v) -> Forall Q d -> Forall Q (dict_set k v d).
Proof.
  intros Hkv Hd. induction Hd as [| [k' v'] d Hx Hd IH]; simpl.
  - now constructor.
  - destruct (String.eqb k k'); constructor; auto.
Qed.

End dicts.

(** ** Loops *)
Section loops.

Context {S A B : Type}.

Lemma foldM_invariant (I : B -> Prop) (g : B -> A -> M S B) (l : list A) :
  (forall acc x s acc' s', In x l -> I acc -> g acc x s = (Ok acc', s') -> I acc') ->
  forall acc s res s', I acc -> foldM g l acc s = (Ok res, s') -> I res.
Proof.
  induction l as [| x l IH]; intros Hg acc s res s' Hacc E; simpl in E.
  - inversion E; subst. exact Hacc.
  - bind_cases E. eapply IH; [| | exact E].
    + intros acc0 y s0 acc1 s1 Hy. apply Hg. now right.
    + eapply Hg; [now left | exact Hacc | exact E0].
Qed.

Lemma foldM_app (g : B -> A -> M S B) (l1 l2 : list A) (acc : B) (s : S) :
  foldM g (l1 ++ l2) acc s
  = match foldM g l1 acc s with
    | (Ok acc', s') => foldM g l2 acc' s'
    | (Raise e, s') => (Raise e, s')
    end.
Proof.
  revert acc s. induction l1 as [| x l1 IH]; intros acc s; simpl; [reflexivity |].
  unfold bind. destruct (g acc x s) as [[acc' | e] s']; [apply IH | reflexivity].
Qed.

End loops.

(** ** The listing *)
Section listing.

Context {W : Type} (H : Host W).

(** The listing is text: [_uv_tool] does not ask for JSON. *)
Lemma uv_tool_text (cmd : string) (params options : list string) (system : option bool)
    (user : option string) (kw : list (string * kwval)) (w w' : W) (out : uv_out) :
  uv._uv_tool H cmd params options system user kw w = (Ok out, w') ->
  exists text, out = OutText text.
Proof.
  unfold uv._uv_tool, uv._uv. cbv zeta. intros E.
  destruct (negb (forallb _ _)); [discriminate E |].
  bind_cases E. destruct (negb (retcode a =? 0)%Z); [discriminate E |].
  simpl in E. inversion E. eauto.
Qed.

(** [tool_list] once the listing is there and holds tools: the loop over
    its lines and the answer. *)
Lemma tool_list_loop (query : option str_or_list) (system : option bool)
    (user : option string) (kw : list (string * kwval)) (w w0 : W) (out : string) :
  uv._uv_tool H "list" [] ["--show-paths"; "--show-version-specifiers"] system user kw w
  = (Ok (OutText out), w0) ->
  str_contains "No tools installed" out = false ->
  uv.tool_list H query system user kw w
  = match foldM (uv.tool_list_line H (option_map as_list query) system user kw)
                (splitlines out) [] w0 with
    | (Ok tools, w1) =>
        match option_map as_list query, tools with
        | Some [name0], _ :: _ =>
            match dict_get name0 tools with
            | Some t => (Ok (Tool t), w1)
            | None => (Raise (KeyError name0), w1)
            end
        | _, _ => (Ok (Tools tools), w1)
        end
    | (Raise e, w1) => (Raise e, w1)
    end.
Proof.
  intros Eu Hc. unfold uv.tool_list. cbv zeta. rewrite (bind_Ok _ _ _ _ _ Eu), Hc.
  unfold bind.
  destruct (foldM _ (splitlines out) [] w0) as [[tools | e] w1]; [| reflexivity].
  destruct (option_map as_list query) as [[| n [| n' ns]] |]; try reflexivity.
  destruct tools as [| kt tools]; [reflexivity |].
  destruct (dict_get n (kt :: tools)); reflexivity.
Qed.

(** One turn of the loop keeps a mapping whose entries were asked for and
    come from lines of the listing. *)
Lemma tool_list_line_mapping (query : option str_or_list) (system : option bool)
    (user : option string) (kw : list (string * kwval)) (lines : list string)
    (tools tools' : list (string * tool_info)) (line : string) (w w' : W) :
  In line lines ->
  NoDup (map fst tools) /\
  Forall (fun kt => asked query (fst kt) /\ from_line H lines kt) tools ->
  uv.tool_list_line H (option_map as_list query) system user kw tools line w
  = (Ok tools', w') ->
  NoDup (map fst tools') /\
  Forall (fun kt => asked query (fst kt) /\ from_line H lines kt) tools'.
Proof.
  intros Hin [Hn Ht]. unfold uv.tool_list_line.
  destruct (startswith "-" line) eqn:Hd; [intros E; inversion E; subst; auto |].
  destruct (LIST_REGEX_match H line) as [[[[tool version] spec] venv] |] eqn:Em;
    [| intros E; inversion E; subst; auto].
  destruct (match option_map as_list query with
            | Some names => negb (mem tool names)
            | None => false
            end) eqn:Hm; [intros E; inversion E; subst; auto |].
  intros E. bind_cases E. bind_cases E. bind_cases E. inversion E; subst.
  split; [now apply dict_set_NoDup |].
  apply dict_set_Forall; [| exact Ht]. simpl. split.
  - unfold asked. destruct query as [q |]; [| exact I].
    simpl in Hm. now apply negb_false_iff in Hm.
  - exists line, spec. simpl. auto.
Qed.

(** One turn of the loop loses no tool, and holds the tool its line names
    when that was asked for. *)
Lemma tool_list_line_keys (query : option str_or_list) (system : option bool)
    (user : option string) (kw : list (string * kwval))
    (tools tools' : list (string * tool_info)) (line : string) (w w' : W) :
  uv.tool_list_line H (option_map as_list query) system user kw tools line w
  = (Ok tools', w') ->
  (forall k, dict_get k tools <> None -> dict_get k tools' <> None) /\
  (forall k version spec venv,
     startswith "-" line = false ->
     LIST_REGEX_match H line = Some (k, version, spec, venv) ->
     asked query k ->
     dict_get k tools' <> None).
Proof.
  unfold uv.tool_list_line.
  destruct (startswith "-" line) eqn:Hd;
    [intros E; inversion E; subst; split; [auto | discriminate] |].
  destruct (LIST_REGEX_match H line) as [[[[tool version] spec] venv] |] eqn:Em;
    [| intros E; inversion E; subst; split; [auto | discriminate]].
  destruct (match option_map as_list query with
            | Some names => negb (mem tool names)
            | None => false
            end) eqn:Hm.
  - intros E; inversion E; subst. split; [auto |].
    intros k v s e _ Ek Ha. inversion Ek; subst. unfold asked in Ha.
    destruct query as [q |]; [| discriminate Hm]. simpl in Hm. now rewrite Ha in Hm.
  - intros E. bind_cases E. bind_cases E. bind_cases E. inversion E; subst. split.
    + intros k Hk. destruct (String.eqb k tool) eqn:Ek.
      * apply String.eqb_eq in Ek. subst k. now rewrite dict_get_set_same.
      * now rewrite dict_get_set_other.
    + intros k v s e _ Ek _. inversion Ek; subst. now rewrite dict_get_set_same.
Qed.

Lemma tool_list_loop_keys (query : option str_or_list) (system : option bool)
    (user : option string) (kw : list (string * kwval)) (lines : list string) :
  forall (tools tools' : list (string * tool_info)) (w w' : W),
    foldM (uv.tool_list_line H (option_map as_list query) system user kw) lines tools w
    = (Ok tools', w') ->
    (forall k, dict_get k tools <> None -> dict_get k tools' <> None) /\
    (forall k line version spec venv,
       In line lines ->
       startswith "-" line = false ->
       LIST_REGEX_match H line = Some (k, version, spec, venv) ->
       asked query k ->
       dict_get k tools' <> None).
Proof.
  induction lines as [| l lines IH]; intros tools tools' w w' E; simpl in E.
  - inversion E; subst. split; [auto |]. intros k line v s e [].
  - bind_cases E. destruct (tool_list_line_keys _ _ _ _ _ _ _ _ _ E0) as [K1 N1].
    destruct (IH _ _ _ _ E) as [K2 N2]. split; [auto |].
    intros k line v s e [<- | Hin] Hd Em Ha; [| eauto].
    eapply K2, N1; eauto.
Qed.

(** A line that does not name the tool leaves the loop where it was. *)
Lemma tool_list_line_skip (name : string) (system : option bool) (user : option string)
    (kw : list (string * kwval)) (tools : list (string * tool_info)) (line : string)
    (w : W) :
  startswith "-" line = true \/
  (forall version spec venv, LIST_REGEX_match H line <> Some (name, version, spec, venv)) ->
  uv.tool_list_line H (Some [name]) system user kw tools line w = (Ok tools, w).
Proof.
  intros Hc. unfold uv.tool_list_line.
  destruct (startswith "-" line); [reflexivity |].
  destruct Hc as [Hc | Hc]; [discriminate Hc |].
  destruct (LIST_REGEX_match H line) as [[[[tool version] spec] venv] |]; [| reflexivity].
  simpl. destruct (String.eqb_spec tool name) as [-> | Hne]; [| reflexivity].
  now destruct (Hc version spec venv).
Qed.

Lemma tool_list_loop_passes (name : string) (system : option bool) (user : option string)
    (kw : list (string * kwval)) (lines : list string) (tools : list (string * tool_info))
    (w : W) :
  (forall line, In line lines -> passes_over H name line) ->
  foldM (uv.tool_list_line H (Some [name]) system user kw) lines tools w = (Ok tools, w).
Proof.
  induction lines as [| line lines IH]; intros Hc; simpl; [reflexivity |].
  rewrite (bind_Ok _ _ _ _ _ (tool_list_line_skip name system user kw tools line w
                                (Hc line (or_introl eq_refl)))).
  apply IH. intros l Hl. apply Hc. now right.
Qed.

Lemma tool_list_loop_skip (name : string) (system : option bool) (user : option string)
    (kw : list (string * kwval)) (lines : list string) (w : W) :
  (forall line, In line lines ->
     startswith "-" line = true \/
     (forall version spec venv,
        LIST_REGEX_match H line <> Some (name, version, spec, venv))) ->
  foldM (uv.tool_list_line H (Some [name]) system user kw) lines [] w = (Ok [], w).
Proof. apply tool_list_loop_passes. Qed.

(** A line either names the tool or is passed over. *)
Lemma names_or_passes_over (name line : string) :
  (startswith "-" line = false /\
   exists version spec venv, LIST_REGEX_match H line = Some (name, version, spec, venv)) \/
  passes_over H name line.
Proof.
  unfold passes_over. destruct (startswith "-" line); [right; now left |].
  destruct (LIST_REGEX_match H line) as [[[[tool version] spec] venv] |];
    [| right; right; discriminate].
  destruct (String.eqb_spec tool name) as [-> | Hne]; [left; eauto |].
  right. right. intros v s e E. inversion E. contradiction.
Qed.

(** The turn of the loop for a line that names a tool which was asked for,
    when the two commands for its environment return. *)
Lemma tool_list_line_reads (names : list string) (system : option bool)
    (user : option string) (kw : list (string * kwval)) (tools : list (string * tool_info))
    (line tool version venv pyver : string) (spec : option string)
    (items : list (string * string)) (w w1 w2 : W) :
  startswith "-" line = false ->
  LIST_REGEX_match H line = Some (tool, version, spec, venv) ->
  mem tool names = true ->
  uv._uv H ["pip"; "list"] [] ["--format"; "json"] user (uv.pip_list_env H system user kw)
         true (dict_set "directory" (KStr venv) kw) w
  = (Ok (OutJson items), w1) ->
  cmd_run H (shlex_join H [Path_resolve H (uv.venv_python venv) w1; "--version"]) user w1
  = (Ok pyver, w2) ->
  uv.tool_list_line H (Some names) system user kw tools line w
  = (Ok (dict_set tool
           {| t_python := Path_resolve H (uv.venv_python venv) w1;
              t_python_version := rsplit_last pyver;
              t_install_spec := or_None spec;
              t_version := version;
              t_venv_path := venv;
              t_pkgs := fold_left (fun m pkg => <[fst pkg := snd pkg]> m) items ∅ |}
           tools), w2).
Proof.
  intros Hd Em Hm Ep Ec. unfold uv.tool_list_line. rewrite Hd, Em, Hm. cbn [negb].
  rewrite (bind_Ok _ _ _ _ _ Ep). unfold bind at 1. unfold uv.get_world at 1.
  now rewrite (bind_Ok _ _ _ _ _ Ec).
Qed.

(** The loop returns when the commands for the environment of every listed
    tool that is asked for return. *)
Lemma tool_list_loop_returns (query : option str_or_list) (system : option bool)
    (user : option string) (kw : list (string * kwval)) (lines : list string) :
  (forall line tool version spec venv,
     In line lines ->
     startswith "-" line = false ->
     LIST_REGEX_match H line = Some (tool, version, spec, venv) ->
     asked query tool ->
     environment_is_read H system user kw venv) ->
  forall (tools : list (string * tool_info)) (w : W),
  exists tools' w',
    foldM (uv.tool_list_line H (option_map as_list query) system user kw) lines tools w
    = (Ok tools', w').
Proof.
  induction lines as [| line lines IH]; intros Hr tools w; simpl; [eauto |].
  assert (E : exists tools1 w1,
             uv.tool_list_line H (option_map as_list query) system user kw tools line w
             = (Ok tools1, w1)).
  { unfold uv.tool_list_line.
    destruct (startswith "-" line) eqn:Hd; [eauto |].
    destruct (LIST_REGEX_match H line) as [[[[tool version] spec] venv] |] eqn:Em; [| eauto].
    destruct (match option_map as_list query with
              | Some names => negb (mem tool names)
              | None => false
              end) eqn:Hm; [eauto |].
    assert (Ha : asked query tool).
    { unfold asked. destruct query as [q |]; [| exact I].
      simpl in Hm. now apply negb_false_iff in Hm. }
    destruct (Hr line tool version spec venv (or_introl eq_refl) Hd Em Ha w)
      as (items & w1 & pyver & w2 & Ep & Ec).
    rewrite (bind_Ok _ _ _ _ _ Ep). unfold bind at 1. unfold uv.get_world at 1.
    rewrite (bind_Ok _ _ _ _ _ Ec). eauto. }
  destruct E as (tools1 & w1 & E). rewrite (bind_Ok _ _ _ _ _ E).
  apply IH. intros l tool version spec venv Hin. apply Hr. now right.
Qed.

(** The answer to a query of one name: nothing, when every line is passed
    over, or the dict of the tool itself, built from a line of the listing
    that names it. *)
Lemma tool_list_one_shape (query : str_or_list) (name : string) (system : option bool)
    (user : option string) (kw : list (string * kwval)) (w w0 w1 : W) (out : string)
    (l : tool_listing) :
  as_list query = [name] ->
  uv._uv_tool H "list" [] ["--show-paths"; "--show-version-specifiers"] system user kw w
  = (Ok (OutText out), w0) ->
  str_contains "No tools installed" out = false ->
  uv.tool_list H (Some query) system user kw w = (Ok l, w1) ->
  (l = Tools [] /\ forall line, In line (splitlines out) -> passes_over H name line) \/
  exists t line spec,
    l = Tool t /\
    In line (splitlines out) /\
    startswith "-" line = false /\
    LIST_REGEX_match H line = Some (name, t_version t, spec, t_venv_path t) /\
    t_install_spec t = or_None spec.
Proof.
  intros Hq Eu Hc E. rewrite (tool_list_loop _ _ _ _ _ _ _ Eu Hc) in E.
  destruct (foldM _ (splitlines out) [] w0) as [[tools | e] w2] eqn:Ef; [| discriminate E].
  assert (Inv : NoDup (map fst tools) /\
                Forall (fun kt => asked (Some query) (fst kt) /\
                                  from_line H (splitlines out) kt) tools).
  { refine (foldM_invariant
              (fun tools => NoDup (map fst tools) /\
                            Forall (fun kt => asked (Some query) (fst kt) /\
                                              from_line H (splitlines out) kt) tools)
              _ _ _ [] _ _ _ _ Ef); [| split; constructor].
    intros acc x s acc' s' Hx Hacc Ex. eapply tool_list_line_mapping; eauto. }
  destruct (tool_list_loop_keys _ _ _ _ _ _ _ _ _ Ef) as [_ Hk].
  simpl option_map in E. rewrite Hq in E.
  destruct tools as [| [k t] rest].
  - inversion E; subst. left. split; [reflexivity |].
    intros line Hin. destruct (names_or_passes_over name line)
      as [(Hd & version & spec & venv & Em) | Hp]; [| exact Hp].
    destruct (Hk name line version spec venv Hin Hd Em); [| reflexivity].
    unfold asked. rewrite Hq. simpl. now rewrite String.eqb_refl.
  - right. destruct Inv as [_ Inv]. inversion Inv as [| ? ? [Ha Hl] _]; subst.
    unfold asked in Ha. rewrite Hq in Ha. simpl in Ha.
    destruct (String.eqb_spec k name) as [-> | Hne]; [| discriminate Ha].
    simpl in E. rewrite String.eqb_refl in E. inversion E; subst.
    destruct Hl as (line & spec & Hin & Hd & Hm & Hs). simpl in Hm, Hs.
    exists t, line, spec. auto.
Qed.

End listing.

(** C9, counterexample: listing copier alone, when it is installed, gives
    the record of copier itself, whose keys are [python], [version] and the
    like, and no mapping from names. *)
Lemma listing_of_one_is_the_record :
  exists l w1,
    uv.tool_list (toy.host true 0) (Some (StrList ["copier"])) None None toy.no_kwargs
      toy.installed_copier = (Ok l, w1) /\
    (exists t, l = Tool t /\ t_version t = "1.0.0") /\
    ~ lists_by_name "copier" l.
Proof.
  eexists _, _. split; [vm_compute; reflexivity |]. split.
  - eexists. split; reflexivity.
  - intros (tools & t & E & _). discriminate E.
Qed.

(** C9, amended: what [tool_list] answers once [uv tool list] has printed
    the listing [out].  When the listing says that no tools are installed,
    the answer is the empty mapping.  Otherwise, for a query of one name:
    when one line of the listing names the tool and the two commands for its
    environment return, the answer is the record of the tool itself (not a
    mapping from the name to it), with the version, the constraint and the
    environment of that line, and [tool_is_installed] is [True]; when no
    line names the tool, the answer is the empty mapping and
    [tool_is_installed] is [False]; and every answer is one of the two, the
    empty mapping only when no line names the tool.  For every other query
    (no name, or a list that is not one name) every answer is a mapping from
    tool names to records: its keys are distinct, they are the tools asked
    for that a line names, and each record comes from a line that names its
    key.  For every query, [tool_list] returns when the two commands return
    for the environment of every listed tool that is asked for.
    [tool_is_installed] is the truth value of the answer for its name. *)
Theorem listing_answers_the_query {W : Type} (H : Host W) (system : option bool)
    (user : option string) (kw : kwargs) (w w0 : W) (out : string) :
  uv._uv_tool H "list" [] ["--show-paths"; "--show-version-specifiers"] system user kw w
  = (Ok (OutText out), w0) ->
  (str_contains "No tools installed" out = true ->
   forall query, uv.tool_list H query system user kw w = (Ok (Tools []), w0)) /\
  (str_contains "No tools installed" out = false ->
   (forall query name pre line post version spec venv items w1 pyver w2,
      as_list query = [name] ->
      splitlines out = pre ++ line :: post ->
      (forall l, In l (pre ++ post) -> passes_over H name l) ->
      startswith "-" line = false ->
      LIST_REGEX_match H line = Some (name, version, spec, venv) ->
      uv._uv H ["pip"; "list"] [] ["--format"; "json"] user
             (uv.pip_list_env H system user kw) true (dict_set "directory" (KStr venv) kw) w0
      = (Ok (OutJson items), w1) ->
      cmd_run H (shlex_join H [Path_resolve H (uv.venv_python venv) w1; "--version"]) user w1
      = (Ok pyver, w2) ->
      uv.tool_list H (Some query) system user kw w
      = (Ok (Tool {| t_python := Path_resolve H (uv.venv_python venv) w1;
                     t_python_version := rsplit_last pyver;
                     t_install_spec := or_None spec;
                     t_version := version;
                     t_venv_path := venv;
                     t_pkgs := fold_left (fun m pkg => <[fst pkg := snd pkg]> m) items ∅ |}),
         w2) /\
      uv.tool_is_installed H name system user kw w = (Ok true, w2)) /\
   (forall query name,
      as_list query = [name] ->
      (forall line, In line (splitlines out) -> passes_over H name line) ->
      uv.tool_list H (Some query) system user kw w = (Ok (Tools []), w0) /\
      uv.tool_is_installed H name system user kw w = (Ok false, w0)) /\
   (forall query name l w1,
      as_list query = [name] ->
      uv.tool_list H (Some query) system user kw w = (Ok l, w1) ->
      (l = Tools [] /\ forall line, In line (splitlines out) -> passes_over H name line) \/
      exists t line spec,
        l = Tool t /\
        In line (splitlines out) /\
        startswith "-" line = false /\
        LIST_REGEX_match H line = Some (name, t_version t, spec, t_venv_path t) /\
        t_install_spec t = or_None spec) /\
   (forall query l w1,
      match query with
      | Some q => List.length (as_list q) <> 1%nat
      | None => True
      end ->
      uv.tool_list H query system user kw w = (Ok l, w1) ->
      exists tools,
        l = Tools tools /\
        NoDup (map fst tools) /\
        Forall (fun kt => asked query (fst kt) /\ from_line H (splitlines out) kt) tools /\
        forall k line version spec venv,
          asked query k ->
          In line (splitlines out) ->
          startswith "-" line = false ->
          LIST_REGEX_match H line = Some (k, version, spec, venv) ->
          dict_get k tools <> None) /\
   (forall query,
      (forall line tool version spec venv,
         In line (splitlines out) ->
         startswith "-" line = false ->
         LIST_REGEX_match H line = Some (tool, version, spec, venv) ->
         asked query tool ->
         environment_is_read H system user kw venv) ->
      exists l w1, uv.tool_list H query system user kw w = (Ok l, w1))) /\
  (forall name,
     uv.tool_is_installed H name system user kw w
     = match uv.tool_list H (Some (StrList [name])) system user kw w with
       | (Ok l, w') => (Ok (listing_truthy l), w')
       | (Raise e, w') => (Raise e, w')
       end).
Proof.
  intros Eu.
  assert (Ei : forall name,
             uv.tool_is_installed H name system user kw w
             = match uv.tool_list H (Some (StrList [name])) system user kw w with
               | (Ok l, w') => (Ok (listing_truthy l), w')
               | (Raise e, w') => (Raise e, w')
               end).
  { intros name. unfold uv.tool_is_installed, bind.
    destruct (uv.tool_list H (Some (StrList [name])) system user kw w) as [[l | e] w'];
      reflexivity. }
  split; [| split; [| exact Ei]].
  - intros Hc query. unfold uv.tool_list. cbv zeta.
    now rewrite (bind_Ok _ _ _ _ _ Eu), Hc.
  - intros Hc.
    assert (E1 : forall query name pre line post version spec venv items w1 pyver w2,
               as_list query = [name] ->
               splitlines out = pre ++ line :: post ->
               (forall l, In l (pre ++ post) -> passes_over H name l) ->
               startswith "-" line = false ->
               LIST_REGEX_match H line = Some (name, version, spec, venv) ->
               uv._uv H ["pip"; "list"] [] ["--format"; "json"] user
                      (uv.pip_list_env H system user kw) true
                      (dict_set "directory" (KStr venv) kw) w0
               = (Ok (OutJson items), w1) ->
               cmd_run H (shlex_join H [Path_resolve H (uv.venv_python venv) w1; "--version"])
                       user w1
               = (Ok pyver, w2) ->
               uv.tool_list H (Some query) system user kw w
               = (Ok (Tool {| t_python := Path_resolve H (uv.venv_python venv) w1;
                              t_python_version := rsplit_last pyver;
                              t_install_spec := or_None spec;
                              t_version := version;
                              t_venv_path := venv;
                              t_pkgs := fold_left (fun m pkg => <[fst pkg := snd pkg]> m)
                                                  items ∅ |}), w2)).
    { intros query name pre line post version spec venv items w1 pyver w2
             Hq Hl Hp Hd Em Ep Ec.
      rewrite (tool_list_loop H _ _ _ _ _ _ _ Eu Hc). simpl option_map. rewrite Hq, Hl.
      rewrite foldM_app.
      rewrite (tool_list_loop_passes H name system user kw pre [] w0)
        by (intros l Hin; apply Hp, in_or_app; now left).
      simpl foldM.
      assert (Hm : mem name [name] = true) by (simpl; now rewrite String.eqb_refl).
      rewrite (bind_Ok _ _ _ _ _
                 (tool_list_line_reads H [name] system user kw [] line name version venv
                    pyver spec items w0 w1 w2 Hd Em Hm Ep Ec)).
      rewrite (tool_list_loop_passes H name system user kw post _ w2)
        by (intros l Hin; apply Hp, in_or_app; now right).
      simpl. now rewrite String.eqb_refl. }
    assert (E2 : forall query name,
               as_list query = [name] ->
               (forall line, In line (splitlines out) -> passes_over H name line) ->
               uv.tool_list H (Some query) system user kw w = (Ok (Tools []), w0)).
    { intros query name Hq Hp. rewrite (tool_list_loop H _ _ _ _ _ _ _ Eu Hc).
      simpl option_map. rewrite Hq.
      now rewrite (tool_list_loop_passes H name system user kw _ [] w0 Hp). }
    split; [| split; [| split; [| split]]].
    + intros query name pre line post version spec venv items w1 pyver w2
             Hq Hl Hp Hd Em Ep Ec.
      split; [now apply (E1 query name pre line post) |].
      rewrite Ei.
      now rewrite (E1 (StrList [name]) name pre line post version spec venv items w1 pyver
                      w2 eq_refl Hl Hp Hd Em Ep Ec).
    + intros query name Hq Hp. split; [now apply (E2 query name) |].
      rewrite Ei. now rewrite (E2 (StrList [name]) name eq_refl Hp).
    + intros query name l w1 Hq E. eapply tool_list_one_shape; eauto.
    + intros query l w1 Hq E. rewrite (tool_list_loop H _ _ _ _ _ _ _ Eu Hc) in E.
      destruct (foldM _ (splitlines out) [] w0) as [[tools | e] w2] eqn:Ef;
        [| discriminate E].
      assert (Inv : NoDup (map fst tools) /\
                    Forall (fun kt => asked query (fst kt) /\
                                      from_line H (splitlines out) kt) tools).
      { refine (foldM_invariant
                  (fun tools => NoDup (map fst tools) /\
                                Forall (fun kt => asked query (fst kt) /\
                                                  from_line H (splitlines out) kt) tools)
                  _ _ _ [] _ _ _ _ Ef); [| split; constructor].
        intros acc x s acc' s' Hx Hacc Ex. eapply tool_list_line_mapping; eauto. }
      destruct (tool_list_loop_keys _ _ _ _ _ _ _ _ _ _ Ef) as [_ Hk].
      assert (El : l = Tools tools).
      { destruct query as [q |]; simpl in E.
        - destruct (as_list q) as [| n [| n' ns]].
          + now inversion E.
          + now destruct Hq.
          + now inversion E.
        - now inversion E. }
      subst l. exists tools. destruct Inv as [Hn Hf].
      split; [reflexivity |]. split; [exact Hn |]. split; [exact Hf |].
      intros k line version spec venv Ha Hin Hd Em. eapply Hk; eauto.
    + intros query Hr. rewrite (tool_list_loop H _ _ _ _ _ _ _ Eu Hc).
      destruct (tool_list_loop_returns H query system user kw _ Hr [] w0)
        as (tools & w1 & Ef).
      assert (Inv : NoDup (map fst tools) /\
                    Forall (fun kt => asked query (fst kt) /\
                                      from_line H (splitlines out) kt) tools).
      { refine (foldM_invariant
                  (fun tools => NoDup (map fst tools) /\
                                Forall (fun kt => asked query (fst kt) /\
                                                  from_line H (splitlines out) kt) tools)
                  _ _ _ [] _ _ _ _ Ef); [| split; constructor].
        intros acc x s acc' s' Hx Hacc Ex. eapply tool_list_line_mapping; eauto. }
      rewrite Ef.
      destruct (option_map as_list query) as [[| n [| n' ns]] |] eqn:Eq;
        [eauto | | eauto | eauto].
      destruct tools as [| [k t] rest]; [eauto |].
      destruct Inv as [_ Inv]. inversion Inv as [| ? ? [Ha _] _]; subst.
      unfold asked in Ha. destruct query as [q |]; [| discriminate Eq].
      simpl in Eq. inversion Eq as [Eq']. rewrite Eq' in Ha. simpl in Ha.
      destruct (String.eqb_spec k n) as [-> | Hne]; [| discriminate Ha].
      simpl. rewrite String.eqb_refl. eauto.
Qed.

Lemma listing_answers_the_query_witness :
  uv.tool_list (toy.host true 0) (Some (Str "copier")) None None toy.no_kwargs
    toy.installed_copier
  = (Ok (Tool {| t_python := "/opt/uv/tools/copier/bin/python";
                 t_python_version := "3.12.1";
                 t_install_spec := None;
                 t_version := "1.0.0";
                 t_venv_path := "/opt/uv/tools/copier";
                 t_pkgs := <["jinja2" := "3.1.0"]> (<["copier" := "1.0.0"]> ∅) |}),
     toy.installed_copier) /\
  uv.tool_is_installed (toy.host true 0) "copier" None None toy.no_kwargs toy.installed_copier
  = (Ok true, toy.installed_copier) /\
  uv.tool_list (toy.host true 0) (Some (Str "black")) None None toy.no_kwargs
    toy.installed_copier
  = (Ok (Tools []), toy.installed_copier) /\
  uv.tool_is_installed (toy.host true 0) "black" None None toy.no_kwargs toy.installed_copier
  = (Ok false, toy.installed_copier).
Proof.
  destruct (listing_answers_the_query (toy.host true 0) None None toy.no_kwargs
              toy.installed_copier toy.installed_copier toy.installed_copier)
    as (_ & Hl & _); [vm_compute; reflexivity |].
  destruct (Hl eq_refl) as (H1 & H2 & _ & _ & Hr).
  destruct (H1 (Str "copier") "copier" [] toy.installed_copier [] "1.0.0" None
               "/opt/uv/tools/copier" [("copier", "1.0.0"); ("jinja2", "3.1.0")]
               toy.installed_copier "Python 3.12.1" toy.installed_copier)
    as (Et & Ei);
    [reflexivity | reflexivity | intros l [] | reflexivity | reflexivity
     | vm_compute; reflexivity | reflexivity |].
  destruct (H2 (Str "black") "black") as (Et' & Ei'); [reflexivity | |].
  { intros line [<- | []]. right. intros version spec venv. discriminate. }
  split; [exact Et |]. split; [exact Ei |]. split; [exact Et' | exact Ei'].
Defined.

(** * Further properties *)

(** ** Dicts, item by item *)
Section dict_items.

Context {V : Type}.

Lemma dict_set_same (k : string) (v : V) (d : list (string * V)) :
  dict_get k d = Some v -> dict_set k v d = d.
Proof.
  induction d as [| [k0 v0] d IH]; simpl; [discriminate |].
  destruct (String.eqb k k0) eqn:E.
  - apply String.eqb_eq in E. subst k0. intros Hv. now inversion Hv.
  - intros Hv. now rewrite IH.
Qed.

(** A key that is not looked up does not matter, wherever it stands. *)
Lemma dict_get_insert_other (k k' : string) (v : V) (d1 d2 : list (string * V)) :
  String.eqb k' k = false -> dict_get k' (d1 ++ (k, v) :: d2) = dict_get k' (d1 ++ d2).
Proof.
  intros Hne. induction d1 as [| [k0 v0] d1 IH]; simpl.
  - now rewrite Hne.
  - now rewrite IH.
Qed.

(** Assigning another key leaves an item where it stands. *)
Lemma dict_set_insert_other (k k' : string) (v v' : V) (d1 d2 : list (string * V)) :
  String.eqb k' k = false ->
  exists e1 e2,
    dict_set k' v' (d1 ++ (k, v) :: d2) = e1 ++ (k, v) :: e2 /\
    dict_set k' v' (d1 ++ d2) = e1 ++ e2.
Proof.
  intros Hne. induction d1 as [| [k0 v0] d1 IH]; simpl.
  - rewrite Hne. exists [], (dict_set k' v' d2). split; reflexivity.
  - destruct (String.eqb k' k0).
    + exists ((k', v') :: d1), d2. split; reflexivity.
    + destruct IH as (e1 & e2 & E1 & E2). exists ((k0, v0) :: e1), e2.
      simpl. now rewrite E1, E2.
Qed.

End dict_items.

(** ** Keywords *)
Section keywords.

Lemma kw_without_app (names : list string) (kw1 kw2 : list (string * kwval)) :
  kw_without names (kw1 ++ kw2) = kw_without names kw1 ++ kw_without names kw2.
Proof. unfold kw_without. apply filter_app. Qed.

Lemma kw_without_cons_out (names : list string) (k : string) (v : kwval)
    (kw : list (string * kwval)) :
  mem k names = false -> kw_without names ((k, v) :: kw) = (k, v) :: kw_without names kw.
Proof.
  intros Hk. unfold kw_without. rewrite filter_cons_True; [reflexivity |].
  simpl. now rewrite Hk.
Qed.

Lemma kw_without_cons_in (names : list string) (k : string) (v : kwval)
    (kw : list (string * kwval)) :
  mem k names = true -> kw_without names ((k, v) :: kw) = kw_without names kw.
Proof.
  intros Hk. unfold kw_without. rewrite filter_cons_False; [reflexivity |].
  simpl. now rewrite Hk.
Qed.

(** Assigning a key that the signature binds changes nothing of what is
    left for [**kwargs]. *)
Lemma kw_without_dict_set (names : list string) (k : string) (v : kwval)
    (kw : list (string * kwval)) :
  mem k names = true -> kw_without names (dict_set k v kw) = kw_without names kw.
Proof.
  intros Hk. induction kw as [| [k0 v0] kw IH]; simpl.
  - now rewrite kw_without_cons_in.
  - destruct (String.eqb k k0) eqn:E.
    + apply String.eqb_eq in E. subst k0.
      now rewrite !kw_without_cons_in.
    + destruct (mem k0 names) eqn:E0.
      * now rewrite !kw_without_cons_in.
      * rewrite !kw_without_cons_out by assumption. now rewrite IH.
Qed.

(** A name with two leading underscores is no parameter of the module. *)
Lemma dunder_eqb (k key : string) :
  startswith "__" k = true -> startswith "__" key = false -> String.eqb key k = false.
Proof.
  intros Hk Hkey. apply String.eqb_neq. intros ->. congruence.
Qed.

Lemma dunder_not_uv_param (k : string) :
  startswith "__" k = true -> mem k uv._uv_params = false.
Proof.
  intros Hk. unfold mem, uv._uv_params. simpl existsb.
  rewrite !(String.eqb_sym k).
  repeat (rewrite (dunder_eqb k) by (exact Hk || reflexivity)). reflexivity.
Qed.

Lemma dunder_not_uv_tool_param (k : string) :
  startswith "__" k = true -> mem k uv._uv_tool_params = false.
Proof.
  intros Hk. unfold mem, uv._uv_tool_params. simpl existsb.
  rewrite !(String.eqb_sym k).
  repeat (rewrite (dunder_eqb k) by (exact Hk || reflexivity)). reflexivity.
Qed.

End keywords.

(** ** Keywords that Salt adds *)
Section dunder.

Context {W : Type} (H : Host W) (P : Packaging).

Lemma bind_ext {S A B : Type} (c c' : M S A) (k k' : A -> M S B) (s : S) :
  c s = c' s -> (forall a s1, k a s1 = k' a s1) -> bind c k s = bind c' k' s.
Proof.
  intros Hc Hk. unfold bind. rewrite Hc. destruct (c' s) as [[a | e] s1]; auto.
Qed.

Lemma foldM_ext {S A B : Type} (g g' : B -> A -> M S B) (l : list A) :
  (forall acc x s, g acc x s = g' acc x s) ->
  forall acc s, foldM g l acc s = foldM g' l acc s.
Proof.
  intros Hg. induction l as [| x l IH]; intros acc s; simpl; [reflexivity |].
  apply bind_ext; [apply Hg | intros; apply IH].
Qed.

Variables (k : string) (v : kwval).
Hypothesis Hk : startswith "__" k = true.

Lemma uv_dunder (kw1 kw2 : list (string * kwval))
    (cmd params options : list string) (user : option string)
    (env : option (list (string * string))) (json : bool) (w : W) :
  uv._uv H cmd params options user env json (kw1 ++ (k, v) :: kw2) w
  = uv._uv H cmd params options user env json (kw1 ++ kw2) w.
Proof.
  unfold uv._uv. cbv zeta.
  rewrite !kw_without_app, kw_without_cons_out by now apply dunder_not_uv_param.
  rewrite !map_app. cbn [map fst]. rewrite !forallb_app. cbn [forallb]. rewrite Hk.
  cbn [andb]. rewrite !filter_app.
  rewrite (filter_cons_False _ k) by (rewrite Hk; auto).
  unfold uv.bool_opt, uv.val_opt, kw_is_True, kw_str.
  rewrite !(dict_get_insert_other k _ v kw1 kw2)
    by (apply dunder_eqb; [exact Hk | reflexivity]).
  reflexivity.
Qed.

Lemma uv_tool_env_dunder (kw1 kw2 : list (string * kwval))
    (system : option bool) (user : option string) :
  uv._uv_tool_env H system user (kw1 ++ (k, v) :: kw2)
  = uv._uv_tool_env H system user (kw1 ++ kw2).
Proof.
  unfold uv._uv_tool_env, kw_env, kw_str.
  rewrite !(dict_get_insert_other k _ v kw1 kw2)
    by (apply dunder_eqb; [exact Hk | reflexivity]).
  reflexivity.
Qed.

Lemma uv_tool_dunder (kw1 kw2 : list (string * kwval))
    (cmd : string) (params options : list string) (system : option bool)
    (user : option string) (w : W) :
  uv._uv_tool H cmd params options system user (kw1 ++ (k, v) :: kw2) w
  = uv._uv_tool H cmd params options system user (kw1 ++ kw2) w.
Proof.
  unfold uv._uv_tool. cbv zeta. rewrite uv_tool_env_dunder.
  rewrite !kw_without_app, kw_without_cons_out by now apply dunder_not_uv_tool_param.
  apply uv_dunder.
Qed.

Lemma pip_list_env_dunder (kw1 kw2 : list (string * kwval))
    (system : option bool) (user : option string) :
  uv.pip_list_env H system user (kw1 ++ (k, v) :: kw2)
  = uv.pip_list_env H system user (kw1 ++ kw2).
Proof.
  unfold uv.pip_list_env, kw_env. rewrite uv_tool_env_dunder.
  rewrite !(dict_get_insert_other k _ v kw1 kw2)
    by (apply dunder_eqb; [exact Hk | reflexivity]).
  reflexivity.
Qed.

Lemma tool_list_line_dunder (kw1 kw2 : list (string * kwval))
    (name : option (list string)) (system : option bool)
    (user : option string) (tools : list (string * tool_info)) (line : string) (w : W) :
  uv.tool_list_line H name system user (kw1 ++ (k, v) :: kw2) tools line w
  = uv.tool_list_line H name system user (kw1 ++ kw2) tools line w.
Proof.
  unfold uv.tool_list_line.
  destruct (startswith "-" line); [reflexivity |].
  destruct (LIST_REGEX_match H line) as [[[[tool version] spec] venv] |]; [| reflexivity].
  destruct (match name with Some names => negb (mem tool names) | None => false end);
    [reflexivity |].
  cbv zeta. rewrite pip_list_env_dunder.
  destruct (dict_set_insert_other k "directory" v (KStr venv) kw1 kw2) as (e1 & e2 & E1 & E2);
    [apply dunder_eqb; [exact Hk | reflexivity] |].
  rewrite E1, E2. apply bind_ext; [apply uv_dunder | reflexivity].
Qed.

Lemma tool_list_dunder (kw1 kw2 : list (string * kwval))
    (name : option str_or_list) (system : option bool)
    (user : option string) (w : W) :
  uv.tool_list H name system user (kw1 ++ (k, v) :: kw2) w
  = uv.tool_list H name system user (kw1 ++ kw2) w.
Proof.
  unfold uv.tool_list. apply bind_ext; [apply uv_tool_dunder |].
  intros out w1. cbv zeta.
  destruct (str_contains _ _); [reflexivity |].
  apply bind_ext; [| reflexivity].
  apply foldM_ext. intros acc line s. apply tool_list_line_dunder.
Qed.

Lemma tool_install_upgrade_dunder (kw1 kw2 : list (string * kwval))
    (cmd : string) (args : list string) (python : option string)
    (upgrade : bool) (upgrade_package : option str_or_list) (options : list string)
    (system : option bool) (user : option string) (w : W) :
  uv._tool_install_upgrade H cmd args python upgrade upgrade_package options system user
    (kw1 ++ (k, v) :: kw2) w
  = uv._tool_install_upgrade H cmd args python upgrade upgrade_package options system user
      (kw1 ++ kw2) w.
Proof.
  unfold uv._tool_install_upgrade. cbv zeta.
  apply bind_ext; [apply uv_tool_dunder | reflexivity].
Qed.

End dunder.

(** X1: a keyword whose name starts with two underscores, as Salt adds them
    to the keywords of a call ([__pub_fun], [__pub_jid] and the like), changes
    nothing: with it or without it, wherever it stands among the keywords,
    [_uv] and every public function of the module run the same commands and
    return or raise the same. *)
Theorem dunder_keywords_are_ignored {W : Type} (H : Host W) (P : Packaging)
    (kw1 kw2 : list (string * kwval)) (k : string) (v : kwval) :
  startswith "__" k = true ->
  let kw := kw1 ++ (k, v) :: kw2 in
  let kw' := kw1 ++ kw2 in
  (forall cmd params options user env json w,
     uv._uv H cmd params options user env json kw w
     = uv._uv H cmd params options user env json kw' w) /\
  (forall name system user w,
     uv.tool_list H name system user kw w = uv.tool_list H name system user kw' w) /\
  (forall name system user w,
     uv.tool_is_installed H name system user kw w
     = uv.tool_is_installed H name system user kw' w) /\
  (forall name spec get_versions system user w,
     uv.tool_is_outdated H P name spec get_versions system user kw w
     = uv.tool_is_outdated H P name spec get_versions system user kw' w) /\
  (forall name extras with_requirements refresh refresh_package reinstall reinstall_package
          force python upgrade upgrade_package system user w,
     uv.tool_install H name extras with_requirements refresh refresh_package reinstall
       reinstall_package force python upgrade upgrade_package system user kw w
     = uv.tool_install H name extras with_requirements refresh refresh_package reinstall
         reinstall_package force python upgrade upgrade_package system user kw' w) /\
  (forall name python upgrade upgrade_package system user w,
     uv.tool_upgrade H name python upgrade upgrade_package system user kw w
     = uv.tool_upgrade H name python upgrade upgrade_package system user kw' w) /\
  (forall python upgrade upgrade_package system user w,
     uv.tool_upgrade_all H python upgrade upgrade_package system user kw w
     = uv.tool_upgrade_all H python upgrade upgrade_package system user kw' w) /\
  (forall name system user w,
     uv.tool_remove H name system user kw w = uv.tool_remove H name system user kw' w) /\
  (forall system user w,
     uv.tool_remove_all H system user kw w = uv.tool_remove_all H system user kw' w).
Proof.
  intros Hk kw kw'. subst kw kw'. repeat split; intros.
  - now apply uv_dunder.
  - now apply tool_list_dunder.
  - unfold uv.tool_is_installed. apply bind_ext; [now apply tool_list_dunder | reflexivity].
  - unfold uv.tool_is_outdated. apply bind_ext; [now apply tool_list_dunder | reflexivity].
  - unfold uv.tool_install. cbv zeta.
    apply bind_ext; [now apply tool_install_upgrade_dunder | reflexivity].
  - unfold uv.tool_upgrade. now apply tool_install_upgrade_dunder.
  - unfold uv.tool_upgrade_all. now apply tool_install_upgrade_dunder.
  - unfold uv.tool_remove. apply bind_ext; [now apply uv_tool_dunder | reflexivity].
  - unfold uv.tool_remove_all. apply bind_ext; [now apply uv_tool_dunder | reflexivity].
Qed.

Lemma dunder_keywords_are_ignored_witness :
  uv.tool_list (toy.host true 0) (Some (Str "copier")) None None
    [("offline", KBool true); ("__pub_fun", KStr "uv.tool_list")] toy.installed_copier
  = uv.tool_list (toy.host true 0) (Some (Str "copier")) None None
      [("offline", KBool true)] toy.installed_copier.
Proof.
  apply (proj1 (proj2 (dunder_keywords_are_ignored (toy.host true 0) toy.packaging
                         [("offline", KBool true)] [] "__pub_fun" (KStr "uv.tool_list")
                         eq_refl))).
Defined.

(** ** Keywords that no signature binds *)
Section unknown.

Context {W : Type} (H : Host W) (P : Packaging).

Local Abbreviation frame := (uv_tool.frame (W := W)).

Lemma kw_without_In (names : list string) (k : string) (v : kwval)
    (kw : list (string * kwval)) :
  In (k, v) kw -> mem k names = false -> In (k, v) (kw_without names kw).
Proof.
  intros Hin Hk. apply list_elem_of_In. unfold kw_without.
  apply list_elem_of_filter. split; [simpl; now rewrite Hk | now apply list_elem_of_In].
Qed.

Lemma forallb_dunder_false (k : string) (keys : list string) :
  In k keys -> startswith "__" k = false -> forallb (startswith "__") keys = false.
Proof.
  intros Hin Hk. destruct (forallb (startswith "__") keys) eqn:E; [| reflexivity].
  rewrite forallb_forall in E. specialize (E k Hin). congruence.
Qed.

Lemma unknown_leftover (k : string) (v : kwval) (kw : list (string * kwval)) :
  In (k, v) kw -> unknown_keyword k = true ->
  forallb (startswith "__") (leftover kw) = false.
Proof.
  intros Hin Hu. unfold unknown_keyword in Hu.
  apply andb_true_iff in Hu as [Hu Hd]. apply andb_true_iff in Hu as [Hu Ht].
  apply negb_true_iff in Hu, Ht, Hd.
  apply (forallb_dunder_false k); [| exact Hd].
  unfold leftover. apply (in_map fst _ (k, v)).
  apply kw_without_In; [| exact Hu]. now apply kw_without_In.
Qed.

Lemma tool_install_upgrade_invalid (cmd : string) (args : list string)
    (python : option string) (upgrade : bool) (upgrade_package : option str_or_list)
    (options : list string) (system : option bool) (user : option string)
    (kw : list (string * kwval)) (w : W) :
  forallb (startswith "__") (leftover kw) = false ->
  uv._tool_install_upgrade H cmd args python upgrade upgrade_package options system user kw w
  = (Raise (invalid_keywords kw), w).
Proof.
  intros Hl. unfold uv._tool_install_upgrade. cbv zeta.
  now rewrite (bind_Raise _ _ _ _ _ (uv_tool_invalid H _ _ _ _ _ _ _ Hl)).
Qed.

(** [_uv] called with a keyword it does not bind. *)
Lemma uv_invalid (cmd params options : list string) (user : option string)
    (env : option (list (string * string))) (json : bool) (kw : list (string * kwval))
    (w : W) :
  forallb (startswith "__") (map fst (kw_without uv._uv_params kw)) = false ->
  uv._uv H cmd params options user env json kw w = (Raise (invalid_for_uv kw), w).
Proof.
  intros Hl. unfold uv._uv. cbv zeta. now rewrite Hl.
Qed.

Lemma tool_list_line_leak (query : option str_or_list) (system : option bool)
    (user : option string) (kw : list (string * kwval))
    (tools : list (string * tool_info)) (line : string) (w : W) :
  forallb (startswith "__") (map fst (kw_without uv._uv_params kw)) = false ->
  (names_tool H query line ->
   uv.tool_list_line H (option_map as_list query) system user kw tools line w
   = (Raise (invalid_for_uv kw), w)) /\
  (uv.tool_list_line H (option_map as_list query) system user kw tools line w
   = (Ok tools, w) \/
   uv.tool_list_line H (option_map as_list query) system user kw tools line w
   = (Raise (invalid_for_uv kw), w)).
Proof.
  intros Hl.
  assert (Hr : forall venv,
             uv._uv H ["pip"; "list"] [] ["--format"; "json"] user
               (uv.pip_list_env H system user kw) true
               (dict_set "directory" (KStr venv) kw) w
             = (Raise (invalid_for_uv kw), w)).
  { intros venv.
    assert (E : invalid_for_uv (dict_set "directory" (KStr venv) kw) = invalid_for_uv kw).
    { unfold invalid_for_uv. now rewrite kw_without_dict_set. }
    rewrite <- E. apply uv_invalid. now rewrite kw_without_dict_set. }
  unfold uv.tool_list_line, names_tool. split.
  - intros (Hd & tool & version & spec & venv & Hm & Hq). rewrite Hd, Hm.
    assert (Hc : match option_map as_list query with
                 | Some names => negb (mem tool names)
                 | None => false
                 end = false).
    { destruct query as [q |]; simpl; [now rewrite Hq | reflexivity]. }
    rewrite Hc. cbv zeta. apply bind_Raise, Hr.
  - destruct (startswith "-" line); [now left |].
    destruct (LIST_REGEX_match H line) as [[[[tool version] spec] venv] |] eqn:Hm;
      [| now left].
    destruct (match option_map as_list query with
              | Some names => negb (mem tool names)
              | None => false
              end); [now left |].
    right. cbv zeta. apply bind_Raise, Hr.
Qed.

Lemma tool_list_loop_leak (query : option str_or_list) (system : option bool)
    (user : option string) (kw : list (string * kwval)) (lines : list string) (w : W) :
  forallb (startswith "__") (map fst (kw_without uv._uv_params kw)) = false ->
  (exists line, In line lines /\ names_tool H query line) ->
  forall tools,
    foldM (uv.tool_list_line H (option_map as_list query) system user kw) lines tools w
    = (Raise (invalid_for_uv kw), w).
Proof.
  intros Hl. induction lines as [| l lines IH]; intros (line & Hin & Hn) tools.
  - destruct Hin.
  - simpl.
    destruct (tool_list_line_leak query system user kw tools l w Hl) as [Hq [Ho | Hr]].
    + destruct Hin as [-> | Hin].
      * now rewrite (bind_Raise _ _ _ _ _ (Hq Hn)).
      * rewrite (bind_Ok _ _ _ _ _ Ho). apply IH. eauto.
    + now rewrite (bind_Raise _ _ _ _ _ Hr).
Qed.

(** The listing of tools when a keyword of [_uv_tool] is among the
    keywords. *)
Lemma tool_list_leak (query : option str_or_list) (system : option bool)
    (user : option string) (kw : list (string * kwval)) (w w0 : W) (out : string) :
  forallb (startswith "__") (map fst (kw_without uv._uv_params kw)) = false ->
  uv._uv_tool H "list" [] ["--show-paths"; "--show-version-specifiers"] system user kw w
  = (Ok (OutText out), w0) ->
  str_contains "No tools installed" out = false ->
  (exists line, In line (splitlines out) /\ names_tool H query line) ->
  uv.tool_list H query system user kw w = (Raise (invalid_for_uv kw), w0).
Proof.
  intros Hl Eu Hn Hline. unfold uv.tool_list. cbv zeta.
  rewrite (bind_Ok _ _ _ _ _ Eu). rewrite Hn.
  now rewrite (bind_Raise _ _ _ _ _ (tool_list_loop_leak _ _ _ _ _ _ Hl Hline [])).
Qed.

Lemma tool_dir_not_for_uv (kw : list (string * kwval)) :
  mem "tool_bin_dir" (map fst kw) = true \/ mem "tool_dir" (map fst kw) = true ->
  forallb (startswith "__") (map fst (kw_without uv._uv_params kw)) = false.
Proof.
  assert (Hm : forall k, mem k (map fst kw) = true -> exists v, In (k, v) kw).
  { intros k Hk. unfold mem in Hk. apply existsb_exists in Hk as (k' & Hin & Hk).
    apply String.eqb_eq in Hk. subst k'. apply in_map_iff in Hin as ([k0 v] & E & Hin).
    simpl in E. subst k0. eauto. }
  intros [Hk | Hk]; apply Hm in Hk as (v & Hin).
  - apply (forallb_dunder_false "tool_bin_dir"); [| reflexivity].
    apply (in_map fst _ ("tool_bin_dir", v)). now apply kw_without_In.
  - apply (forallb_dunder_false "tool_dir"); [| reflexivity].
    apply (in_map fst _ ("tool_dir", v)). now apply kw_without_In.
Qed.

End unknown.

(** X2: a keyword that is no parameter ([unknown_keyword]) makes every
    public function of the module that takes keywords raise
    [SaltInvocationError] with the list of such keywords, before any command
    is run: the world is as it was. *)
Theorem unknown_keyword_is_rejected {W : Type} (H : Host W) (P : Packaging)
    (kw : kwargs) (k : string) (v : kwval) (w : W) :
  In (k, v) kw ->
  unknown_keyword k = true ->
  (forall name system user,
     uv.tool_list H name system user kw w = (Raise (invalid_keywords kw), w)) /\
  (forall name system user,
     uv.tool_is_installed H name system user kw w = (Raise (invalid_keywords kw), w)) /\
  (forall name spec get_versions system user,
     uv.tool_is_outdated H P name spec get_versions system user kw w
     = (Raise (invalid_keywords kw), w)) /\
  (forall name extras with_requirements refresh refresh_package reinstall reinstall_package
          force python upgrade upgrade_package system user,
     uv.tool_install H name extras with_requirements refresh refresh_package reinstall
       reinstall_package force python upgrade upgrade_package system user kw w
     = (Raise (invalid_keywords kw), w)) /\
  (forall name python upgrade upgrade_package system user,
     uv.tool_upgrade H name python upgrade upgrade_package system user kw w
     = (Raise (invalid_keywords kw), w)) /\
  (forall python upgrade upgrade_package system user,
     uv.tool_upgrade_all H python upgrade upgrade_package system user kw w
     = (Raise (invalid_keywords kw), w)) /\
  (forall name system user,
     uv.tool_remove H name system user kw w = (Raise (invalid_keywords kw), w)) /\
  (forall system user,
     uv.tool_remove_all H system user kw w = (Raise (invalid_keywords kw), w)).
Proof.
  intros Hin Hu. pose proof (unknown_leftover k v kw Hin Hu) as Hl.
  repeat split; intros.
  - now apply tool_list_invalid.
  - unfold uv.tool_is_installed.
    now rewrite (bind_Raise _ _ _ _ _ (tool_list_invalid H _ _ _ _ _ Hl)).
  - unfold uv.tool_is_outdated.
    now rewrite (bind_Raise _ _ _ _ _ (tool_list_invalid H _ _ _ _ _ Hl)).
  - unfold uv.tool_install. cbv zeta.
    now rewrite (bind_Raise _ _ _ _ _
                   (tool_install_upgrade_invalid H _ _ _ _ _ _ _ _ _ _ Hl)).
  - unfold uv.tool_upgrade. now apply tool_install_upgrade_invalid.
  - unfold uv.tool_upgrade_all. now apply tool_install_upgrade_invalid.
  - unfold uv.tool_remove.
    now rewrite (bind_Raise _ _ _ _ _ (uv_tool_invalid H _ _ _ _ _ _ _ Hl)).
  - unfold uv.tool_remove_all.
    now rewrite (bind_Raise _ _ _ _ _ (uv_tool_invalid H _ _ _ _ _ _ _ Hl)).
Qed.

Lemma unknown_keyword_is_rejected_witness :
  uv.tool_remove (toy.host true 0) "copier" None None colour_kwargs toy.installed_copier
  = (Raise (SaltInvocationError "The following keyword arguments are invalid: colour"),
     toy.installed_copier).
Proof.
  apply (unknown_keyword_is_rejected (toy.host true 0) toy.packaging colour_kwargs
           "colour" (KStr "never") toy.installed_copier).
  - right. left. reflexivity.
  - reflexivity.
Defined.

(** X3: the keywords [tool_bin_dir] and [tool_dir], which every [tool_*]
    function documents, do not go with the listing of a tool that is there.
    [tool_list] hands its keywords to [_uv] to list the packages of the
    environment, and [_uv] binds neither: as soon as a line of the listing
    names a tool that was asked for, [tool_list] raises
    [SaltInvocationError], after the one command [uv tool list].  Hence
    [installed] and [absent] called with one of the two keywords return a
    failed result whenever the tool is listed. *)
Theorem tool_dir_breaks_listing {W : Type} (H : Host W) (P : Packaging)
    (kw : kwargs) (system : option bool) (user : option string) (w w0 : W) (out : string) :
  let system' := uv.default_system H system user in
  mem "tool_bin_dir" (map fst kw) = true \/ mem "tool_dir" (map fst kw) = true ->
  uv._uv_tool H "list" [] ["--show-paths"; "--show-version-specifiers"] system' user kw w
  = (Ok (OutText out), w0) ->
  str_contains "No tools installed" out = false ->
  (forall query,
     (exists line, In line (splitlines out) /\ names_tool H query line) ->
     uv.tool_list H query system' user kw w = (Raise (invalid_for_uv kw), w0)) /\
  (forall name version_spec upgrade extras refresh refresh_package force python test,
     (exists line, In line (splitlines out) /\
                   names_tool H (Some (StrList [name])) line) ->
     uv_tool.installed H P name version_spec upgrade extras refresh refresh_package force
       python system user kw test w
     = (Ok (uv_tool.failed_ret (uv_tool.ret0 name uv_tool.installed_comment)
                               (invalid_for_uv kw)),
        {| uv_tool.world := w0;
           uv_tool.calls := [uv_tool.Call_tool_list [name] system' user];
           uv_tool.ret_dict :=
             uv_tool.failed_ret (uv_tool.ret0 name uv_tool.installed_comment)
                                (invalid_for_uv kw) |}) /\
     uv_tool.absent H name system user kw test w
     = (Ok (uv_tool.failed_ret (uv_tool.ret0 name uv_tool.absent_comment)
                               (invalid_for_uv kw)),
        {| uv_tool.world := w0;
           uv_tool.calls := [uv_tool.Call_tool_is_installed name system' user];
           uv_tool.ret_dict :=
             uv_tool.failed_ret (uv_tool.ret0 name uv_tool.absent_comment)
                                (invalid_for_uv kw) |})).
Proof.
  intros system' Hk Eu Hn. pose proof (tool_dir_not_for_uv kw Hk) as Hl. split.
  - intros query Hline. now apply (tool_list_leak H query system' user kw w w0 out).
  - intros name version_spec upgrade extras refresh refresh_package force python test Hline.
    pose proof (tool_list_leak H _ system' user kw w w0 out Hl Eu Hn Hline) as El.
    assert (Ei : uv_tool.installed_try H P name version_spec upgrade extras refresh
                   refresh_package force python system user kw test
                   (uv_tool.frame0 name uv_tool.installed_comment w)
                 = (Raise (invalid_for_uv kw),
                    {| uv_tool.world := w0;
                       uv_tool.calls := [uv_tool.Call_tool_list [name] system' user];
                       uv_tool.ret_dict := uv_tool.ret0 name uv_tool.installed_comment |})).
    { unfold uv_tool.installed_try, uv_tool.observe_diff, uv_tool.salt_tool_list. cbv zeta.
      fold system'. unfold bind at 1 2. unfold uv_tool.salt. simpl uv_tool.world.
      now rewrite El. }
    assert (Ea : uv_tool.absent_try H name system user kw test
                   (uv_tool.frame0 name uv_tool.absent_comment w)
                 = (Raise (invalid_for_uv kw),
                    {| uv_tool.world := w0;
                       uv_tool.calls := [uv_tool.Call_tool_is_installed name system' user];
                       uv_tool.ret_dict := uv_tool.ret0 name uv_tool.absent_comment |})).
    { unfold uv_tool.absent_try, uv.tool_is_installed. cbv zeta. fold system'.
      unfold bind at 1. unfold uv_tool.salt. simpl uv_tool.world.
      now rewrite (bind_Raise _ _ _ _ _ El). }
    unfold uv_tool.installed, uv_tool.absent.
    rewrite (run_state_caught _ _ _ _ _ _ Ei eq_refl).
    rewrite (run_state_caught _ _ _ _ _ _ Ea eq_refl). simpl. auto.
Qed.

Lemma tool_dir_breaks_listing_witness :
  fst (uv_tool.installed (toy.host true 0) toy.packaging "copier" None false None false None
         false None None None tool_dir_kwargs false toy.installed_copier)
  = Ok {| st_name := "copier"; st_result := Some false;
          st_comment := "The following keyword arguments are invalid: tool_dir";
          st_changes := no_changes |}.
Proof.
  destruct (tool_dir_breaks_listing (toy.host true 0) toy.packaging tool_dir_kwargs None None
              toy.installed_copier toy.installed_copier toy.installed_copier)
    as (_ & Hs).
  - right. reflexivity.
  - vm_compute. reflexivity.
  - reflexivity.
  - destruct (Hs "copier" None false None false None false None false) as (Hi & _).
    + exists toy.installed_copier. split; [left; reflexivity |].
      split; [reflexivity |]. eexists _, _, _, _. split; reflexivity.
    + rewrite Hi. reflexivity.
Defined.

(** ** The environment of [uv tool] *)
Section tool_env.

Context {W : Type} (H : Host W).

Lemma system_scope_is_system (system : option bool) (user : option string) :
  system_scope H system user <-> uv.is_system (uv.default_system H system user) = true.
Proof.
  unfold system_scope, uv.default_system, uv.is_system. split.
  - intros [-> | (-> & -> & Hu)]; [now destruct user |]. now rewrite Hu.
  - destruct system as [[|] |]; destruct user as [u |]; try discriminate; auto.
    destruct (os_getuid H =? 0)%Z eqn:Hu; [| discriminate].
    apply Z.eqb_eq in Hu. auto.
Qed.

Lemma uv_tool_env_caller (system : option bool) (user : option string)
    (kw : list (string * kwval)) :
  uv._uv_tool_env H system user kw
  = let sys := uv.is_system (uv.default_system H system user) in
    let bin := if sys then uv.or_default (kw_str "tool_bin_dir" kw) "/usr/local/bin"
               else kw_str "tool_bin_dir" kw in
    let dir := if sys then uv.or_default (kw_str "tool_dir" kw) "/opt/uv/tools"
               else kw_str "tool_dir" kw in
    let env := match bin with
               | Some d => dict_set "UV_TOOL_BIN_DIR" d (caller_env kw)
               | None => caller_env kw
               end in
    match dir with
    | Some d => dict_set "UV_TOOL_DIR" d env
    | None => env
    end.
Proof.
  unfold uv._uv_tool_env, caller_env. cbv zeta.
  destruct (kw_env kw) as [[| x e] |]; reflexivity.
Qed.

Lemma or_default_dir_or (x : option string) (d : string) :
  uv.or_default x d = Some (dir_or x d).
Proof. destruct x as [[| c s] |]; reflexivity. Qed.

End tool_env.

(** X4: the environment [_uv_tool] hands to [uv].  When the tools of the
    system are meant, [UV_TOOL_BIN_DIR] and [UV_TOOL_DIR] are always set: to
    the keyword [tool_bin_dir] or [tool_dir] when it is given and not empty,
    to [/usr/local/bin] or [/opt/uv/tools] otherwise, whatever the caller's
    [env] had for them.  Otherwise a variable is set only when its keyword is
    given (an empty one too), and is else what the caller's [env] has.  Every
    other variable of the caller's [env] is handed on as it is. *)
Theorem tool_directories_in_env {W : Type} (H : Host W) (system : option bool)
    (user : option string) (kw : list (string * kwval)) :
  let env := uv._uv_tool_env H system user kw in
  (system_scope H system user ->
   dict_get "UV_TOOL_BIN_DIR" env
   = Some (dir_or (kw_str "tool_bin_dir" kw) "/usr/local/bin") /\
   dict_get "UV_TOOL_DIR" env = Some (dir_or (kw_str "tool_dir" kw) "/opt/uv/tools")) /\
  (~ system_scope H system user ->
   dict_get "UV_TOOL_BIN_DIR" env
   = match kw_str "tool_bin_dir" kw with
     | Some d => Some d
     | None => dict_get "UV_TOOL_BIN_DIR" (caller_env kw)
     end /\
   dict_get "UV_TOOL_DIR" env
   = match kw_str "tool_dir" kw with
     | Some d => Some d
     | None => dict_get "UV_TOOL_DIR" (caller_env kw)
     end) /\
  (forall k, k <> "UV_TOOL_BIN_DIR" -> k <> "UV_TOOL_DIR" ->
             dict_get k env = dict_get k (caller_env kw)).
Proof.
  intros env. subst env. rewrite uv_tool_env_caller. cbv zeta.
  split; [| split].
  - intros Hs. apply system_scope_is_system in Hs. rewrite Hs.
    rewrite !or_default_dir_or. split.
    + rewrite dict_get_set_other by reflexivity. apply dict_get_set_same.
    + apply dict_get_set_same.
  - intros Hs.
    assert (Hf : uv.is_system (uv.default_system H system user) = false).
    { destruct (uv.is_system (uv.default_system H system user)) eqn:E; [| reflexivity].
      apply system_scope_is_system in E. contradiction. }
    rewrite Hf.
    destruct (kw_str "tool_bin_dir" kw) as [b |]; destruct (kw_str "tool_dir" kw) as [d |];
      rewrite ?dict_get_set_same, ?(dict_get_set_other "UV_TOOL_DIR" "UV_TOOL_BIN_DIR"),
        ?(dict_get_set_other "UV_TOOL_BIN_DIR" "UV_TOOL_DIR"), ?dict_get_set_same
        by reflexivity; auto.
  - intros k Hb Hd. apply String.eqb_neq in Hb, Hd.
    destruct (if uv.is_system _ then uv.or_default (kw_str "tool_dir" kw) _ else _);
      destruct (if uv.is_system _ then uv.or_default (kw_str "tool_bin_dir" kw) _ else _);
      rewrite ?(dict_get_set_other "UV_TOOL_DIR" k), ?(dict_get_set_other "UV_TOOL_BIN_DIR" k)
        by assumption; reflexivity.
Qed.

Lemma tool_directories_in_env_witness :
  dict_get "UV_TOOL_BIN_DIR"
    (uv._uv_tool_env (toy.host true 0) None None
       [("tool_dir", KStr "/srv/uv/tools");
        ("env", KEnv [("UV_TOOL_BIN_DIR", "/home/ada/bin"); ("HOME", "/root")])])
  = Some "/usr/local/bin" /\
  dict_get "UV_TOOL_DIR"
    (uv._uv_tool_env (toy.host true 0) None None
       [("tool_dir", KStr "/srv/uv/tools");
        ("env", KEnv [("UV_TOOL_BIN_DIR", "/home/ada/bin"); ("HOME", "/root")])])
  = Some "/srv/uv/tools" /\
  dict_get "UV_TOOL_BIN_DIR"
    (uv._uv_tool_env (toy.host true 0) None (Some "ada")
       [("tool_dir", KStr "");
        ("env", KEnv [("UV_TOOL_BIN_DIR", "/home/ada/bin"); ("HOME", "/root")])])
  = Some "/home/ada/bin" /\
  dict_get "UV_TOOL_DIR"
    (uv._uv_tool_env (toy.host true 0) None (Some "ada")
       [("tool_dir", KStr "");
        ("env", KEnv [("UV_TOOL_BIN_DIR", "/home/ada/bin"); ("HOME", "/root")])])
  = Some "".
Proof.
  destruct (tool_directories_in_env (toy.host true 0) None None
              [("tool_dir", KStr "/srv/uv/tools");
               ("env", KEnv [("UV_TOOL_BIN_DIR", "/home/ada/bin"); ("HOME", "/root")])])
    as (Hs & _ & _).
  destruct (tool_directories_in_env (toy.host true 0) None (Some "ada")
              [("tool_dir", KStr "");
               ("env", KEnv [("UV_TOOL_BIN_DIR", "/home/ada/bin"); ("HOME", "/root")])])
    as (_ & Hu & _).
  destruct Hs as (Hb & Hd); [right; repeat split |].
  destruct Hu as (Hb' & Hd').
  { intros [Hs | (_ & Hs & _)]; discriminate Hs. }
  repeat split; assumption.
Defined.

(** X5: [_uv_tool] assigns the two variables in the caller's own [env] when
    that is a dict with items, so a later call with the same keywords finds
    them there.  The assignment is idempotent: called again with the [env] an
    earlier call left, [_uv_tool] hands the same environment to [uv]. *)
Theorem tool_env_is_stable {W : Type} (H : Host W) (system : option bool)
    (user : option string) (kw : list (string * kwval)) :
  uv._uv_tool_env H system user
    (dict_set "env" (KEnv (uv._uv_tool_env H system user kw)) kw)
  = uv._uv_tool_env H system user kw.
Proof.
  set (env := uv._uv_tool_env H system user kw).
  assert (Hc : caller_env (dict_set "env" (KEnv env) kw) = env).
  { unfold caller_env, kw_env. now rewrite dict_get_set_same. }
  assert (Hb : kw_str "tool_bin_dir" (dict_set "env" (KEnv env) kw)
               = kw_str "tool_bin_dir" kw).
  { unfold kw_str. now rewrite dict_get_set_other by reflexivity. }
  assert (Hd : kw_str "tool_dir" (dict_set "env" (KEnv env) kw) = kw_str "tool_dir" kw).
  { unfold kw_str. now rewrite dict_get_set_other by reflexivity. }
  rewrite (uv_tool_env_caller H system user (dict_set _ _ _)). cbv zeta.
  rewrite Hc, Hb, Hd.
  assert (He : env = uv._uv_tool_env H system user kw) by reflexivity.
  rewrite uv_tool_env_caller in He. cbv zeta in He.
  destruct (if uv.is_system _ then uv.or_default (kw_str "tool_dir" kw) _ else _) as [d |];
    destruct (if uv.is_system _ then uv.or_default (kw_str "tool_bin_dir" kw) _ else _)
      as [b |]; try reflexivity.
  - rewrite (dict_set_same "UV_TOOL_BIN_DIR" b env).
    + apply dict_set_same. rewrite He. apply dict_get_set_same.
    + rewrite He. rewrite dict_get_set_other by reflexivity. apply dict_get_set_same.
  - apply dict_set_same. rewrite He. apply dict_get_set_same.
  - apply dict_set_same. rewrite He. apply dict_get_set_same.
Qed.

(** ** The order of strings *)
Section string_order.

Lemma ltb_lt (a b : string) :
  String.ltb a b = true <-> OrderedTypeEx.String_as_OT.lt a b.
Proof.
  unfold String.ltb. rewrite <- OrderedTypeEx.String_as_OT.cmp_lt.
  unfold OrderedTypeEx.String_as_OT.cmp.
  destruct (String.compare a b); split; intros; congruence.
Qed.

Lemma ltb_asym (a b : string) : String.ltb a b = true -> String.ltb b a = false.
Proof.
  unfold String.ltb. rewrite (String.compare_antisym a b).
  destruct (String.compare b a); simpl; intros; congruence.
Qed.

(** [a >= b >= c] gives [a >= c]. *)
Lemma geb_trans (a b c : string) :
  String.ltb a b = false -> String.ltb b c = false -> String.ltb a c = false.
Proof.
  intros Hab Hbc. destruct (String.ltb a c) eqn:Hac; [| reflexivity].
  unfold String.ltb in Hab. destruct (String.compare a b) eqn:E; try discriminate.
  - apply String.compare_eq_iff in E. subst b. congruence.
  - assert (Hba : String.ltb b a = true).
    { unfold String.ltb. rewrite String.compare_antisym, E. reflexivity. }
    apply ltb_lt in Hba, Hac.
    pose proof (OrderedTypeEx.String_as_OT.lt_trans _ _ _ Hba Hac) as Hbc'.
    apply ltb_lt in Hbc'. congruence.
Qed.

Lemma ltb_irrefl (a : string) : String.ltb a a = false.
Proof.
  unfold String.ltb.
  assert (E : String.compare a a = Eq)
    by (apply OrderedTypeEx.String_as_OT.cmp_eq; reflexivity).
  now rewrite E.
Qed.

Lemma insert_desc_sorted (x : string) (l : list string) :
  StronglySorted (fun a b => String.ltb a b = false) l ->
  StronglySorted (fun a b => String.ltb a b = false) (insert_desc x l).
Proof.
  induction 1 as [| z l Hs IH Hz]; simpl.
  - repeat constructor.
  - destruct (String.ltb x z) eqn:E.
    + constructor; [exact IH |].
      apply Forall_forall. intros y Hy. apply list_elem_of_In, insert_desc_In in Hy.
      destruct Hy as [-> | Hy]; [now apply ltb_asym |].
      rewrite Forall_forall in Hz. apply Hz. now apply list_elem_of_In.
    + constructor; [now constructor |].
      constructor; [exact E |].
      eapply Forall_impl; [exact Hz |]. intros y Hy. simpl in Hy.
      now apply (geb_trans x z y).
Qed.

Lemma sorted_reverse_sorted (l : list string) :
  StronglySorted (fun a b => String.ltb a b = false) (sorted_reverse l).
Proof.
  induction l as [| x l IH]; simpl; [constructor | now apply insert_desc_sorted].
Qed.

Lemma sorted_reverse_first (l : list string) (x : string) (rest : list string) :
  sorted_reverse l = x :: rest ->
  In x l /\ forall y, In y l -> String.ltb x y = false.
Proof.
  intros E. split.
  - apply sorted_reverse_In. rewrite E. now left.
  - intros y Hy. apply sorted_reverse_In in Hy. rewrite E in Hy.
    pose proof (sorted_reverse_sorted l) as Hs. rewrite E in Hs.
    inversion Hs as [| ? ? _ Hx]; subst.
    destruct Hy as [<- | Hy]; [apply ltb_irrefl |].
    rewrite Forall_forall in Hx. apply Hx. now apply list_elem_of_In.
Qed.

End string_order.

(** ** Keys that are no versions *)
Section unparsed.

Context {W : Type} (H : Host W) (P : Packaging).

(** The first key that is no version ends the selection. *)
Lemma select_releases_unparsed (ss : specset P) (pre post : list string) (bad : string) :
  Forall (fun r => Version P r <> None) pre ->
  Version P bad = None ->
  uv.select_releases P ss (pre ++ bad :: post) = Raise (InvalidVersion bad).
Proof.
  intros Hpre Hbad. induction Hpre as [| x l Hx Hl IH]; simpl.
  - now rewrite Hbad.
  - destruct (Version P x) as [v |]; [| contradiction]. now rewrite IH.
Qed.

End unparsed.

(** X6: the version [get_latest_version] returns under a constraint, once
    the index has answered and every key of [releases] is a version.  When
    one of the keys lies in the constraint and is neither a pre-, dev- nor
    post-release, the lookup returns such a release, and none of them is
    greater as a string: the releases are sorted as text, not as versions.
    When no key is such a release, the lookup raises [StopIteration]. *)
Theorem latest_version_is_first_by_text {W : Type} (H : Host W) (P : Packaging)
    (name spec : string) (ss : specset P) (response : pypi) (w w1 : W) :
  http_query H ("https://pypi.org/pypi/" +:+ name +:+ "/json") w
  = (Ok (Some response), w1) ->
  SpecifierSet P spec = Some ss ->
  Forall (fun r => Version P r <> None) (releases response) ->
  ((exists r, In r (releases response) /\ stable_in P ss r) ->
   exists latest,
     uv.get_latest_version H P name (Some spec) w = (Ok latest, w1) /\
     In latest (releases response) /\
     stable_in P ss latest /\
     forall r, In r (releases response) -> stable_in P ss r -> String.ltb latest r = false) /\
  ((forall r, In r (releases response) -> ~ stable_in P ss r) ->
   uv.get_latest_version H P name (Some spec) w = (Raise StopIteration, w1)).
Proof.
  intros Eq Es Hp. split.
  - intros (r0 & Hin0 & Hs0).
    destruct (select_releases_parsed P ss _ Hp) as (m & Em).
    pose proof (select_releases_Ok P ss _ _ Em) as Hm.
    destruct (sorted_reverse m) as [| latest rest] eqn:Er.
    { apply sorted_reverse_nil in Er. subst m. destruct (proj2 (Hm r0) (conj Hin0 Hs0)). }
    pose proof (sorted_reverse_first _ _ _ Er) as [Hl Hmax].
    exists latest. split; [| split; [| split]].
    + unfold uv.get_latest_version. cbv zeta. rewrite (bind_Ok _ _ _ _ _ Eq).
      unfold uv.specifier_of, uv.response_dict. rewrite Es.
      unfold bind, ret, of_result. now rewrite Em, Er.
    + now apply Hm.
    + now apply Hm.
    + intros r Hr Hsr. apply Hmax. now apply Hm.
  - intros Hnone.
    destruct (get_latest_version_constrained H P name spec ss response w w1 Eq Es Hp)
      as [(latest & _ & Hin & Hl) | (E & _)]; [now destruct (Hnone latest Hin) | exact E].
Qed.

Lemma latest_version_is_first_by_text_witness :
  uv.get_latest_version (index_host "0.10.0" ["0.9.0"; "0.10.0"]) toy.packaging "copier"
    (Some "<1") ""
  = (Ok "0.9.0", "") /\
  String.ltb "0.9.0" "0.10.0" = false /\
  ver_ltb toy.packaging [0; 9; 0]%nat [0; 10; 0]%nat = true /\
  uv.get_latest_version toy.post_host toy.packaging_post "copier" (Some "==1.0.post1") ""
  = (Raise StopIteration, "").
Proof.
  destruct (latest_version_is_first_by_text (index_host "0.10.0" ["0.9.0"; "0.10.0"])
              toy.packaging "copier" "<1" (toy.Lt_, [1]%nat)
              {| info_version := "0.10.0"; releases := ["0.9.0"; "0.10.0"] |} "" "")
    as (Hsome & _).
  { reflexivity. }
  { reflexivity. }
  { repeat constructor; discriminate. }
  destruct Hsome as (latest & E & _ & _ & Hmax).
  { exists "0.10.0". split; [right; left; reflexivity |].
    exists [0; 10; 0]%nat. repeat split. }
  assert (El : latest = "0.9.0") by (vm_compute in E; now inversion E).
  subst latest. split; [exact E |]. split; [| split; [reflexivity |]].
  - apply Hmax; [right; left; reflexivity |].
    exists [0; 10; 0]%nat. repeat split.
  - destruct (latest_version_is_first_by_text toy.post_host toy.packaging_post "copier"
                "==1.0.post1" (toy.Eq_, ([1; 0]%nat, Some 1%nat))
                {| info_version := "1.0.post1"; releases := ["1.0"; "1.0.post1"] |} "" "")
      as (_ & Hnone).
    { reflexivity. }
    { reflexivity. }
    { repeat constructor; discriminate. }
    apply Hnone. intros r [<- | [<- | []]] (v & Ev & Hc & _ & _ & Hpost).
    + vm_compute in Ev. inversion Ev; subst. vm_compute in Hc. discriminate Hc.
    + vm_compute in Ev. inversion Ev; subst. vm_compute in Hpost. discriminate Hpost.
Defined.

(** X7: one key of [releases] that is no version makes every lookup under a
    constraint raise [InvalidVersion] for the first such key, whatever the
    constraint and the other releases are; the lookup without a constraint
    does not read the keys and returns [info.version]. *)
Theorem unparsable_release_breaks_lookup {W : Type} (H : Host W) (P : Packaging)
    (name spec : string) (ss : specset P) (response : pypi) (w w1 : W)
    (pre post : list string) (bad : string) :
  http_query H ("https://pypi.org/pypi/" +:+ name +:+ "/json") w
  = (Ok (Some response), w1) ->
  SpecifierSet P spec = Some ss ->
  releases response = pre ++ bad :: post ->
  Forall (fun r => Version P r <> None) pre ->
  Version P bad = None ->
  uv.get_latest_version H P name (Some spec) w = (Raise (InvalidVersion bad), w1) /\
  uv.get_latest_version H P name None w = (Ok (info_version response), w1).
Proof.
  intros Eq Es Er Hpre Hbad. unfold uv.get_latest_version. cbv zeta.
  rewrite !(bind_Ok _ _ _ _ _ Eq). split; [| reflexivity].
  unfold uv.specifier_of, uv.response_dict. rewrite Es. unfold bind, ret, of_result.
  now rewrite Er, (select_releases_unparsed P ss pre post bad Hpre Hbad).
Qed.

Lemma unparsable_release_breaks_lookup_witness :
  uv.get_latest_version (index_host "2024.1" ["2004d"; "2023.3"; "2024.1"]) toy.packaging
    "pytz" (Some ">=2023") ""
  = (Raise (InvalidVersion "2004d"), "") /\
  uv.get_latest_version (index_host "2024.1" ["2004d"; "2023.3"; "2024.1"]) toy.packaging
    "pytz" None ""
  = (Ok "2024.1", "").
Proof.
  apply (unparsable_release_breaks_lookup
           (index_host "2024.1" ["2004d"; "2023.3"; "2024.1"]) toy.packaging "pytz" ">=2023"
           (toy.Ge_, [2023]%nat)
           {| info_version := "2024.1"; releases := ["2004d"; "2023.3"; "2024.1"] |} "" ""
           [] ["2023.3"; "2024.1"] "2004d");
    first [reflexivity | constructor].
Defined.

(** X8: [tool_is_outdated] on a tool that no line of the listing names
    raises [CommandExecutionError] with the name of the tool and the user as
    given ([None] when there is none), after the one command [uv tool list]:
    the package index is not asked. *)
Theorem outdated_needs_installed_tool {W : Type} (H : Host W) (P : Packaging)
    (name : string) (spec : outdated_spec) (get_versions : bool) (system : option bool)
    (user : option string) (kw : list (string * kwval)) (w w0 : W) (out : string) :
  uv._uv_tool H "list" [] ["--show-paths"; "--show-version-specifiers"] system user kw w
  = (Ok (OutText out), w0) ->
  (forall line, In line (splitlines out) ->
     startswith "-" line = true \/
     (forall version spec venv,
        LIST_REGEX_match H line <> Some (name, version, spec, venv))) ->
  uv.tool_is_outdated H P name spec get_versions system user kw w
  = (Raise (CommandExecutionError
              (name +:+ " is not installed for user " +:+ py_str user +:+ ".")), w0).
Proof.
  intros Eu Hc.
  assert (El : uv.tool_list H (Some (StrList [name])) system user kw w = (Ok (Tools []), w0)).
  { unfold uv.tool_list. cbv zeta. rewrite (bind_Ok _ _ _ _ _ Eu).
    destruct (str_contains "No tools installed" out); [reflexivity |].
    simpl option_map.
    now rewrite (bind_Ok _ _ _ _ _ (tool_list_loop_skip H name system user kw _ w0 Hc)). }
  unfold uv.tool_is_outdated. now rewrite (bind_Ok _ _ _ _ _ El).
Qed.

Lemma outdated_needs_installed_tool_witness :
  uv.tool_is_outdated (toy.host true 0) toy.packaging "copier" Spec_None false None None []
    ""
  = (Raise (CommandExecutionError "copier is not installed for user None."), "").
Proof.
  apply (outdated_needs_installed_tool (toy.host true 0) toy.packaging "copier" Spec_None
           false None None [] "" "" "No tools installed").
  - reflexivity.
  - intros line [<- | []]. right. intros version spec venv. discriminate.
Defined.

(** ** The runs of [absent] *)
Section absent_runs.

Context {W : Type} (H : Host W).

Local Abbreviation frame := (uv_tool.frame (W := W)).

(** The block of [absent] outside the dry run, step by step. *)
Lemma absent_try_steps (name : string) (system : option bool) (user : option string)
    (kw : list (string * kwval)) (f : frame) :
  let system' := uv.default_system H system user in
  let ii := uv_tool.Call_tool_is_installed name system' user in
  let rm := uv_tool.Call_tool_remove name system' user in
  let at_ w l := {| uv_tool.world := w; uv_tool.calls := uv_tool.calls f ++ l;
                    uv_tool.ret_dict := uv_tool.ret_dict f |} in
  uv_tool.absent_try H name system user kw false f
  = match uv.tool_is_installed H name system' user kw (uv_tool.world f) with
    | (Raise e, w1) => (Raise e, at_ w1 [ii])
    | (Ok false, w1) => (Ok tt, at_ w1 [ii])
    | (Ok true, w1) =>
        match uv.tool_remove H name system' user kw w1 with
        | (Raise e, w2) => (Raise e, at_ w2 [ii; rm])
        | (Ok _, w2) =>
            match uv.tool_is_installed H name system' user kw w2 with
            | (Raise e, w3) => (Raise e, at_ w3 [ii; rm; ii])
            | (Ok true, w3) => (Raise still_installed, at_ w3 [ii; rm; ii])
            | (Ok false, w3) =>
                (Ok tt,
                 {| uv_tool.world := w3;
                    uv_tool.calls := uv_tool.calls f ++ [ii; rm; ii];
                    uv_tool.ret_dict :=
                      uv_tool.with_changes (uv_tool.set_removed name no_changes)
                        (uv_tool.with_comment
                           ("The tool has been removed " +:+ uv_tool.scope_text system' user)
                           (uv_tool.ret_dict f)) |})
            end
        end
    end.
Proof.
  cbv zeta. unfold uv_tool.absent_try. cbv zeta.
  unfold bind at 1. unfold uv_tool.salt at 1.
  destruct (uv.tool_is_installed H name _ user kw (uv_tool.world f)) as [[[|] | e] w1];
    [| reflexivity | reflexivity].
  cbn [negb]. cbv iota.
  unfold bind at 1. unfold uv_tool.salt at 1. cbn [uv_tool.world uv_tool.calls].
  destruct (uv.tool_remove H name _ user kw w1) as [[b | e] w2];
    [| now rewrite <- app_assoc].
  unfold bind at 1. unfold uv_tool.salt at 1.
  cbn [uv_tool.world uv_tool.calls uv_tool.ret_dict].
  destruct (uv.tool_is_installed H name _ user kw w2) as [[[|] | e] w3];
    rewrite <- !app_assoc; reflexivity.
Qed.

End absent_runs.

(** X10: when the tool is not installed, [absent] returns the record it
    started with (result [True], the comment that the tool is already
    absent, no changes) after the one observation, in a dry run or not. *)
Theorem absent_tool_stays_absent {W : Type} (H : Host W) (name : string)
    (system : option bool) (user : option string) (kw : kwargs) (test : bool) (w w1 : W) :
  let system' := uv.default_system H system user in
  uv.tool_is_installed H name system' user kw w = (Ok false, w1) ->
  uv_tool.absent H name system user kw test w
  = (Ok {| st_name := name; st_result := Some true;
           st_comment := "The tool is already absent"; st_changes := no_changes |},
     {| uv_tool.world := w1;
        uv_tool.calls := [uv_tool.Call_tool_is_installed name system' user];
        uv_tool.ret_dict := uv_tool.ret0 name uv_tool.absent_comment |}).
Proof.
  intros system' Ei.
  unfold uv_tool.absent, uv_tool.run_state, uv_tool.try_except_salt, uv_tool.absent_try.
  cbv zeta. fold system'. unfold bind at 1. unfold uv_tool.salt at 1.
  cbn [uv_tool.world uv_tool.frame0]. rewrite Ei. reflexivity.
Qed.

Lemma absent_tool_stays_absent_witness :
  fst (uv_tool.absent (toy.host true 0) "copier" None None toy.no_kwargs false "")
  = Ok (uv_tool.ret0 "copier" uv_tool.absent_comment).
Proof.
  rewrite (absent_tool_stays_absent (toy.host true 0) "copier" None None toy.no_kwargs false
             "" ""); reflexivity.
Defined.

(** X11: outside the dry run, [absent] reports a removal only after it has
    seen it.  When the tool is installed and [tool_remove] returns, the tool
    is looked up again: if it is gone, the result is [True] with the changes
    [{removed: name}]; if it is still there, the result is [False] with no
    changes.  Conversely, a record of [absent] with changes comes from such
    a run: the tool was installed, it was removed, and the second lookup did
    not find it. *)
Theorem removal_is_verified {W : Type} (H : Host W) (name : string)
    (system : option bool) (user : option string) (kw : kwargs) (w : W) :
  let system' := uv.default_system H system user in
  let ii := uv_tool.Call_tool_is_installed name system' user in
  let rm := uv_tool.Call_tool_remove name system' user in
  (forall w1 w2 w3 b still,
     uv.tool_is_installed H name system' user kw w = (Ok true, w1) ->
     uv.tool_remove H name system' user kw w1 = (Ok b, w2) ->
     uv.tool_is_installed H name system' user kw w2 = (Ok still, w3) ->
     fst (uv_tool.absent H name system user kw false w)
     = Ok (if still
           then uv_tool.failed_ret (uv_tool.ret0 name uv_tool.absent_comment) still_installed
           else removed_ret name system' user) /\
     uv_tool.world (snd (uv_tool.absent H name system user kw false w)) = w3 /\
     uv_tool.calls (snd (uv_tool.absent H name system user kw false w)) = [ii; rm; ii]) /\
  (forall x f,
     uv_tool.absent H name system user kw false w = (Ok x, f) ->
     st_changes x <> no_changes ->
     x = removed_ret name system' user /\
     uv_tool.calls f = [ii; rm; ii] /\
     exists w1 w2 b,
       uv.tool_is_installed H name system' user kw w = (Ok true, w1) /\
       uv.tool_remove H name system' user kw w1 = (Ok b, w2) /\
       uv.tool_is_installed H name system' user kw w2 = (Ok false, uv_tool.world f)).
Proof.
  intros system' ii rm. split.
  - intros w1 w2 w3 b still E1 E2 E3.
    unfold uv_tool.absent, uv_tool.run_state, uv_tool.try_except_salt.
    rewrite absent_try_steps. cbv zeta. fold system'.
    cbn [uv_tool.world uv_tool.frame0]. rewrite E1, E2, E3.
    destruct still; simpl; auto.
  - intros x f. unfold uv_tool.absent, uv_tool.run_state, uv_tool.try_except_salt.
    rewrite absent_try_steps. cbv zeta. fold system'.
    cbn [uv_tool.world uv_tool.frame0].
    destruct (uv.tool_is_installed H name system' user kw w) as [[[|] | e] w1] eqn:E1.
    + destruct (uv.tool_remove H name system' user kw w1) as [[b | e] w2] eqn:E2.
      * destruct (uv.tool_is_installed H name system' user kw w2) as [[[|] | e] w3] eqn:E3.
        -- simpl. intros E Hc. inversion E; subst. now destruct Hc.
        -- simpl. intros E Hc. inversion E; subst. simpl.
           split; [reflexivity |]. split; [reflexivity |]. exists w1, w2, b. auto.
        -- destruct e; simpl; intros E Hc; inversion E; subst; now destruct Hc.
      * destruct e; simpl; intros E Hc; inversion E; subst; now destruct Hc.
    + simpl. intros E Hc. inversion E; subst. now destruct Hc.
    + destruct e; simpl; intros E Hc; inversion E; subst; now destruct Hc.
Qed.

Lemma removal_is_verified_witness :
  fst (uv_tool.absent (toy.host true 0) "copier" None None toy.no_kwargs false
         toy.installed_copier)
  = Ok {| st_name := "copier"; st_result := Some true;
          st_comment := "The tool has been removed globally";
          st_changes := uv_tool.set_removed "copier" no_changes |} /\
  fst (uv_tool.absent (toy.host false 0) "copier" None None toy.no_kwargs false
         toy.installed_copier)
  = Ok {| st_name := "copier"; st_result := Some false;
          st_comment :=
            "There were no errors during uninstallation, but the tool is still reported as installed";
          st_changes := no_changes |}.
Proof.
  split.
  - destruct (removal_is_verified (toy.host true 0) "copier" None None toy.no_kwargs
                toy.installed_copier) as (Hf & _).
    destruct (Hf toy.installed_copier "" "" true false) as (Hr & _);
      [vm_compute; reflexivity | vm_compute; reflexivity | vm_compute; reflexivity |].
    rewrite Hr. reflexivity.
  - destruct (removal_is_verified (toy.host false 0) "copier" None None toy.no_kwargs
                toy.installed_copier) as (Hf & _).
    destruct (Hf toy.installed_copier toy.installed_copier toy.installed_copier true true)
      as (Hr & _);
      [vm_compute; reflexivity | vm_compute; reflexivity | vm_compute; reflexivity |].
    rewrite Hr. reflexivity.
Defined.

(** A run that an exception ends in a frame where [ret] is as it began
    returns the failed record, or does not return. *)
Ltac ends_failed S E :=
  left;
  repeat match type of E with
         | context [match ?e with CommandExecutionError _ => _ | _ => _ end] =>
             is_var e; destruct e
         end;
  cbv beta iota in E;
  first
    [ match type of E with
      | context [uv_tool.on_error ?e0 _] =>
          exists e0; split; [reflexivity |];
          simpl in E; inversion E; subst; unfold uv_tool.failed_ret; now rewrite S
      end
    | simpl in E; discriminate E ].

(** ** The runs of [installed] *)
Section installed_runs.

Context {W : Type} (H : Host W) (P : Packaging).

Local Abbreviation frame := (uv_tool.frame (W := W)).

(** The end of the block of [installed], step by step. *)
Lemma verify_steps (name : string) (version_spec : option string) (upgrade : bool)
    (extras : option extras_arg) (python : option string) (system : option bool)
    (user : option string) (kw : list (string * kwval)) (curr : tool_listing)
    (changes : changes_t) (f : frame) :
  uv_tool.verify H P name version_spec upgrade extras python system user kw curr changes f
  = match uv_tool.salt_tool_list H name system user kw f with
    | (Raise e, f3) => (Raise e, f3)
    | (Ok (Tools []), f3) =>
        (Raise (CommandExecutionError
                  ("There were no errors during installation, but '" +:+ name +:+
                   "' is still not installed")), f3)
    | (Ok (Tools (_ :: _)), f3) => (Raise (KeyError "install_spec"), f3)
    | (Ok (Tool t), f3) =>
        match uv_tool._check_changes H P name version_spec upgrade extras python system user
                kw t f3 with
        | (Raise e, f4) => (Raise e, f4)
        | (Ok nd, f4) =>
            if changes_truthy (fst nd) then
              (Raise (CommandExecutionError
                        ("Installation succeeded, but there are still pending changes: " +:+
                         json_dumps H (fst nd))), f4)
            else
              (Ok tt,
               {| uv_tool.world := uv_tool.world f4;
                  uv_tool.calls := uv_tool.calls f4;
                  uv_tool.ret_dict :=
                    uv_tool.with_changes changes
                      (uv_tool.with_comment
                         ("The tool has been " +:+
                          (if listing_truthy curr then "re" else "") +:+
                          "installed " +:+ uv_tool.scope_text system user)
                         (uv_tool.ret_dict f4)) |})
        end
    end.
Proof.
  unfold uv_tool.verify. cbv zeta. unfold bind at 1.
  destruct (uv_tool.salt_tool_list H name system user kw f) as [[[[| x l] | t] | e] f3];
    try reflexivity.
  cbn [listing_truthy negb]. unfold uv.the_tool. unfold bind at 1. unfold ret at 1.
  unfold bind at 1.
  destruct (uv_tool._check_changes H P name version_spec upgrade extras python system user
              kw t f3) as [[nd | e] f4]; [| reflexivity].
  destruct (changes_truthy (fst nd)); reflexivity.
Qed.

(** The block of [installed], step by step. *)
Lemma installed_try_steps (name : string) (version_spec : option string) (upgrade : bool)
    (extras : option extras_arg) (refresh : bool) (refresh_package : option str_or_list)
    (force : bool) (python : option string) (system : option bool) (user : option string)
    (kw : list (string * kwval)) (test : bool) (f : frame) :
  let system' := uv.default_system H system user in
  uv_tool.installed_try H P name version_spec upgrade extras refresh refresh_package force
    python system user kw test f
  = match uv_tool.observe_diff H P name version_spec upgrade extras python system' user kw
            f with
    | (Raise e, f1) => (Raise e, f1)
    | (Ok (curr, (changes, requires_install)), f1) =>
        if negb (changes_truthy changes) then (Ok tt, f1)
        else if test then
          (Ok tt,
           {| uv_tool.world := uv_tool.world f1;
              uv_tool.calls := uv_tool.calls f1;
              uv_tool.ret_dict :=
                uv_tool.with_changes changes
                  (uv_tool.with_comment
                     ("The tool would have been " +:+
                      (if listing_truthy curr then "re" else "") +:+ "installed " +:+
                      uv_tool.scope_text system' user)
                     (uv_tool.with_result None (uv_tool.ret_dict f1))) |})
        else
          match uv_tool.dispatch H name upgrade extras refresh refresh_package force python
                  system' user kw curr requires_install f1 with
          | (Ok _, f2) =>
              uv_tool.verify H P name version_spec upgrade extras python system' user kw curr
                changes f2
          | (Raise e, f2) => (Raise e, f2)
          end
    end.
Proof.
  cbv zeta. unfold uv_tool.installed_try. cbv zeta. unfold bind at 1.
  destruct (uv_tool.observe_diff H P name version_spec upgrade extras python
              (uv.default_system H system user) user kw f)
    as [[[curr [changes req]] | e] f1]; [| reflexivity].
  cbn [fst snd]. destruct (negb (changes_truthy changes)); [reflexivity |].
  destruct test; reflexivity.
Qed.

(** The records [installed] returns: the failed one, the one it began
    with when there is nothing to change, the one of the dry run, and the one
    of an action that it has verified. *)
Lemma installed_outcomes (name : string) (version_spec : option string) (upgrade : bool)
    (extras : option extras_arg) (refresh : bool) (refresh_package : option str_or_list)
    (force : bool) (python : option string) (system : option bool) (user : option string)
    (kw : list (string * kwval)) (test : bool) (w : W) (x : state_ret) (f : frame) :
  let system' := uv.default_system H system user in
  uv_tool.run_state name uv_tool.installed_comment
    (uv_tool.installed_try H P name version_spec upgrade extras refresh refresh_package force
       python system user kw test) w = (Ok x, f) ->
  (exists e, uv_tool.caught e = true /\
             x = uv_tool.failed_ret (uv_tool.ret0 name uv_tool.installed_comment) e) \/
  (exists curr changes requires_install f1,
     uv_tool.observe_diff H P name version_spec upgrade extras python system' user kw
       (uv_tool.frame0 name uv_tool.installed_comment w)
     = (Ok (curr, (changes, requires_install)), f1) /\
     ((changes_truthy changes = false /\
       x = uv_tool.ret0 name uv_tool.installed_comment /\ f = f1) \/
      (changes_truthy changes = true /\ test = true /\
       x = would_install_ret name system' user curr changes /\
       uv_tool.calls f = uv_tool.calls f1 /\ uv_tool.world f = uv_tool.world f1) \/
      (changes_truthy changes = true /\ test = false /\
       x = installed_ret name system' user curr changes /\
       exists b f2 t f3 new_diff f4,
         uv_tool.dispatch H name upgrade extras refresh refresh_package force python system'
                          user kw curr requires_install f1 = (Ok b, f2) /\
         uv_tool.salt_tool_list H name system' user kw f2 = (Ok (Tool t), f3) /\
         uv_tool._check_changes H P name version_spec upgrade extras python system' user kw
                                t f3 = (Ok new_diff, f4) /\
         changes_truthy (fst new_diff) = false /\
         uv_tool.calls f = uv_tool.calls f4 /\
         uv_tool.world f = uv_tool.world f4))).
Proof.
  intros system' E.
  unfold uv_tool.run_state, uv_tool.try_except_salt in E.
  rewrite installed_try_steps in E. cbv zeta in E. fold system' in E.
  set (f0 := uv_tool.frame0 name uv_tool.installed_comment w) in *.
  destruct (uv_tool.observe_diff H P name version_spec upgrade extras python system' user kw
              f0) as [[[curr [changes req]] | e] f1] eqn:Eo;
    pose proof (observe_diff_same_ret _ _ _ _ _ _ _ _ _ _ _ _ _ Eo) as S1;
    unfold same_ret in S1; simpl in S1; [| ends_failed S1 E].
  destruct (changes_truthy changes) eqn:Hc; cbn [negb] in E.
  2: { right. exists curr, changes, req, f1. split; [reflexivity |].
       left. inversion E; subst. auto. }
  destruct test.
  { right. exists curr, changes, req, f1. split; [reflexivity |].
    right. left. inversion E; subst x f. simpl. rewrite S1.
    unfold would_install_ret. simpl. auto. }
  destruct (uv_tool.dispatch H name upgrade extras refresh refresh_package force python
              system' user kw curr req f1) as [[b | e] f2] eqn:Ed;
    pose proof (dispatch_same_ret H _ _ _ _ _ _ _ _ _ _ _ _ _ _ _ Ed) as S2;
    unfold same_ret in S2; rewrite S1 in S2; [| ends_failed S2 E].
  rewrite verify_steps in E.
  destruct (uv_tool.salt_tool_list H name system' user kw f2) as [[[[| y l] | t] | e] f3]
    eqn:El;
    pose proof (tool_list_same_ret _ _ _ _ _ _ _ _ El) as S3;
    unfold same_ret in S3; rewrite S2 in S3;
    [ends_failed S3 E | ends_failed S3 E | | ends_failed S3 E].
  destruct (uv_tool._check_changes H P name version_spec upgrade extras python system'
              user kw t f3) as [[nd | e] f4] eqn:Ec;
    pose proof (check_changes_same_ret _ _ _ _ _ _ _ _ _ _ _ _ _ _ Ec) as S4;
    unfold same_ret in S4; rewrite S3 in S4; [| ends_failed S4 E].
  destruct (changes_truthy (fst nd)) eqn:Hn; [ends_failed S4 E |].
  right. exists curr, changes, req, f1. split; [reflexivity |].
  right. right. split; [exact Hc |]. split; [reflexivity |].
  inversion E; subst x f. simpl. split.
  - unfold installed_ret. simpl. rewrite S4. reflexivity.
  - exists b, f2, t, f3, nd, f4. auto 10.
Qed.

End installed_runs.

(** X12: the successful run of [installed].  Outside the dry run, when the
    changes are not empty, the action returns, the tool is listed afterwards
    and the changes computed again are empty, [installed] returns the result
    [True] with the changes it computed before the action, and the comment
    says [reinstalled] when the tool was listed before and [installed] when
    it was not, [globally] or for the user as given. *)
Theorem verified_action_is_reported {W : Type} (H : Host W) (P : Packaging)
    (name : string) (version_spec : option string) (upgrade : bool)
    (extras : option extras_arg) (refresh : bool) (refresh_package : option str_or_list)
    (force : bool) (python : option string) (system : option bool) (user : option string)
    (kw : kwargs) (w : W) (curr : tool_listing) (changes new_changes : changes_t)
    (requires_install new_flag b : bool) (t : tool_info) (f1 f2 f3 f4 : uv_tool.frame) :
  let system' := uv.default_system H system user in
  uv_tool.observe_diff H P name version_spec upgrade extras python system' user kw
    (uv_tool.frame0 name uv_tool.installed_comment w)
  = (Ok (curr, (changes, requires_install)), f1) ->
  changes_truthy changes = true ->
  uv_tool.dispatch H name upgrade extras refresh refresh_package force python system' user
                   kw curr requires_install f1 = (Ok b, f2) ->
  uv_tool.salt_tool_list H name system' user kw f2 = (Ok (Tool t), f3) ->
  uv_tool._check_changes H P name version_spec upgrade extras python system' user kw t f3
  = (Ok (new_changes, new_flag), f4) ->
  changes_truthy new_changes = false ->
  uv_tool.installed H P name version_spec upgrade extras refresh refresh_package force
    python system user kw false w
  = (Ok (installed_ret name system' user curr changes),
     {| uv_tool.world := uv_tool.world f4;
        uv_tool.calls := uv_tool.calls f4;
        uv_tool.ret_dict := installed_ret name system' user curr changes |}).
Proof.
  intros system' Eo Hc Ed El Ec Hn.
  assert (R4 : uv_tool.ret_dict f4 = uv_tool.ret0 name uv_tool.installed_comment).
  { pose proof (observe_diff_same_ret _ _ _ _ _ _ _ _ _ _ _ _ _ Eo) as S1.
    pose proof (dispatch_same_ret H _ _ _ _ _ _ _ _ _ _ _ _ _ _ _ Ed) as S2.
    pose proof (tool_list_same_ret _ _ _ _ _ _ _ _ El) as S3.
    pose proof (check_changes_same_ret _ _ _ _ _ _ _ _ _ _ _ _ _ _ Ec) as S4.
    unfold same_ret in *. rewrite S4, S3, S2, S1. reflexivity. }
  unfold uv_tool.installed, uv_tool.run_state, uv_tool.try_except_salt.
  rewrite installed_try_steps. cbv zeta. fold system'. rewrite Eo, Hc. cbn [negb].
  rewrite Ed, verify_steps, El, Ec. cbn [fst]. rewrite Hn, R4. reflexivity.
Qed.

Lemma verified_action_is_reported_witness :
  fst (uv_tool.installed (toy.host true 0) toy.packaging "copier" None false None false None
         false None None (Some "ada") toy.no_kwargs false "")
  = Ok {| st_name := "copier"; st_result := Some true;
          st_comment := "The tool has been installed for user ada";
          st_changes := uv_tool.set_installed "copier" no_changes |}.
Proof.
  erewrite (verified_action_is_reported (toy.host true 0) toy.packaging "copier" None false
              None false None false None None (Some "ada") toy.no_kwargs "");
    cycle 1.
  - vm_compute. reflexivity.
  - reflexivity.
  - vm_compute. reflexivity.
  - vm_compute. reflexivity.
  - vm_compute. reflexivity.
  - reflexivity.
  - reflexivity.
Defined.

(** X13: the changes [installed] reports are those it computed from the
    first listing, before any action.  In a dry run they come with the
    result [None] and no call after the observation.  Outside the dry run
    they come with the result [True], and only from a run in which the
    action returned, the tool was listed again and the changes computed from
    the second listing were empty. *)
Theorem reported_changes_are_verified {W : Type} (H : Host W) (P : Packaging)
    (name : string) (version_spec : option string) (upgrade : bool)
    (extras : option extras_arg) (refresh : bool) (refresh_package : option str_or_list)
    (force : bool) (python : option string) (system : option bool) (user : option string)
    (kw : kwargs) (test : bool) (w : W) (x : state_ret) (f : uv_tool.frame) :
  let system' := uv.default_system H system user in
  uv_tool.installed H P name version_spec upgrade extras refresh refresh_package force
    python system user kw test w = (Ok x, f) ->
  st_changes x <> no_changes ->
  exists curr requires_install f1,
    uv_tool.observe_diff H P name version_spec upgrade extras python system' user kw
      (uv_tool.frame0 name uv_tool.installed_comment w)
    = (Ok (curr, (st_changes x, requires_install)), f1) /\
    if test then
      st_result x = None /\ uv_tool.calls f = uv_tool.calls f1 /\
      uv_tool.world f = uv_tool.world f1
    else
      x = installed_ret name system' user curr (st_changes x) /\
      exists b f2 t f3 new_diff f4,
        uv_tool.dispatch H name upgrade extras refresh refresh_package force python system'
                         user kw curr requires_install f1 = (Ok b, f2) /\
        uv_tool.salt_tool_list H name system' user kw f2 = (Ok (Tool t), f3) /\
        uv_tool._check_changes H P name version_spec upgrade extras python system' user kw t
                               f3 = (Ok new_diff, f4) /\
        changes_truthy (fst new_diff) = false /\
        uv_tool.calls f = uv_tool.calls f4 /\
        uv_tool.world f = uv_tool.world f4.
Proof.
  intros system' E Hx. unfold uv_tool.installed in E.
  destruct (installed_outcomes H P _ _ _ _ _ _ _ _ _ _ _ _ _ _ _ E)
    as [(e & _ & ->) | (curr & changes & req & f1 & Eo & Hcase)].
  { now destruct Hx. }
  exists curr, req, f1.
  destruct Hcase as [(_ & -> & _) | [(_ & -> & -> & Hcalls & Hw)
                                     | (_ & -> & -> & Hv)]].
  - now destruct Hx.
  - simpl. auto.
  - simpl. auto.
Qed.

Lemma reported_changes_are_verified_witness :
  exists curr requires_install f1,
    uv_tool.observe_diff (toy.host true 0) toy.packaging "copier" None false None None
      (Some true) None toy.no_kwargs (uv_tool.frame0 "copier" uv_tool.installed_comment "")
    = (Ok (curr, (uv_tool.set_installed "copier" no_changes, requires_install)), f1).
Proof.
  destruct (reported_changes_are_verified (toy.host true 0) toy.packaging "copier" None false
              None false None false None None None toy.no_kwargs false ""
              (installed_ret "copier" (Some true) None (Tools [])
                 (uv_tool.set_installed "copier" no_changes))
              (snd (uv_tool.installed (toy.host true 0) toy.packaging "copier" None false
                      None false None false None None None toy.no_kwargs false "")))
    as (curr & req & f1 & Eo & _).
  - vm_compute. reflexivity.
  - discriminate.
  - exists curr, req, f1. exact Eo.
Defined.

(** X14: an action that fails is not followed by a second listing.  When
    the call of [tool_install] or [tool_upgrade] raises an exception of the
    two classes the handler catches, [installed] returns the result [False]
    with the text of the exception as comment and no changes, and the
    dispatched call is the last one of the run; an exception of another
    class leaves [installed] as it is. *)
Theorem failed_action_ends_the_run {W : Type} (H : Host W) (P : Packaging)
    (name : string) (version_spec : option string) (upgrade : bool)
    (extras : option extras_arg) (refresh : bool) (refresh_package : option str_or_list)
    (force : bool) (python : option string) (system : option bool) (user : option string)
    (kw : kwargs) (w : W) (curr : tool_listing) (changes : changes_t)
    (requires_install : bool) (e : exn) (f1 f2 : uv_tool.frame) :
  let system' := uv.default_system H system user in
  let run := uv_tool.installed H P name version_spec upgrade extras refresh refresh_package
               force python system user kw false w in
  uv_tool.observe_diff H P name version_spec upgrade extras python system' user kw
    (uv_tool.frame0 name uv_tool.installed_comment w)
  = (Ok (curr, (changes, requires_install)), f1) ->
  changes_truthy changes = true ->
  uv_tool.dispatch H name upgrade extras refresh refresh_package force python system' user
                   kw curr requires_install f1 = (Raise e, f2) ->
  fst run = (if uv_tool.caught e
             then Ok (uv_tool.failed_ret (uv_tool.ret0 name uv_tool.installed_comment) e)
             else Raise e) /\
  uv_tool.world (snd run) = uv_tool.world f2 /\
  uv_tool.calls (snd run)
  = uv_tool.calls f1 ++ dispatched name upgrade extras refresh refresh_package force python
                                   system' user curr requires_install.
Proof.
  intros system' run Eo Hc Ed.
  assert (Et : uv_tool.installed_try H P name version_spec upgrade extras refresh
                 refresh_package force python system user kw false
                 (uv_tool.frame0 name uv_tool.installed_comment w) = (Raise e, f2)).
  { rewrite installed_try_steps. cbv zeta. fold system'. rewrite Eo, Hc. cbn [negb].
    now rewrite Ed. }
  pose proof (dispatch_calls H _ _ _ _ _ _ _ _ _ _ _ _ _ _ _ Ed) as Cd.
  split; [| split].
  - unfold run. exact (installed_raises H P _ _ _ _ _ _ _ _ _ _ _ _ _ _ _ Et).
  - unfold run, uv_tool.installed. destruct (uv_tool.caught e) eqn:He.
    + now rewrite (run_state_caught _ _ _ _ _ _ Et He).
    + now rewrite (run_state_uncaught _ _ _ _ _ _ Et He).
  - unfold run, uv_tool.installed. now rewrite (run_state_calls _ _ _ _ _ _ Et).
Qed.

Lemma failed_action_ends_the_run_witness :
  fst (uv_tool.installed (toy.host true 1) toy.packaging "copier" None false None false None
         false None None None toy.no_kwargs false "")
  = Ok {| st_name := "copier"; st_result := Some false;
          st_comment := "Failed running 'uv tool install copier': error: failed";
          st_changes := no_changes |} /\
  uv_tool.calls
    (snd (uv_tool.installed (toy.host true 1) toy.packaging "copier" None false None false
            None false None None None toy.no_kwargs false ""))
  = [uv_tool.Call_tool_list ["copier"] (Some true) None;
     uv_tool.Call_tool_install "copier" None false None false false None (Some true) None].
Proof.
  edestruct (failed_action_ends_the_run (toy.host true 1) toy.packaging "copier" None false
               None false None false None None None toy.no_kwargs "")
    as (Hr & _ & Hcalls).
  - vm_compute. reflexivity.
  - reflexivity.
  - vm_compute. reflexivity.
  - split; [rewrite Hr; reflexivity | rewrite Hcalls; reflexivity].
Defined.

(** ** The calls of a run *)
Section calls.

Context {W : Type} (H : Host W) (P : Packaging).

Local Abbreviation frame := (uv_tool.frame (W := W)).

Variable allowed : uv_tool.call -> Prop.






End calls.

Section declared.

Context {W : Type} (H : Host W) (P : Packaging).

Local Abbreviation frame := (uv_tool.frame (W := W)).




End declared.


(** ** The rules of [_check_changes] *)
Section rules.

Context {W : Type} (H : Host W) (P : Packaging).

Local Abbreviation frame := (uv_tool.frame (W := W)).

Lemma version_of_inv {S : Type} (text : string) (v : ver P) (s s' : S) :
  uv.version_of P text s = (Ok v, s') -> Version P text = Some v /\ s' = s.
Proof.
  unfold uv.version_of. destruct (Version P text); intros E; inversion E; auto.
Qed.

Lemma specifier_of_inv {S : Type} (text : string) (ss : specset P) (s s' : S) :
  uv.specifier_of P text s = (Ok ss, s') -> SpecifierSet P text = Some ss /\ s' = s.
Proof.
  unfold uv.specifier_of. destruct (SpecifierSet P text); intros E; inversion E; auto.
Qed.

Lemma check_changes_rules (name : string) (version_spec : option string) (upgrade : bool)
    (extras : option extras_arg) (python : option string) (system : option bool)
    (user : option string) (kw : list (string * kwval)) (curr : tool_info)
    (f f' : frame) (changes : changes_t) (req : bool) :
  uv_tool._check_changes H P name version_spec upgrade extras python system user kw curr f
  = (Ok (changes, req), f') ->
  match extras with
  | Some ex =>
      exists misses f1,
        foldM (uv_tool.check_extra H P upgrade curr) (extras_items ex) [] f
        = (Ok misses, f1) /\
        ch_extras changes = extras_change misses
  | None => ch_extras changes = None
  end /\
  ch_version_spec changes = version_spec_change curr version_spec /\
  (req = true <->
   ch_extras changes <> None \/ ch_version_spec changes <> None \/
   violates P version_spec (t_version curr)).
Proof.
  unfold uv_tool._check_changes. intros E. cbv zeta in E.
  bind_cases E. inversion E0; subst a f0. clear E0.
  match type of E with
  | context [match extras with Some _ => _ | None => ret (?c, false) end] =>
      set (c0 := c) in *
  end.
  assert (I0 : ch_extras c0 = None /\ ch_version_spec c0 = None).
  { unfold c0. destruct python as [py |]; [destruct (negb _) |]; split; reflexivity. }
  clearbody c0.
  (* the extras *)
  bind_cases E. destruct a as [c1 r1]. cbn [fst snd] in E.
  assert (I1 : match extras with
               | Some ex =>
                   exists misses f1,
                     foldM (uv_tool.check_extra H P upgrade curr) (extras_items ex) [] f
                     = (Ok misses, f1) /\
                     ch_extras c1 = extras_change misses
               | None => ch_extras c1 = None
               end /\
               ch_version_spec c1 = None /\
               (r1 = true <-> ch_extras c1 <> None)).
  { destruct I0 as (He & Hs). destruct extras as [ex |].
    - bind_cases E0. destruct a as [| m ms]; inversion E0; subst.
      + split; [eexists _, _; split; [eassumption | exact He] |]. split; [exact Hs |].
        rewrite He. split; [discriminate | congruence].
      + split; [eexists _, _; split; [eassumption | reflexivity] |]. split; [exact Hs |].
        simpl. split; [discriminate | reflexivity].
    - inversion E0; subst. split; [exact He |]. split; [exact Hs |].
      rewrite He. split; [discriminate | congruence]. }
  clear E0 I0. destruct I1 as (Hex & Hs1 & Hr1).
  (* the constraint *)
  bind_cases E. destruct a as [c2 r2]. cbn [fst snd] in E.
  assert (I2 : ch_extras c2 = ch_extras c1 /\
               ch_version_spec c2 = version_spec_change curr version_spec /\
               (r2 = true <-> ch_extras c1 <> None \/ ch_version_spec c2 <> None)).
  { unfold version_spec_change.
    destruct (bool_decide (t_install_spec curr = version_spec)); cbn [negb] in E0.
    - inversion E0; subst. split; [reflexivity |]. split; [exact Hs1 |].
      rewrite Hs1, Hr1. split; [auto | intros [Hx | Hx]; [exact Hx | congruence]].
    - bind_cases E0. bind_cases E0. bind_cases E0.
      destruct (negb (ver_eqb P a0 a1)); inversion E0; subst; simpl;
        (split; [reflexivity |]); (split; [reflexivity |]);
        (split; [intros _; right; discriminate | reflexivity]). }
  clear E0. destruct I2 as (He2 & Hs2 & Hr2).
  (* the version against the constraint *)
  bind_cases E. destruct a as [c3 r3]. cbn [fst snd] in E.
  assert (I3 : ch_extras c3 = ch_extras c2 /\
               ch_version_spec c3 = ch_version_spec c2 /\
               (r3 = true <->
                r2 = true \/ (ch_version_spec c2 = None /\
                              violates P version_spec (t_version curr)))).
  { destruct version_spec as [spec |].
    - destruct (ch_version_spec c2) as [vs |] eqn:Hcvs.
      + inversion E0; subst. rewrite Hcvs. split; [reflexivity |]. split; [reflexivity |].
        split; [auto | intros [Hx | [Hx _]]; [exact Hx | discriminate]].
      + bind_cases E0. apply version_of_inv in E1 as [Ev ->].
        bind_cases E0. apply specifier_of_inv in E1 as [Es ->].
        destruct (spec_contains P a0 a) eqn:Hc; cbn [negb] in E0.
        * inversion E0; subst. rewrite Hcvs.
          split; [reflexivity |]. split; [reflexivity |].
          split; [auto | intros [Hx | [_ Hx]]; [exact Hx |]].
          destruct Hx as (s' & v' & ss' & E1 & E2 & E3 & E4).
          inversion E1; subst s'. congruence.
        * bind_cases E0. inversion E0; subst. simpl. rewrite Hcvs.
          split; [reflexivity |]. split; [reflexivity |].
          split; [| reflexivity]. intros _. right. split; [reflexivity |].
          exists spec, a, a0. auto.
    - inversion E0; subst. split; [reflexivity |]. split; [reflexivity |].
      split; [auto | intros [Hx | [_ Hx]]; [exact Hx |]].
      destruct Hx as (s' & v' & ss' & E1 & _). discriminate E1. }
  clear E0. destruct I3 as (He3 & Hs3 & Hr3).
  (* the upgrade *)
  bind_cases E. assert (Er : req = r3) by now inversion E.
  inversion E; subst a f'. clear E.
  assert (I4 : ch_extras changes = ch_extras c3 /\
               ch_version_spec changes = ch_version_spec c3).
  { assert (Hret : forall (c : changes_t) (g g' : frame),
               ret c g = (Ok changes, g') -> changes = c).
    { intros c g g' Eg. now inversion Eg. }
    destruct (ch_version c3).
    - apply Hret in E0. subst changes. auto.
    - destruct upgrade; [| apply Hret in E0; subst changes; auto].
      bind_cases E0.
      destruct a as [res | res cv lv]; [apply Hret in E0; subst changes; auto |].
      destruct res; apply Hret in E0; subst changes; auto. }
  destruct I4 as (He4 & Hs4).
  split; [| split].
  - destruct extras as [ex |].
    + destruct Hex as (misses & f1' & El & Hm). exists misses, f1'. split; [exact El |].
      congruence.
    + congruence.
  - congruence.
  - rewrite Er, He4, Hs4, He3, Hs3, He2. rewrite Hr3, Hr2.
    destruct (ch_version_spec c2); intuition congruence.
Qed.

End rules.

(** X16: when [_check_changes] asks for a new installation.  The entry for
    the constraint is there exactly when the recorded text is not the
    declared one, and the flag [requires_install] is set exactly when there
    is an entry for the extras, or one for the constraint, or the installed
    version is a version outside the declared constraint.  A change of the
    interpreter or a newer version alone does not set it. *)
Theorem reinstall_is_required_exactly_when {W : Type} (H : Host W) (P : Packaging)
    (name : string) (version_spec : option string) (upgrade : bool)
    (extras : option extras_arg) (python : option string) (system : option bool)
    (user : option string) (kw : list (string * kwval)) (curr : tool_info)
    (f f' : uv_tool.frame) (changes : changes_t) (requires_install : bool) :
  uv_tool._check_changes H P name version_spec upgrade extras python system user kw curr f
  = (Ok (changes, requires_install), f') ->
  ch_version_spec changes = version_spec_change curr version_spec /\
  (requires_install = true <->
   ch_extras changes <> None \/ ch_version_spec changes <> None \/
   violates P version_spec (t_version curr)).
Proof.
  intros E. apply check_changes_rules in E as (_ & Hs & Hr). auto.
Qed.

Lemma reinstall_is_required_exactly_when_witness :
  exists changes f',
    uv_tool._check_changes (toy.host true 0) toy.packaging "copier" (Some "<2") false None
      (Some "/usr/bin/python3") (Some true) None [] listed_copier
      (uv_tool.frame0 "copier" uv_tool.installed_comment toy.installed_copier)
    = (Ok (changes, true), f') /\
    ch_version_spec changes = Some {| old := None; new := Some "<2" |}.
Proof.
  destruct (uv_tool._check_changes (toy.host true 0) toy.packaging "copier" (Some "<2") false
              None (Some "/usr/bin/python3") (Some true) None [] listed_copier
              (uv_tool.frame0 "copier" uv_tool.installed_comment toy.installed_copier))
    as [[[changes req] | e] f'] eqn:E; [| vm_compute in E; discriminate E].
  destruct (reinstall_is_required_exactly_when _ _ _ _ _ _ _ _ _ _ _ _ _ _ _ E) as (Hs & Hr).
  assert (Hq : req = true) by (apply Hr; right; left; rewrite Hs; discriminate).
  subst req. exists changes, f'. split; [reflexivity | exact Hs].
Defined.

(** ** A constraint that cannot be recorded *)
Section empty_constraint.

Context {W : Type} (H : Host W) (P : Packaging).

Local Abbreviation frame := (uv_tool.frame (W := W)).

Lemma or_None_not_empty (o : option string) : or_None o <> Some "".
Proof. destruct o as [[| c s] |]; discriminate. Qed.

(** An answer that is the dict of a tool was read from a listing. *)
Lemma tool_list_listing (query : option str_or_list) (system : option bool)
    (user : option string) (kw : list (string * kwval)) (w w1 : W) (t : tool_info) :
  uv.tool_list H query system user kw w = (Ok (Tool t), w1) ->
  exists out w0,
    uv._uv_tool H "list" [] ["--show-paths"; "--show-version-specifiers"] system user kw w
    = (Ok (OutText out), w0) /\
    str_contains "No tools installed" out = false.
Proof.
  intros E. unfold uv.tool_list in E. cbv zeta in E. bind_cases E.
  destruct (uv_tool_text H _ _ _ _ _ _ _ _ _ E0) as (out & ->).
  exists out, f. split; [exact E0 |].
  destruct (str_contains "No tools installed" out); [discriminate E | reflexivity].
Qed.

(** The constraint [tool_list] records for a tool is never the empty text. *)
Lemma listed_spec_not_empty (name : string) (system : option bool) (user : option string)
    (kw : list (string * kwval)) (f f' : frame) (t : tool_info) :
  uv_tool.salt_tool_list H name system user kw f = (Ok (Tool t), f') ->
  t_install_spec t <> Some "".
Proof.
  intros E. apply salt_frame in E as (E & _).
  destruct (tool_list_listing _ _ _ _ _ _ _ E) as (out & w0 & Eu & Hc).
  destruct (tool_list_one_shape H (StrList [name]) name _ _ _ _ _ _ _ _ eq_refl Eu Hc E)
    as [[Hl _] | (t' & line & spec & Hl & _ & _ & _ & Hs)]; [discriminate Hl |].
  inversion Hl; subst t'. rewrite Hs. apply or_None_not_empty.
Qed.

Lemma changes_truthy_version_spec (c : changes_t) :
  ch_version_spec c <> None -> changes_truthy c = true.
Proof.
  destruct c as [p e s v i r]. simpl. intros Hs.
  destruct s; [| contradiction]. destruct p, e; reflexivity.
Qed.

Lemma empty_constraint_changes (name : string) (upgrade : bool)
    (extras : option extras_arg) (python : option string) (system : option bool)
    (user : option string) (kw : list (string * kwval)) (t : tool_info) (f f' : frame)
    (d : changes_t * bool) :
  uv_tool._check_changes H P name (Some "") upgrade extras python system user kw t f
  = (Ok d, f') ->
  t_install_spec t <> Some "" ->
  changes_truthy (fst d) = true.
Proof.
  intros E Ht. destruct d as [changes req].
  apply check_changes_rules in E as (_ & Hs & _).
  apply changes_truthy_version_spec. simpl. rewrite Hs. unfold version_spec_change.
  rewrite bool_decide_eq_false_2 by exact Ht. discriminate.
Qed.

Lemma observe_diff_empty_constraint (name : string) (upgrade : bool)
    (extras : option extras_arg) (python : option string) (system : option bool)
    (user : option string) (kw : list (string * kwval)) (f f1 : frame)
    (curr : tool_listing) (changes : changes_t) (req : bool) :
  uv_tool.observe_diff H P name (Some "") upgrade extras python system user kw f
  = (Ok (curr, (changes, req)), f1) ->
  changes_truthy changes = true.
Proof.
  unfold uv_tool.observe_diff. intros E. bind_cases E. bind_cases E.
  inversion E; subst. clear E.
  destruct (listing_truthy curr) eqn:Hl.
  - bind_cases E1. destruct curr as [tools | t]; [discriminate E |].
    inversion E; subst.
    apply (empty_constraint_changes _ _ _ _ _ _ _ _ _ _ _ E1).
    eapply listed_spec_not_empty; eauto.
  - inversion E1; subst. reflexivity.
Qed.

End empty_constraint.

(** X17: the empty text is no constraint that [installed] can reach.  The
    recorded constraint of a listed tool is [None] or a text that is not
    empty, and it is compared with the declared one as it is: with
    [version_spec] the empty text, the changes are never empty, so
    [installed] never returns the result [True] (in a dry run the result is
    [None], otherwise the verification after the action fails). *)
Theorem empty_constraint_never_matches {W : Type} (H : Host W) (P : Packaging)
    (name : string) (upgrade : bool) (extras : option extras_arg) (refresh : bool)
    (refresh_package : option str_or_list) (force : bool) (python : option string)
    (system : option bool) (user : option string) (kw : kwargs) (test : bool) (w : W)
    (x : state_ret) (f : uv_tool.frame) :
  uv_tool.installed H P name (Some "") upgrade extras refresh refresh_package force python
    system user kw test w = (Ok x, f) ->
  st_result x <> Some true.
Proof.
  intros E. unfold uv_tool.installed in E.
  destruct (installed_outcomes H P _ _ _ _ _ _ _ _ _ _ _ _ _ _ _ E)
    as [(e & _ & ->) | (curr & changes & req & f1 & Eo & Hcase)]; [discriminate |].
  pose proof (observe_diff_empty_constraint H P _ _ _ _ _ _ _ _ _ _ _ _ Eo) as Hc.
  destruct Hcase as [(Hn & _) | [(_ & _ & -> & _) | (_ & _ & _ & Hv)]].
  - congruence.
  - discriminate.
  - destruct Hv as (b & f2 & t & f3 & nd & f4 & _ & El & Ec & Hn & _).
    pose proof (empty_constraint_changes H P _ _ _ _ _ _ _ _ _ _ _ Ec
                  (listed_spec_not_empty H _ _ _ _ _ _ _ El)).
    congruence.
Qed.

Lemma empty_constraint_never_matches_witness :
  exists x f,
    uv_tool.installed (toy.host true 0) toy.packaging "copier" (Some "") false None false None
      false None None None toy.no_kwargs false toy.installed_copier = (Ok x, f) /\
    st_result x = Some false /\
    st_comment x = "Installation succeeded, but there are still pending changes: {version_spec}" /\
    st_result x <> Some true.
Proof.
  eexists _, _. split; [vm_compute; reflexivity |]. split; [reflexivity |].
  split; [reflexivity |].
  eapply (empty_constraint_never_matches (toy.host true 0) toy.packaging "copier" false None
            false None false None None None toy.no_kwargs false toy.installed_copier).
  vm_compute. reflexivity.
Defined.

(** ** The entry for the extras *)
Section extras_entries.

Context {W : Type} (H : Host W) (P : Packaging).

Local Abbreviation frame := (uv_tool.frame (W := W)).

Lemma dict_get_In {V : Type} (k : string) (v : V) (d : list (string * V)) :
  dict_get k d = Some v -> In (k, v) d.
Proof.
  induction d as [| [k0 v0] d IH]; simpl; [discriminate |].
  destruct (String.eqb k k0) eqn:E.
  - apply String.eqb_eq in E. subst k0. intros Hv. inversion Hv. now left.
  - intros Hv. right. now apply IH.
Qed.

Lemma dict_get_set_keeps {V : Type} (k k' : string) (v : V) (d : list (string * V)) :
  dict_get k d <> None -> dict_get k (dict_set k' v d) <> None.
Proof.
  intros Hk. destruct (String.eqb k k') eqn:E.
  - apply String.eqb_eq in E. subst k'. now rewrite dict_get_set_same.
  - now rewrite dict_get_set_other.
Qed.

Lemma of_result_inv {S A : Type} (r : result A) (a : A) (s s' : S) :
  of_result r s = (Ok a, s') -> r = Ok a /\ s' = s.
Proof. unfold of_result. intros E. inversion E. auto. Qed.

(** One turn of the loop over the extras. *)
Lemma check_extra_entry (upgrade : bool) (curr : tool_info) (items : list extra)
    (misses misses' : list (string * oldnew)) (e : extra) (f f' : frame) :
  In e items ->
  uv_tool.check_extra H P upgrade curr misses e f = (Ok misses', f') ->
  (Forall (extras_entry curr items) misses -> Forall (extras_entry curr items) misses') /\
  (forall k, dict_get k misses <> None -> dict_get k misses' <> None) /\
  (forall pkg spec, uv_tool.extra_pkg_spec e = Ok (pkg, spec) ->
                    t_pkgs curr !! pkg = None -> dict_get pkg misses' <> None).
Proof.
  intros Hin E. unfold uv_tool.check_extra in E.
  bind_cases E. apply of_result_inv in E0 as [Ee ->]. destruct a as [pkg spec].
  cbn [fst snd] in E.
  assert (Hset : forall on,
             old on = t_pkgs curr !! pkg -> new on <> None ->
             (Forall (extras_entry curr items) misses ->
              Forall (extras_entry curr items) (dict_set pkg on misses)) /\
             (forall k, dict_get k misses <> None ->
                        dict_get k (dict_set pkg on misses) <> None) /\
             (forall pkg' spec', uv_tool.extra_pkg_spec e = Ok (pkg', spec') ->
                                 t_pkgs curr !! pkg' = None ->
                                 dict_get pkg' (dict_set pkg on misses) <> None)).
  { intros on Ho Hn. split; [| split].
    - intros Hm. apply dict_set_Forall; [| exact Hm].
      split; [exact Ho |]. split; [exact Hn |]. exists e, spec. auto.
    - intros k. apply dict_get_set_keeps.
    - intros pkg' spec' Ee' _. rewrite Ee in Ee'. inversion Ee'; subst.
      now rewrite dict_get_set_same. }
  assert (Hsame : (Forall (extras_entry curr items) misses ->
                   Forall (extras_entry curr items) misses) /\
                  (forall k, dict_get k misses <> None -> dict_get k misses <> None) /\
                  (forall pkg' spec', uv_tool.extra_pkg_spec e = Ok (pkg', spec') ->
                                      t_pkgs curr !! pkg' = None ->
                                      t_pkgs curr !! pkg <> None ->
                                      dict_get pkg' misses <> None)).
  { split; [auto |]. split; [auto |].
    intros pkg' spec' Ee' Hp Hp'. rewrite Ee in Ee'. inversion Ee'; subst. contradiction. }
  destruct (t_pkgs curr !! pkg) as [iv |] eqn:Hp.
  - assert (Hhere : forall pkg' spec', uv_tool.extra_pkg_spec e = Ok (pkg', spec') ->
                                       t_pkgs curr !! pkg' = None -> False).
    { intros pkg' spec' Ee' Hp'. rewrite Ee in Ee'. inversion Ee'; subst. congruence. }
    bind_cases E. destruct a.
    + bind_cases E. inversion E; subst. apply Hset; [reflexivity | discriminate].
    + destruct upgrade.
      * bind_cases E. bind_cases E. bind_cases E.
        destruct (ver_ltb P a0 a1); inversion E; subst;
          [apply Hset; [reflexivity | discriminate] |].
        split; [auto |]. split; [auto |]. intros pkg' spec' Ee' Hp'.
        destruct (Hhere _ _ Ee' Hp').
      * inversion E; subst. split; [auto |]. split; [auto |]. intros pkg' spec' Ee' Hp'.
        destruct (Hhere _ _ Ee' Hp').
  - bind_cases E. inversion E; subst. apply Hset; [reflexivity | discriminate].
Qed.

(** The loop over the extras. *)
Lemma extras_loop_entries (upgrade : bool) (curr : tool_info) (items l : list extra) :
  (forall e, In e l -> In e items) ->
  forall (misses res : list (string * oldnew)) (f f' : frame),
    foldM (uv_tool.check_extra H P upgrade curr) l misses f = (Ok res, f') ->
    (Forall (extras_entry curr items) misses -> Forall (extras_entry curr items) res) /\
    (forall k, dict_get k misses <> None -> dict_get k res <> None) /\
    (forall e pkg spec, In e l -> uv_tool.extra_pkg_spec e = Ok (pkg, spec) ->
                        t_pkgs curr !! pkg = None -> dict_get pkg res <> None).
Proof.
  induction l as [| e l IH]; intros Hl misses res f f' E; simpl in E.
  - inversion E; subst. split; [auto |]. split; [auto |]. intros e pkg spec [].
  - bind_cases E.
    destruct (check_extra_entry upgrade curr items misses a e f f0 (Hl e (or_introl eq_refl))
                E0) as (H1 & H2 & H3).
    destruct (IH (fun e' He' => Hl e' (or_intror He')) a res f0 f' E) as (I1 & I2 & I3).
    split; [auto |]. split; [auto |].
    intros e' pkg spec [<- | Hin] Ee Hp; [| eauto].
    apply I2. eapply H3; eauto.
Qed.

End extras_entries.

(** X18: what the entry for the extras reports.  Each of its items is for
    the package of a declared extra, with the version of that package in the
    environment as [old] ([None] when the package is not there) and a version
    as [new], and with it the flag [requires_install] is set.  Every declared
    extra whose package is not in the environment has an item, with [old]
    [None]. *)
Theorem extras_entry_reports_the_environment {W : Type} (H : Host W) (P : Packaging)
    (name : string) (version_spec : option string) (upgrade : bool) (ex : extras_arg)
    (python : option string) (system : option bool) (user : option string)
    (kw : list (string * kwval)) (curr : tool_info) (f f' : uv_tool.frame)
    (changes : changes_t) (requires_install : bool) :
  uv_tool._check_changes H P name version_spec upgrade (Some ex) python system user kw curr f
  = (Ok (changes, requires_install), f') ->
  (forall misses,
     ch_extras changes = Some misses ->
     requires_install = true /\ Forall (extras_entry curr (extras_items ex)) misses) /\
  (forall e pkg spec,
     In e (extras_items ex) ->
     uv_tool.extra_pkg_spec e = Ok (pkg, spec) ->
     t_pkgs curr !! pkg = None ->
     exists misses entry,
       ch_extras changes = Some misses /\ dict_get pkg misses = Some entry /\
       old entry = None).
Proof.
  intros E. apply check_changes_rules in E as ((misses & f1 & El & Hm) & _ & Hr).
  destruct (extras_loop_entries H P upgrade curr (extras_items ex) (extras_items ex)
              (fun e He => He) [] misses f f1 El) as (H1 & _ & H3).
  specialize (H1 ltac:(constructor)). split.
  - intros m Hc. split; [apply Hr; left; congruence |].
    rewrite Hm in Hc. destruct misses; inversion Hc; subst. exact H1.
  - intros e pkg spec Hin Ee Hp. specialize (H3 e pkg spec Hin Ee Hp).
    destruct (dict_get pkg misses) as [entry |] eqn:Hg; [| contradiction].
    exists misses, entry. split; [| split; [exact Hg |]].
    + rewrite Hm. destruct misses; [discriminate Hg | reflexivity].
    + apply dict_get_In in Hg. rewrite Forall_forall in H1.
      apply list_elem_of_In in Hg. destruct (H1 _ Hg) as (Ho & _). simpl in Ho.
      now rewrite Ho.
Qed.

Lemma extras_entry_reports_the_environment_witness :
  exists changes f',
    uv_tool._check_changes (toy.host true 0) toy.packaging "copier" None false
      (Some (ExtrasList [ExtraName "plumbum"])) None (Some true) None [] listed_copier
      (uv_tool.frame0 "copier" uv_tool.installed_comment toy.installed_copier)
    = (Ok (changes, true), f') /\
    ch_extras changes = Some [("plumbum", {| old := None; new := Some "1.2.0" |})].
Proof.
  destruct (uv_tool._check_changes (toy.host true 0) toy.packaging "copier" None false
              (Some (ExtrasList [ExtraName "plumbum"])) None (Some true) None []
              listed_copier
              (uv_tool.frame0 "copier" uv_tool.installed_comment toy.installed_copier))
    as [[[changes req] | e] f'] eqn:E; [| vm_compute in E; discriminate E].
  destruct (extras_entry_reports_the_environment _ _ _ _ _ _ _ _ _ _ _ _ _ _ _ E)
    as (Hs & Hc).
  destruct (Hc (ExtraName "plumbum") "plumbum" None) as (misses & entry & Hm & _);
    [now left | reflexivity | reflexivity |].
  destruct (Hs misses Hm) as (-> & _).
  exists changes, f'. split; [reflexivity |].
  vm_compute in E. inversion E; subst. reflexivity.
Defined.

(** X19: the extras [installed] hands to [tool_install] follow the
    declaration item by item: a name stands for itself, a mapping for the
    name of its first item followed by its specifier, which are the package
    and the specifier [_check_changes] reads from the same item.  A mapping
    without items is the one declaration that cannot be handed on: it raises
    [StopIteration]. *)
Theorem flattened_extras_follow_declaration (l : list extra) :
  match uv_tool.flatten_extras l with
  | Ok names => Forall2 with_argument l names
  | Raise err => err = StopIteration /\ In (ExtraMapping []) l
  end.
Proof.
  induction l as [| e l IH]; simpl; [constructor |].
  destruct e as [pkg | [| [pkg spec] items]]; simpl.
  - destruct (uv_tool.flatten_extras l) as [names | err].
    + constructor; [| exact IH]. exists pkg, None. split; reflexivity.
    + destruct IH as [-> Hin]. auto.
  - auto.
  - destruct (uv_tool.flatten_extras l) as [names | err].
    + constructor; [| exact IH]. exists pkg, (Some spec). split; reflexivity.
    + destruct IH as [-> Hin]. auto.
Qed.

(** ** The commands of the actions *)
Section actions.

Context {W : Type} (H : Host W).

Lemma uv_tool_Ok_inv (cmd : string) (params options : list string) (system : option bool)
    (user : option string) (kw : list (string * kwval)) (w w' : W) (out : uv_out) :
  uv._uv_tool H cmd params options system user kw w = (Ok out, w') ->
  exists cmdline res,
    cmd_run_all H cmdline (Some (uv._uv_tool_env H system user kw)) user w = (Ok res, w') /\
    retcode res = 0%Z /\ out = OutText (stdout res).
Proof.
  unfold uv._uv_tool, uv._uv. cbv zeta. intros E.
  destruct (negb (forallb _ _)); [discriminate E |].
  bind_cases E. destruct (retcode a =? 0)%Z eqn:Hr; [| discriminate E].
  cbn [negb] in E. inversion E; subst. apply Z.eqb_eq in Hr. eauto.
Qed.

Lemma tool_install_upgrade_Ok_inv (cmd : string) (args : list string)
    (python : option string) (upgrade : bool) (upgrade_package : option str_or_list)
    (options : list string) (system : option bool) (user : option string)
    (kw : list (string * kwval)) (w w' : W) (b : bool) :
  uv._tool_install_upgrade H cmd args python upgrade upgrade_package options system user kw w
  = (Ok b, w') ->
  b = true /\
  exists cmdline res,
    cmd_run_all H cmdline (Some (uv._uv_tool_env H system user kw)) user w = (Ok res, w') /\
    retcode res = 0%Z.
Proof.
  unfold uv._tool_install_upgrade. cbv zeta. intros E. bind_cases E.
  inversion E; subst. split; [reflexivity |].
  apply uv_tool_Ok_inv in E0 as (cmdline & res & Ec & Hr & _). eauto.
Qed.

End actions.

(** X20: an action of the module returns only after [uv] has ended with the
    status 0.  [tool_install], [tool_upgrade], [tool_upgrade_all],
    [tool_remove] and [tool_remove_all] never return [False]: when one of
    them returns, it returns [True], one command was run through
    [cmd.run_all] as [user] with the environment of [_uv_tool], it ended
    with the status 0, and the world is as that command left it. *)
Theorem actions_return_after_exit_zero {W : Type} (H : Host W) (name : string)
    (extras with_requirements refresh_package reinstall_package upgrade_package
       : option str_or_list)
    (refresh reinstall force upgrade : bool) (python : option string)
    (system : option bool) (user : option string) (kw : list (string * kwval))
    (w w' : W) (b : bool) :
  uv.tool_install H name extras with_requirements refresh refresh_package reinstall
    reinstall_package force python upgrade upgrade_package system user kw w = (Ok b, w') \/
  uv.tool_upgrade H name python upgrade upgrade_package system user kw w = (Ok b, w') \/
  uv.tool_upgrade_all H python upgrade upgrade_package system user kw w = (Ok b, w') \/
  uv.tool_remove H name system user kw w = (Ok b, w') \/
  uv.tool_remove_all H system user kw w = (Ok b, w') ->
  b = true /\
  exists cmdline res,
    cmd_run_all H cmdline (Some (uv._uv_tool_env H system user kw)) user w = (Ok res, w') /\
    retcode res = 0%Z.
Proof.
  intros [E | [E | [E | [E | E]]]].
  - unfold uv.tool_install in E. cbv zeta in E. bind_cases E. inversion E; subst.
    split; [reflexivity |]. now apply tool_install_upgrade_Ok_inv in E0.
  - now apply tool_install_upgrade_Ok_inv in E.
  - now apply tool_install_upgrade_Ok_inv in E.
  - unfold uv.tool_remove in E. bind_cases E. inversion E; subst.
    split; [reflexivity |]. apply uv_tool_Ok_inv in E0 as (cmdline & res & Ec & Hr & _).
    eauto.
  - unfold uv.tool_remove_all in E. bind_cases E. inversion E; subst.
    split; [reflexivity |]. apply uv_tool_Ok_inv in E0 as (cmdline & res & Ec & Hr & _).
    eauto.
Qed.

Lemma actions_return_after_exit_zero_witness :
  exists cmdline res,
    toy.run_all true 0 cmdline
      (Some [("UV_TOOL_BIN_DIR", "/usr/local/bin"); ("UV_TOOL_DIR", "/opt/uv/tools")]) None
      toy.installed_copier
    = (Ok res, "") /\
    retcode res = 0%Z.
Proof.
  destruct (actions_return_after_exit_zero (toy.host true 0) "copier" None None None None
              None false false false false None None None [] toy.installed_copier "" true)
    as (_ & cmdline & res & E & Hr).
  - right. right. right. left. vm_compute. reflexivity.
  - exists cmdline, res. split; [exact E | exact Hr].
Defined.

(** X9: [tool_is_outdated] without [spec] is held to the constraint the tool
    was installed with.  For a listed tool, leaving [spec] out is the same
    as giving the recorded constraint, and the same as [False] (no
    constraint) when none is recorded. *)
Theorem outdated_defaults_to_recorded_spec {W : Type} (H : Host W) (P : Packaging)
    (name : string) (get_versions : bool) (system : option bool) (user : option string)
    (kw : list (string * kwval)) (w w1 : W) (t : tool_info) :
  uv.tool_list H (Some (StrList [name])) system user kw w = (Ok (Tool t), w1) ->
  uv.tool_is_outdated H P name Spec_None get_versions system user kw w
  = uv.tool_is_outdated H P name (recorded_spec t) get_versions system user kw w.
Proof.
  intros El. unfold uv.tool_is_outdated. rewrite !(bind_Ok _ _ _ _ _ El).
  cbn [listing_truthy negb]. unfold recorded_spec, uv.the_tool.
  destruct t as [py pv [[| c s] |] ver venv pkgs]; reflexivity.
Qed.

Lemma outdated_defaults_to_recorded_spec_witness :
  uv.tool_is_outdated (toy.host true 0) toy.packaging "copier" Spec_None true None None []
    "copier v1.0.0 [required: <2] (/opt/uv/tools/copier)"
  = uv.tool_is_outdated (toy.host true 0) toy.packaging "copier" (Spec_str "<2") true None
      None [] "copier v1.0.0 [required: <2] (/opt/uv/tools/copier)".
Proof.
  erewrite (outdated_defaults_to_recorded_spec (toy.host true 0) toy.packaging "copier" true
              None None [] "copier v1.0.0 [required: <2] (/opt/uv/tools/copier)");
    cycle 1.
  - vm_compute. reflexivity.
  - reflexivity.
Defined.

(** ** What a successful run has seen *)
Section declared_state.

Context {W : Type} (H : Host W) (P : Packaging).

Local Abbreviation frame := (uv_tool.frame (W := W)).

Lemma changes_truthy_false (c : changes_t) : changes_truthy c = false -> c = no_changes.
Proof.
  destruct c as [[p |] [e |] [s |] [v |] [i |] [r |]]; simpl; intros E;
    try discriminate E; reflexivity.
Qed.

Lemma python_change_None (python : option string) (t : tool_info) (w : W) :
  python_change H python t w = None -> interpreter_matches H python t w.
Proof.
  unfold python_change, interpreter_matches. destruct python as [py |]; [| auto].
  destruct (String.eqb_spec (t_python t) (Path_resolve H py w)); [auto | discriminate].
Qed.

(** Empty changes are computed only from a dict that shows what was
    declared. *)
Lemma no_changes_as_declared (name : string) (version_spec : option string)
    (upgrade : bool) (extras : option extras_arg) (python : option string)
    (system : option bool) (user : option string) (kw : list (string * kwval))
    (t : tool_info) (f f' : frame) (d : changes_t * bool) :
  uv_tool._check_changes H P name version_spec upgrade extras python system user kw t f
  = (Ok d, f') ->
  changes_truthy (fst d) = false ->
  d = (no_changes, false) /\
  as_declared H P version_spec extras python t (uv_tool.world f).
Proof.
  intros E Hn. destruct d as [changes req]. cbn [fst] in Hn.
  apply changes_truthy_false in Hn. subst changes.
  pose proof (check_changes_shape H P _ _ _ _ _ _ _ _ _ _ _ _ E) as (Hp & _ & _ & Hf).
  cbn [fst snd] in Hp, Hf.
  assert (Hreq : req = false).
  { destruct req; [| reflexivity]. destruct (Hf eq_refl) as [Hx | [Hx | Hx]]; now destruct Hx. }
  subst req. split; [reflexivity |].
  apply check_changes_rules in E as (Hex & Hs & Hr). cbn [ch_extras ch_version_spec] in *.
  split; [| split; [| split]].
  - unfold version_spec_change in Hs.
    destruct (bool_decide (t_install_spec t = version_spec)) eqn:Hd; [| discriminate Hs].
    now apply bool_decide_eq_true in Hd.
  - apply python_change_None. now rewrite <- Hp.
  - intros Hv. assert (Ht : false = true) by (apply Hr; auto). discriminate Ht.
  - intros ex e pkg spec -> Hin Ee Hm.
    destruct Hex as (misses & f1 & El & Hc).
    destruct (extras_loop_entries H P upgrade t (extras_items ex) (extras_items ex)
                (fun e He => He) [] misses f f1 El) as (_ & _ & H3).
    specialize (H3 e pkg spec Hin Ee Hm).
    destruct misses; [now destruct H3 | discriminate Hc].
Qed.

(** When [observe_diff] finds nothing to change, the tool is listed. *)
Lemma observe_diff_no_changes (name : string) (version_spec : option string)
    (upgrade : bool) (extras : option extras_arg) (python : option string)
    (system : option bool) (user : option string) (kw : list (string * kwval))
    (f f1 : frame) (curr : tool_listing) (changes : changes_t) (req : bool) :
  uv_tool.observe_diff H P name version_spec upgrade extras python system user kw f
  = (Ok (curr, (changes, req)), f1) ->
  changes_truthy changes = false ->
  exists t fb,
    uv_tool.salt_tool_list H name system user kw f = (Ok (Tool t), fb) /\
    uv_tool._check_changes H P name version_spec upgrade extras python system user kw t fb
    = (Ok (changes, req), f1).
Proof.
  unfold uv_tool.observe_diff. intros E Hn. bind_cases E. bind_cases E.
  inversion E; subst. clear E.
  destruct (listing_truthy curr) eqn:Hl.
  - bind_cases E1. destruct curr as [tools | t]; [discriminate E |].
    inversion E; subst. eauto.
  - inversion E1; subst. discriminate Hn.
Qed.

End declared_state.

(** X22: the result [True] of [installed] stands for what was declared.
    Whenever [installed] returns the result [True], the last thing the run
    did was to list the tool and to compute empty changes from its dict: the
    tool is listed, its recorded constraint is the declared one as a text,
    its interpreter is the declared one, its version is no version outside
    the constraint, and the package of every declared extra is in its
    environment. *)
Theorem success_means_declared_state {W : Type} (H : Host W) (P : Packaging)
    (name : string) (version_spec : option string) (upgrade : bool)
    (extras : option extras_arg) (refresh : bool) (refresh_package : option str_or_list)
    (force : bool) (python : option string) (system : option bool) (user : option string)
    (kw : kwargs) (test : bool) (w : W) (x : state_ret) (f : uv_tool.frame) :
  let system' := uv.default_system H system user in
  uv_tool.installed H P name version_spec upgrade extras refresh refresh_package force
    python system user kw test w = (Ok x, f) ->
  st_result x = Some true ->
  exists t fa fb f4,
    uv_tool.salt_tool_list H name system' user kw fa = (Ok (Tool t), fb) /\
    uv_tool._check_changes H P name version_spec upgrade extras python system' user kw t fb
    = (Ok (no_changes, false), f4) /\
    uv_tool.calls f = uv_tool.calls f4 /\
    uv_tool.world f = uv_tool.world f4 /\
    as_declared H P version_spec extras python t (uv_tool.world fb).
Proof.
  intros system' E Hx. unfold uv_tool.installed in E.
  destruct (installed_outcomes H P _ _ _ _ _ _ _ _ _ _ _ _ _ _ _ E)
    as [(e & _ & ->) | (curr & changes & req & f1 & Eo & Hcase)]; [discriminate Hx |].
  destruct Hcase as [(Hn & _ & ->) | [(_ & _ & -> & _) | (_ & _ & _ & Hv)]].
  - destruct (observe_diff_no_changes H P _ _ _ _ _ _ _ _ _ _ _ _ _ Eo Hn)
      as (t & fb & El & Ec).
    destruct (no_changes_as_declared H P _ _ _ _ _ _ _ _ _ _ _ _ Ec Hn) as (Hd & Ha).
    inversion Hd; subst.
    exists t, (uv_tool.frame0 name uv_tool.installed_comment w), fb, f1. auto.
  - discriminate Hx.
  - destruct Hv as (b & f2 & t & f3 & nd & f4 & _ & El & Ec & Hn & Hcalls & Hw).
    destruct (no_changes_as_declared H P _ _ _ _ _ _ _ _ _ _ _ _ Ec Hn) as (-> & Ha).
    exists t, f2, f3, f4. auto.
Qed.

Lemma success_means_declared_state_witness :
  exists t fa fb f4,
    uv_tool.salt_tool_list (toy.host true 0) "copier" (Some true) None toy.no_kwargs fa
    = (Ok (Tool t), fb) /\
    uv_tool._check_changes (toy.host true 0) toy.packaging "copier" None false None
      (Some "/opt/uv/tools/copier/bin/python") (Some true) None toy.no_kwargs t fb
    = (Ok (no_changes, false), f4) /\
    t_install_spec t = None /\
    t_python t = "/opt/uv/tools/copier/bin/python".
Proof.
  destruct (success_means_declared_state (toy.host true 0) toy.packaging "copier" None false
              None false None false (Some "/opt/uv/tools/copier/bin/python") None None
              toy.no_kwargs false ""
              (installed_ret "copier" (Some true) None (Tools [])
                 (uv_tool.set_installed "copier" no_changes))
              (snd (uv_tool.installed (toy.host true 0) toy.packaging "copier" None false
                      None false None false (Some "/opt/uv/tools/copier/bin/python") None
                      None toy.no_kwargs false "")))
    as (t & fa & fb & f4 & El & Ec & _ & _ & Hs & Hp & _).
  - vm_compute. reflexivity.
  - reflexivity.
  - exists t, fa, fb, f4. split; [exact El |]. split; [exact Ec |].
    split; [exact Hs | exact Hp].
Defined.
